(** * Darts analysis API: job orchestration and status tracking

    A shallow embedding of [backend/app.py]: upload admission, the two
    job stores (the SQLite [jobs] table and the per-job [status.json]
    document), the background orchestrator and the read endpoints,
    followed by the properties of the design document that were checked
    against it.

    Conventions of the embedding.
    - A Python [str] is a Rocq [string]; each character is read as a code
      point below 256.
    - A duration is a binary64 value ([double], the [spec_float] of the
      standard library at precision 53): the parser's arithmetic, the
      comparison with the limit and the formatting of the message are
      those of IEEE 754, with Python's [OverflowError] where an [int] is
      too large for a [float].  [int(s)] refuses more than 4300 digits,
      the default of CPython 3.11 and later.
    - The other floats, progress values and time stamps, are exact
      rationals ([Q]).  Only comparisons of short decimal literals occur
      there, and rounding to binary64 is monotone, so the order of the
      literals is the order of the rationals.
    - Paths are lists of components below [ROOT]; a text written to a file
      is kept as its bytes.
    - Exceptions are values; every function that can raise returns a
      [result], and stateful functions thread a [world].  Faults of the
      file system that the code can meet are modelled (a missing parent, a
      directory where a file is expected); faults of the SQLite engine
      and of the interpreter are not.
    - The world carries a history of every store write and every process
      exit, in order.  No function of the program reads it; it is there to
      state properties of runs.
    - The JSON library, the child processes, the clock and the media
      tools are parameters: a [JsonCodec] and an [env]. *)

From Stdlib Require Import ZArith QArith Qround String Ascii List Sorted Lia.
From Stdlib Require Import PrimFloat SpecFloat FloatOps.
From stdpp Require Import base option list sorting gmap strings pretty.
Import ListNotations.
Open Scope string_scope.
Open Scope Z_scope.
Open Scope list_scope.
Set Warnings "-register-all,-inexact-float".

(* ================================================================= *)
(** * Part I: definitions *)
(* ================================================================= *)

(** ** Text helpers *)

Definition chars (s : string) : list ascii := list_ascii_of_string s.
Definition text (l : list ascii) : string := string_of_list_ascii l.

Definition code (c : ascii) : Z := Z.of_N (N_of_ascii c).

(** [\d] on code points below 256: the ASCII digits. *)
Definition is_digit (c : ascii) : bool := (48 <=? code c) && (code c <=? 57).

(** [\s] of a [str] pattern on code points below 256: the characters for
    which [str.isspace()] holds. *)
Definition is_space (c : ascii) : bool :=
  ((9 <=? code c) && (code c <=? 13))
  || ((28 <=? code c) && (code c <=? 32))
  || (code c =? 133) || (code c =? 160).

(** Longest prefix of [s] whose characters satisfy [p], and what follows:
    a greedy [p*]. *)
Fixpoint span (p : ascii -> bool) (s : list ascii) : list ascii * list ascii :=
  match s with
  | c :: s' =>
      if p c then let '(a, b) := span p s' in (c :: a, b) else ([], s)
  | [] => ([], [])
  end.

(** [strip_prefix p s] is [Some r] when [s = p ++ r]. *)
Fixpoint strip_prefix (p s : list ascii) : option (list ascii) :=
  match p, s with
  | [], _ => Some s
  | a :: p', b :: s' => if Ascii.eqb a b then strip_prefix p' s' else None
  | _ :: _, [] => None
  end.

Definition nonempty {A} (l : list A) : bool :=
  match l with [] => false | _ :: _ => true end.

(** The rest of [s] after a leading [c]. *)
Definition expect (c : ascii) (s : list ascii) : option (list ascii) :=
  match s with
  | x :: r => if Ascii.eqb x c then Some r else None
  | [] => None
  end.

Definition digit_val (c : ascii) : Z := code c - 48.

(** The value of a string of ASCII digits. *)
Definition py_int (ds : list ascii) : Z :=
  fold_left (fun acc c => acc * 10 + digit_val c) ds 0.

(** ** Exceptions and results *)

Inductive exn :=
| HTTPException (status_code : Z) (detail : string)
| PyError (type_name : string) (message : string).

(** [type(e).__name__] and [str(e)]. *)
Definition exn_type_name (e : exn) : string :=
  match e with
  | HTTPException _ _ => "HTTPException"
  | PyError t _ => t
  end.

Definition exn_str (e : exn) : string :=
  match e with
  | HTTPException c d => pretty c +:+ ": " +:+ d
  | PyError _ m => m
  end.

Inductive result (A : Type) :=
| Ok (a : A)
| Raise (e : exn).
Arguments Ok {A} a.
Arguments Raise {A} e.

(** ** Binary64

    The floats of the duration check.  [53] and [1024] are the precision
    and the exponent bound of binary64. *)
Definition double : Set := spec_float.

Definition double_add : double -> double -> double := SFadd 53 1024.

(** [a < b] and [a <= b] on floats; false when either is a NaN. *)
Definition double_lt : double -> double -> bool := SFltb.
Definition double_le : double -> double -> bool := SFleb.

Definition is_infinite (d : double) : bool :=
  match d with S754_infinity _ => true | _ => false end.

(** A float that is not a NaN and whose sign bit is clear. *)
Definition sign_clear (d : double) : Prop :=
  match d with
  | S754_zero s | S754_infinity s | S754_finite s _ _ => s = false
  | S754_nan => False
  end.

(** The double nearest to [n / d], ties to even: an infinity when that
    lies beyond the largest double. *)
Definition nearest_double (n : Z) (d : positive) : double :=
  match n with
  | Z0 => S754_zero false
  | Zpos p => SFdiv 53 1024 (S754_finite false p 0) (S754_finite false d 0)
  | Zneg p => SFdiv 53 1024 (S754_finite true p 0) (S754_finite false d 0)
  end.

(** The conversion of an [int] operand of [int + float]. *)
Definition double_of_int (n : Z) : result double :=
  match nearest_double n 1 with
  | S754_infinity _ => Raise (PyError "OverflowError" "int too large to convert to float")
  | d => Ok d
  end.

(** The exact value of a finite double. *)
Definition double_value (d : double) : Q :=
  match d with
  | S754_finite s m e =>
      let v := if 0 <=? e then inject_Z (Zpos m * 2 ^ e)
               else Qmake (Zpos m) (Z.to_pos (2 ^ (- e))) in
      if s then (- v)%Q else v
  | _ => 0%Q
  end.

(** [int(x)] of a finite double: towards zero. *)
Definition double_trunc (d : double) : Z :=
  Z.quot (Qnum (double_value d)) (Zpos (Qden (double_value d))).

(** [sys.get_int_max_str_digits()]. *)
Definition INT_MAX_STR_DIGITS : nat := 4300.

(** [int(ds)] for a string of ASCII digits. *)
Definition int_of_digits (ds : list ascii) : result Z :=
  if (INT_MAX_STR_DIGITS <? length ds)%nat then
    Raise (PyError "ValueError"
             ("Exceeds the limit (4300 digits) for integer string conversion: value has "
              +:+ pretty (length ds)
              +:+ " digits; use sys.set_int_max_str_digits() to increase the limit"))
  else Ok (py_int ds).

(** [float(t)] for [t] of the shape [digits] or [digits.digits], the only
    shapes group 3 of the duration pattern can hold: the double nearest
    to the decimal number, whatever its length. *)
Definition py_float_decimal (t : list ascii) : double :=
  let '(i, r) := span is_digit t in
  match expect "." r with
  | Some f => nearest_double (py_int (i ++ f)) (Z.to_pos (10 ^ Z.of_nat (length f)))
  | None => nearest_double (py_int i) 1
  end.

(** ** Video duration helpers *)

(** [_DURATION_RE = Duration:\s*(\d+):(\d+):(\d+(?:\.\d+)?)] matched at the
    head of [s]; the result holds groups 1, 2 and 3.  Every quantifier of
    the pattern is greedy and is followed by a character outside its own
    class, so the backtracking matcher has a single candidate at each
    position and a left-to-right scan computes it. *)
Definition duration_match_here (s : list ascii)
  : option (list ascii * list ascii * list ascii) :=
  match strip_prefix (chars "Duration:") s with
  | None => None
  | Some s0 =>
      let '(_, s1) := span is_space s0 in
      let '(g1, s2) := span is_digit s1 in
      if nonempty g1 then
        match expect ":" s2 with
        | None => None
        | Some s3 =>
            let '(g2, s4) := span is_digit s3 in
            if nonempty g2 then
              match expect ":" s4 with
              | None => None
              | Some s5 =>
                  let '(si, s6) := span is_digit s5 in
                  if nonempty si then
                    match expect "." s6 with
                    | None => Some (g1, g2, si)
                    | Some s7 =>
                        let '(f, _) := span is_digit s7 in
                        if nonempty f then Some (g1, g2, si ++ "."%char :: f)
                        else Some (g1, g2, si)
                    end
                  else None
              end
            else None
        end
      else None
  end.

(** [_DURATION_RE.search]: the match at the leftmost position that has one. *)
Fixpoint duration_search (s : list ascii)
  : option (list ascii * list ascii * list ascii) :=
  match duration_match_here s with
  | Some m => Some m
  | None =>
      match s with
      | [] => None
      | _ :: s' => duration_search s'
      end
  end.

Definition _parse_duration_from_ffmpeg_stderr (stderr : string) : result (option double) :=
  if String.eqb stderr "" then Ok None
  else
    match duration_search (chars stderr) with
    | None => Ok None
    | Some (g1, g2, g3) =>
        match int_of_digits g1 with
        | Raise e => Raise e
        | Ok hh =>
            match int_of_digits g2 with
            | Raise e => Raise e
            | Ok mm =>
                let ss := py_float_decimal g3 in
                match double_of_int (hh * 3600 + mm * 60) with
                | Raise e => Raise e
                | Ok whole => Ok (Some (double_add whole ss))
                end
            end
        end
    end.

(** The pattern as a relation: [DurationAt t g1 g2 g3] holds when the
    pattern matches a prefix of [t] with the given groups, every
    quantifier taking as much as it can. *)
Definition digits1 (l : list ascii) : Prop :=
  l <> [] /\ Forall (fun c => is_digit c = true) l.

Definition no_digit_ahead (rest : list ascii) : Prop :=
  match rest with
  | c :: _ => is_digit c = false
  | [] => True
  end.

Definition no_fraction_ahead (rest : list ascii) : Prop :=
  match expect "." rest with
  | Some r => no_digit_ahead r
  | None => True
  end.

Inductive DurationAt : list ascii -> list ascii -> list ascii -> list ascii -> Prop :=
| DurationAt_whole ws hh mm si rest :
    Forall (fun c => is_space c = true) ws ->
    digits1 hh -> digits1 mm -> digits1 si ->
    no_digit_ahead rest -> no_fraction_ahead rest ->
    DurationAt (chars "Duration:" ++ ws ++ hh ++ ":"%char :: mm ++ ":"%char :: si ++ rest)
               hh mm si
| DurationAt_fraction ws hh mm si f rest :
    Forall (fun c => is_space c = true) ws ->
    digits1 hh -> digits1 mm -> digits1 si -> digits1 f ->
    no_digit_ahead rest ->
    DurationAt (chars "Duration:" ++ ws ++ hh ++ ":"%char :: mm ++ ":"%char :: si
                  ++ "."%char :: f ++ rest)
               hh mm (si ++ "."%char :: f).

(** The double written [3723.45]. *)
Definition seconds_3723_45 : double := S754_finite false 8187953140885094 (-41).

(** A line that gives a clip [n] nines of hours. *)
Definition hours_of_nines (n : nat) : string :=
  "  Duration: " +:+ text (replicate n "9"%char) +:+ ":00:00.00, start: 0.000000".

(** No match of the pattern starts at any of the first [n] positions of [s]. *)
Fixpoint no_match_before (n : nat) (s : list ascii) : bool :=
  match n with
  | O => true
  | S n' =>
      match duration_match_here s with
      | Some _ => false
      | None => match s with [] => true | _ :: s' => no_match_before n' s' end
      end
  end.

(** ** JSON values

    The values [json.loads] produces and [json.dumps] accepts.  A [dict]
    is the list of its items in insertion order, with distinct keys. *)
Inductive json :=
| JNull
| JBool (b : bool)
| JInt (n : Z)
| JFloat (q : Q)
| JStr (s : string)
| JList (l : list json)
| JDict (d : list (string * json)).

Fixpoint assoc {V} (k : string) (d : list (string * V)) : option V :=
  match d with
  | [] => None
  | (k', v) :: d' => if String.eqb k' k then Some v else assoc k d'
  end.

(** [d[k] = v] on a dict: an existing key keeps its place. *)
Fixpoint dict_set {V} (k : string) (v : V) (d : list (string * V)) : list (string * V) :=
  match d with
  | [] => [(k, v)]
  | (k', v') :: d' =>
      if String.eqb k' k then (k, v) :: d' else (k', v') :: dict_set k v d'
  end.

(** Truth value of a JSON value, as [or] and [if] test it. *)
Definition truthy (v : json) : bool :=
  match v with
  | JNull => false
  | JBool b => b
  | JInt n => negb (n =? 0)
  | JFloat q => negb (Qeq_bool q 0)
  | JStr s => negb (String.eqb s "")
  | JList l => nonempty l
  | JDict d => nonempty d
  end.

(** [a or b]. *)
Definition py_or (a b : json) : json := if truthy a then a else b.

(** An optional string as a JSON value. *)
Definition jopt (o : option string) : json :=
  match o with Some s => JStr s | None => JNull end.

(** The JSON library.  [json_dumps v] is [json.dumps(v, indent=2)];
    [json_loads t] is [json.loads(t)], [None] when it raises
    [JSONDecodeError], whose text is [json_error t]. *)
Class JsonCodec := {
  json_dumps : json -> string;
  json_loads : string -> option json;
  json_error : string -> string
}.

(** ** The world: file system, job table, and the record of what happened *)

Definition path := list string.
Definition bytes := list Byte.byte.

Inductive node :=
| File (data : bytes)
| Dir.

(** [str(p)], written relative to [ROOT]. *)
Definition path_str (p : path) : string := String.concat "/" p.

Definition ROOT : path := [].
Definition UPLOADS_DIR : path := ROOT ++ ["uploads"].
Definition RESULTS_DIR : path := ROOT ++ ["results"].
Definition RUN_ENGINE : path := ROOT ++ ["run_engine.py"].
Definition COMBINE_VIEWS : path := ROOT ++ ["combine_views.py"].
Definition BUILD_COMBINED : path := ROOT ++ ["build_combined_outputs.py"].

Definition MAX_UPLOAD_BYTES : Z := 400 * 1024 * 1024.
(** [70.0]. *)
Definition MAX_VIDEO_SECONDS : double := nearest_double 70 1.

(** A row of the [jobs] table; nullable columns are options. *)
Record job_row := {
  job_id : string;
  user_id : string;
  created_at_unix : Q;
  original_filename : option string;
  upload_ext : option string;
  upload_path : option string;
  status : string;
  progress : option Q;
  stage : option string;
  error_message : option string;
  overlay_url : option string;
  analysis_url : option string;
  practice_plan_url : option string;
  practice_plan_txt_url : option string;
  lesson_plan_url : option string;
  throws_detected : option Z
}.

Record proc_result := {
  returncode : Z;
  stdout : string;
  stderr : string
}.

(** What a run leaves behind, in order: every statement sent to the job
    table, every status document written, and every external process
    with its result and the file system it left. *)
Inductive event :=
| DbInsert (row : job_row)
| DbUpdate (jid : string) (st : option string) (pr : option Q) (sg : option string)
| DbFailed (jid : string) (msg : string)
| DbDone (jid : string) (overlay analysis practice practice_txt lesson : option string)
    (throws : option Z)
| DocWrite (jid : string) (payload : json)
| ProcExit (cmd : list string) (res : proc_result) (after : gmap path node).

Record world := {
  fs : gmap path node;
  jobs : gmap string job_row;
  history : list event;
  clock : nat
}.

Definition with_fs (f : gmap path node -> gmap path node) (w : world) : world :=
  {| fs := f (fs w); jobs := jobs w; history := history w; clock := clock w |}.

Definition with_jobs (f : gmap string job_row -> gmap string job_row) (w : world) : world :=
  {| fs := fs w; jobs := f (jobs w); history := history w; clock := clock w |}.

Definition record (e : event) (w : world) : world :=
  {| fs := fs w; jobs := jobs w; history := history w ++ [e]; clock := clock w |}.

(** What lies outside the program: the child processes, the clock, the
    interpreter and the media tools.  [subprocess_run cmd m] is the result
    of [subprocess.run(cmd, ...)] started on file system [m], and the file
    system when it exits. *)
Record env := {
  subprocess_run : list string -> gmap path node -> proc_result * gmap path node;
  time_time : nat -> Q;
  sys_executable : string;
  ffmpeg_exe : option string;
  ffprobe_exe : string;
  ffprobe_exe_exists : bool;
  py_float : string -> option double;
  uuid4_hex : nat -> string
}.

(** ** Computations: state and exceptions *)

Definition M (A : Type) : Type := world -> result A * world.

Definition ret {A} (a : A) : M A := fun w => (Ok a, w).
Definition raise {A} (e : exn) : M A := fun w => (Raise e, w).

Definition bind {A B} (m : M A) (k : A -> M B) : M B :=
  fun w =>
    match m w with
    | (Ok a, w') => k a w'
    | (Raise e, w') => (Raise e, w')
    end.

Notation "'let*' x := m 'in' k" := (bind m (fun x => k))
  (at level 10, x name, m at level 100, k at level 200).
Notation "'let*' ' pat := m 'in' k" := (bind m (fun x => match x with pat => k end))
  (at level 10, pat pattern, m at level 100, k at level 200).

(** [try: m  except Exception as e: h e]. *)
Definition try_except {A} (m : M A) (h : exn -> M A) : M A :=
  fun w =>
    match m w with
    | (Ok a, w') => (Ok a, w')
    | (Raise e, w') => h e w'
    end.

(** [try: m  except Exception: pass]. *)
Definition try_pass (m : M unit) : M unit := try_except m (fun _ => ret tt).

Definition get {A} (f : world -> A) : M A := fun w => (Ok (f w), w).
Definition modify (f : world -> world) : M unit := fun w => (Ok tt, f w).

(** ** File system operations *)

(** [ROOT] itself always exists. *)
Definition node_at (m : gmap path node) (p : path) : option node :=
  match p with
  | [] => Some Dir
  | _ :: _ => m !! p
  end.

Definition parent (p : path) : path := removelast p.

Definition os_error {A} (kind what : string) (p : path) : M A :=
  raise (PyError kind (what +:+ ": '" +:+ path_str p +:+ "'")).

(** [p.exists()]. *)
Definition exists_ (p : path) : M bool :=
  get (fun w => match node_at (fs w) p with Some _ => true | None => false end).

(** [p.mkdir(parents=True, exist_ok=True)], from the top down: [seen] is
    the prefix already known to be a directory. *)
Fixpoint mkdir_from (seen : path) (todo : list string) : M unit :=
  match todo with
  | [] => ret tt
  | c :: todo' =>
      let q := seen ++ [c] in
      let* n := get (fun w => node_at (fs w) q) in
      match n with
      | Some Dir => mkdir_from q todo'
      | Some (File _) =>
          match todo' with
          | [] => os_error "FileExistsError" "[Errno 17] File exists" q
          | _ :: _ => os_error "NotADirectoryError" "[Errno 20] Not a directory" (q ++ todo')
          end
      | None =>
          let* _ := modify (with_fs (insert q Dir)) in
          mkdir_from q todo'
      end
  end.

Definition mkdir_parents (p : path) : M unit := mkdir_from [] p.

(** [open(p, "wb")]: the file is created, or emptied when it exists. *)
Definition open_wb (p : path) : M unit :=
  let* n := get (fun w => node_at (fs w) p) in
  match n with
  | Some Dir => os_error "IsADirectoryError" "[Errno 21] Is a directory" p
  | _ =>
      let* d := get (fun w => node_at (fs w) (parent p)) in
      match d with
      | Some Dir => modify (with_fs (insert p (File [])))
      | Some (File _) => os_error "NotADirectoryError" "[Errno 20] Not a directory" p
      | None => os_error "FileNotFoundError" "[Errno 2] No such file or directory" p
      end
  end.

(** [f.write(chunk)] on a file opened at [p]: the bytes go to its end. *)
Definition write_chunk (p : path) (chunk : bytes) : M unit :=
  modify (with_fs (fun m =>
    match m !! p with
    | Some (File d) => <[p := File (d ++ chunk)]> m
    | _ => m
    end)).

(** [p.write_text(s, encoding="utf-8")]; a text is kept as its bytes. *)
Definition write_text (p : path) (s : string) : M unit :=
  let* _ := open_wb p in
  write_chunk p (list_byte_of_string s).

(** [p.read_text(encoding="utf-8")]. *)
Definition read_text (p : path) : M string :=
  let* n := get (fun w => node_at (fs w) p) in
  match n with
  | Some (File d) => ret (string_of_list_byte d)
  | Some Dir => os_error "IsADirectoryError" "[Errno 21] Is a directory" p
  | None => os_error "FileNotFoundError" "[Errno 2] No such file or directory" p
  end.

(** [p.unlink()]. *)
Definition unlink (p : path) : M unit :=
  let* n := get (fun w => node_at (fs w) p) in
  match n with
  | Some (File _) => modify (with_fs (delete p))
  | Some Dir => os_error "IsADirectoryError" "[Errno 21] Is a directory" p
  | None => os_error "FileNotFoundError" "[Errno 2] No such file or directory" p
  end.

(** The clean-up idiom of the upload path:
    [try: if p.exists(): p.unlink()  except Exception: pass]. *)
Definition remove_quietly (p : path) : M unit :=
  try_pass (let* e := exists_ p in if e then unlink p else ret tt).

(** ** Saving an upload under a size limit *)

(** An [UploadFile]: its name and the bytes its stream still holds.  A
    missing name and an empty name are both the empty string, which is
    all the code can tell ([not upl.filename]). *)
Record UploadFile := {
  filename : string;
  file : bytes
}.

(** [1024 * 1024], the size asked of each [read]. *)
Definition CHUNK : nat := Z.to_nat (1024 * 1024).

(** The variables of the copy loop: what [upload.file] has not yet
    handed out, and [written]. *)
Record copy_state := {
  unread : bytes;
  written : Z
}.

Inductive copy_status :=
| Copying
| Finished
| TooLarge.

(** [f.write(chunk)] as a change of the world. *)
Definition append_file (p : path) (chunk : bytes) (w : world) : world :=
  with_fs (fun m =>
    match m !! p with
    | Some (File d) => <[p := File (d ++ chunk)]> m
    | _ => m
    end) w.

(** One turn of [while True]: read a chunk, stop at the end of the
    stream, count, give up over the limit, else write. *)
Definition copy_step (dest : path) (max_bytes : Z) (st : copy_state) (w : world)
  : copy_status * copy_state * world :=
  let chunk := take CHUNK (unread st) in
  let rest := drop CHUNK (unread st) in
  if nonempty chunk then
    let written' := written st + Z.of_nat (length chunk) in
    let st' := {| unread := rest; written := written' |} in
    if written' >? max_bytes then (TooLarge, st', w)
    else (Copying, st', append_file dest chunk w)
  else (Finished, {| unread := rest; written := written st |}, w).

(** The loop, cut after [n] turns. *)
Fixpoint copy_loop (dest : path) (max_bytes : Z) (n : nat) (st : copy_state) (w : world)
  : copy_status * copy_state * world :=
  match n with
  | O => (Copying, st, w)
  | S n' =>
      match copy_step dest max_bytes st w with
      | (Copying, st', w') => copy_loop dest max_bytes n' st' w'
      | r => r
      end
  end.

Definition too_large (max_bytes : Z) : exn :=
  HTTPException 413
    ("File too large. Max is " +:+ pretty (max_bytes / (1024 * 1024)) +:+ "MB.").

(** The body of the [try]: open, copy, return [written].  Every turn but
    the last takes a non-empty chunk off the stream, so one turn more
    than the stream has bytes always ends the loop. *)
Definition save_upload_body (upload : UploadFile) (dest : path) (max_bytes : Z) : M Z :=
  let* _ := open_wb dest in
  fun w =>
    match copy_loop dest max_bytes (S (length (file upload)))
            {| unread := file upload; written := 0 |} w with
    | (Finished, st, w') => (Ok (written st), w')
    | (TooLarge, _, w') => (Raise (too_large max_bytes), w')
    | (Copying, _, w') => (Raise (PyError "RuntimeError" "copy loop did not end"), w')
    end.

Definition save_upload_with_limit (upload : UploadFile) (dest : path) (max_bytes : Z) : M Z :=
  let* _ := mkdir_parents (parent dest) in
  try_except (save_upload_body upload dest max_bytes)
    (fun e =>
       match e with
       | HTTPException _ _ =>
           let* _ := remove_quietly dest in
           raise e
       | PyError _ _ =>
           let* _ := remove_quietly dest in
           raise (HTTPException 500
                    ("Failed to save upload: " +:+ exn_type_name e +:+ ": " +:+ exn_str e))
       end).

(** Size of the file at [p], when there is one. *)
Definition disk_size (p : path) (w : world) : Z :=
  match fs w !! p with
  | Some (File d) => Z.of_nat (length d)
  | _ => 0
  end.

Definition empty_world : world :=
  {| fs := ∅; jobs := ∅; history := []; clock := O |}.

(** What holds of the loop variables and of the file at [dest] after any
    number of turns of the copy loop over [stream], by the way the last
    turn ended. *)
Definition copy_post (dest : path) (max_bytes : Z) (stream : bytes)
    (s : copy_status) (st : copy_state) (w : world) : Prop :=
  exists d,
    fs w !! dest = Some (File d)
    /\ Z.of_nat (length d) <= max_bytes
    /\ match s with
       | Copying => d ++ unread st = stream /\ written st = Z.of_nat (length d)
       | Finished => d = stream /\ written st = Z.of_nat (length d) /\ unread st = []
       | TooLarge =>
           exists chunk,
             d ++ chunk ++ unread st = stream
             /\ written st = Z.of_nat (length d) + Z.of_nat (length chunk)
             /\ (length chunk <= CHUNK)%nat
             /\ max_bytes < written st
       end.

(** ** SQLite helpers

    The [jobs] table is a map from [job_id], its primary key, to rows.
    Each helper opens a connection, runs one statement and commits; the
    statement is recorded in the history once it has run. *)

Definition db_insert_job (job_id user_id : string) (created_at_unix : Q)
    (original_filename upload_ext upload_path : string) : M unit :=
  let row :=
    {| job_id := job_id; user_id := user_id; created_at_unix := created_at_unix;
       original_filename := Some original_filename;
       upload_ext := Some upload_ext;
       upload_path := Some upload_path;
       status := "queued"; progress := Some 0.0%Q; stage := Some "starting";
       error_message := None;
       overlay_url := None; analysis_url := None; practice_plan_url := None;
       practice_plan_txt_url := None; lesson_plan_url := None;
       throws_detected := None |} in
  let* old := get (fun w => jobs w !! job_id) in
  match old with
  | Some _ => raise (PyError "IntegrityError" "UNIQUE constraint failed: jobs.job_id")
  | None =>
      let* _ := modify (with_jobs (insert job_id row)) in
      modify (record (DbInsert row))
  end.

(** [COALESCE(?, col)] for a column that cannot be null and for one that
    can. *)
Definition coalesce {A} (arg : option A) (col : A) : A :=
  match arg with Some a => a | None => col end.

Definition coalesce_opt {A} (arg : option A) (col : option A) : option A :=
  match arg with Some a => Some a | None => col end.

(** The [SET] clause of [db_update_job_status]. *)
Definition set_status_progress_stage (st : option string) (pr : option Q)
    (sg : option string) (r : job_row) : job_row :=
  {| job_id := job_id r; user_id := user_id r; created_at_unix := created_at_unix r;
     original_filename := original_filename r; upload_ext := upload_ext r;
     upload_path := upload_path r;
     status := coalesce st (status r);
     progress := coalesce_opt pr (progress r);
     stage := coalesce_opt sg (stage r);
     error_message := error_message r;
     overlay_url := overlay_url r; analysis_url := analysis_url r;
     practice_plan_url := practice_plan_url r;
     practice_plan_txt_url := practice_plan_txt_url r;
     lesson_plan_url := lesson_plan_url r;
     throws_detected := throws_detected r |}.

(** [UPDATE jobs SET ... WHERE job_id = ?]: the row with that key, when
    there is one, is rewritten; no other row is touched. *)
Definition db_update_job_status (job_id : string) (status : option string)
    (progress : option Q) (stage : option string) : M unit :=
  let* _ := modify (with_jobs (alter (set_status_progress_stage status progress stage) job_id)) in
  modify (record (DbUpdate job_id status progress stage)).

(** The [SET] clause of [db_mark_job_failed]. *)
Definition set_failed (msg : string) (r : job_row) : job_row :=
  {| job_id := job_id r; user_id := user_id r; created_at_unix := created_at_unix r;
     original_filename := original_filename r; upload_ext := upload_ext r;
     upload_path := upload_path r;
     status := "failed";
     progress := Some 1.0%Q;
     stage := Some "failed";
     error_message := Some msg;
     overlay_url := overlay_url r; analysis_url := analysis_url r;
     practice_plan_url := practice_plan_url r;
     practice_plan_txt_url := practice_plan_txt_url r;
     lesson_plan_url := lesson_plan_url r;
     throws_detected := throws_detected r |}.

Definition db_mark_job_failed (job_id error_message : string) : M unit :=
  let* _ := modify (with_jobs (alter (set_failed error_message) job_id)) in
  modify (record (DbFailed job_id error_message)).

(** The [SET] clause of [db_mark_job_done]. *)
Definition set_done (overlay analysis practice practice_txt lesson : option string)
    (throws : option Z) (r : job_row) : job_row :=
  {| job_id := job_id r; user_id := user_id r; created_at_unix := created_at_unix r;
     original_filename := original_filename r; upload_ext := upload_ext r;
     upload_path := upload_path r;
     status := "done";
     progress := Some 1.0%Q;
     stage := Some "done";
     error_message := None;
     overlay_url := overlay; analysis_url := analysis;
     practice_plan_url := practice;
     practice_plan_txt_url := practice_txt;
     lesson_plan_url := lesson;
     throws_detected := throws |}.

(** An [int] bound to a statement has to fit the 64-bit [INTEGER] of
    SQLite: [sqlite3] raises [OverflowError] for any other, before the
    statement runs. *)
Definition fits_sqlite_integer (n : Z) : bool := (- 2 ^ 63 <=? n) && (n <? 2 ^ 63).

Definition sqlite_overflow : exn :=
  PyError "OverflowError" "Python int too large to convert to SQLite INTEGER".

Definition db_mark_job_done (job_id : string)
    (overlay_url analysis_url practice_plan_url practice_plan_txt_url lesson_plan_url
       : option string)
    (throws_detected : option Z) : M unit :=
  if match throws_detected with Some n => fits_sqlite_integer n | None => true end then
    let* _ := modify (with_jobs (alter
                (set_done overlay_url analysis_url practice_plan_url practice_plan_txt_url
                   lesson_plan_url throws_detected) job_id)) in
    modify (record (DbDone job_id overlay_url analysis_url practice_plan_url
                      practice_plan_txt_url lesson_plan_url throws_detected))
  else raise sqlite_overflow.

(** ** Job status files *)

(** [RESULTS_DIR / job_id] for a job id that is one path component, as
    the ids [analyze] makes are.  What [pathlib] and the file system do
    with an id that is empty, [.], [..] or holds a slash is outside the
    embedding. *)
Definition _job_dir (job_id : string) : path := RESULTS_DIR ++ [job_id].

Definition _job_file (job_id filename : string) : path := _job_dir job_id ++ [filename].

Definition _status_path (job_id : string) : path := _job_dir job_id ++ ["status.json"].

(** [obj.get(key)]: the value, [None] for a missing key; only a dict has
    the method. *)
Definition py_type_name (v : json) : string :=
  match v with
  | JNull => "NoneType"
  | JBool _ => "bool"
  | JInt _ => "int"
  | JFloat _ => "float"
  | JStr _ => "str"
  | JList _ => "list"
  | JDict _ => "dict"
  end.

Definition py_get (v : json) (key : string) : M json :=
  match v with
  | JDict d => ret (match assoc key d with Some x => x | None => JNull end)
  | _ => raise (PyError "AttributeError"
                  ("'" +:+ py_type_name v +:+ "' object has no attribute 'get'"))
  end.

Section Stores.
Context {codec : JsonCodec}.

(** [json.loads(path.read_text(encoding="utf-8"))]. *)
Definition load_json (p : path) : M json :=
  let* t := read_text p in
  match json_loads t with
  | Some v => ret v
  | None => raise (PyError "JSONDecodeError" (json_error t))
  end.

Definition _safe_read_json (p : path) : M (option json) :=
  try_except
    (let* e := exists_ p in
     if negb e then ret None
     else let* v := load_json p in ret (Some v))
    (fun _ => ret None).

Definition write_status (job_id : string) (payload : json) : M unit :=
  let d := _job_dir job_id in
  let* _ := mkdir_parents d in
  let* _ := write_text (_status_path job_id) (json_dumps payload) in
  modify (record (DocWrite job_id payload)).

Definition queued_placeholder (job_id : string) : json :=
  JDict [("job_id", JStr job_id);
         ("status", JStr "queued");
         ("progress", JFloat 0.0%Q);
         ("stage", JStr "starting");
         ("started_at_unix", JNull);
         ("finished_at_unix", JNull);
         ("error", JNull);
         ("result", JNull)].

Definition not_found_marker (job_id : string) : json :=
  JDict [("job_id", JStr job_id); ("status", JStr "not_found")].

Definition read_status (job_id : string) : M json :=
  let p := _status_path job_id in
  let* e := exists_ p in
  if negb e then
    let* d := exists_ (_job_dir job_id) in
    if d then ret (queued_placeholder job_id)
    else ret (not_found_marker job_id)
  else load_json p.

(** [GET /jobs/{job_id}]: the JSON body of the response. *)
Definition job (job_id : string) : M json := read_status job_id.

Definition _infer_txt_url (job_id : string) : M (option string) :=
  let p := _job_dir job_id ++ ["combined"; "practice_plan.txt"] in
  let* e := exists_ p in
  if e then ret (Some ("/results/" +:+ job_id +:+ "/combined/practice_plan.txt"))
  else ret None.

(** Prefer web overlay if present; else full overlay; else None. *)
Definition _pick_overlay_url (job_id view : string) : M (option string) :=
  let base := _job_dir job_id ++ [view] in
  let web := base ++ ["overlay_release_web.mp4"] in
  let full := base ++ ["overlay_release.mp4"] in
  let* w := exists_ web in
  if w then ret (Some ("/results/" +:+ job_id +:+ "/" +:+ view +:+ "/overlay_release_web.mp4"))
  else
    let* f := exists_ full in
    if f then ret (Some ("/results/" +:+ job_id +:+ "/" +:+ view +:+ "/overlay_release.mp4"))
    else ret None.

End Stores.

(** ** More text helpers *)

(** [s[-n:]], the last [n] characters. *)
Definition str_tail (n : nat) (s : string) : string :=
  let l := chars s in text (drop (length l - n) l).

(** [s[:n]]. *)
Definition str_take (n : nat) (s : string) : string := text (take n (chars s)).

(** [s.strip()]. *)
Definition py_strip (s : string) : string :=
  let l := snd (span is_space (chars s)) in
  text (rev (snd (span is_space (rev l)))).

(** [s.lower()] on code points below 256: the ASCII capitals, and the
    Latin-1 capitals 192 to 222 but for the multiplication sign (215). *)
Definition lower_char (c : ascii) : ascii :=
  if ((65 <=? code c) && (code c <=? 90))
     || ((192 <=? code c) && (code c <=? 222) && negb (code c =? 215))
  then ascii_of_N (N_of_ascii c + 32) else c.

Definition lower (s : string) : string := text (map lower_char (chars s)).

(** The components of a POSIX path string: the pieces between slashes,
    without the empty ones and the dots. *)
Fixpoint split_slash (cur : list ascii) (s : list ascii) : list (list ascii) :=
  match s with
  | [] => [rev cur]
  | c :: s' =>
      if Ascii.eqb c "/" then rev cur :: split_slash [] s'
      else split_slash (c :: cur) s'
  end.

Definition path_name (s : string) : list ascii :=
  List.last (filter (fun x => nonempty x && negb (String.eqb (text x) "."))
               (split_slash [] (chars s))) [].

(** Position of the first dot of [l]. *)
Fixpoint find_dot (l : list ascii) : option nat :=
  match l with
  | [] => None
  | c :: l' =>
      if Ascii.eqb c "." then Some O
      else match find_dot l' with Some j => Some (S j) | None => None end
  end.

(** [Path(s).suffix]: the name from its last dot on, when that dot is
    neither its first nor its last character. *)
Definition py_suffix (s : string) : string :=
  let name := path_name s in
  match find_dot (rev name) with
  | Some j =>
      let i := (length name - 1 - j)%nat in
      if (0 <? i)%nat && (i <? length name - 1)%nat then text (drop i name) else ""
  | None => ""
  end.

(** Nearest integer, ties to even. *)
Definition round_half_even (t : Q) : Z :=
  let f := Qfloor t in
  let r := (t - inject_Z f)%Q in
  match Qcompare r (1 # 2) with
  | Lt => f
  | Gt => f + 1
  | Eq => if Z.even f then f else f + 1
  end.

(** [f"{q:.1f}"] of a number given exactly. *)
Definition format_1f (q : Q) : string :=
  let n := round_half_even (q * 10)%Q in
  let a := Z.abs n in
  (if Qle_bool 0 q then "" else "-") +:+ pretty (a / 10) +:+ "." +:+ pretty (a mod 10).

(** [f"{d:.1f}"] of a float: the exact value of the double is rounded. *)
Definition double_format_1f (d : double) : string :=
  match d with
  | S754_nan => "nan"
  | S754_infinity s => if s then "-inf" else "inf"
  | S754_zero s => if s then "-0.0" else "0.0"
  | S754_finite _ _ _ => format_1f (double_value d)
  end.

(** ** Processes, clock, duration probe *)

Record thread := {
  t_job_id : string;
  t_side_path : option path;
  t_front_path : option path;
  t_model : string;
  t_no_ai : bool
}.

Definition tick (w : world) : world :=
  {| fs := fs w; jobs := jobs w; history := history w; clock := S (clock w) |}.

Section Program.
Context {codec : JsonCodec} (E : env).

(** [time.time()]. *)
Definition now : M Q := fun w => (Ok (time_time E (clock w)), tick w).

(** [subprocess.run(cmd, capture_output=True, text=True)], when it
    returns a result: the command could be started and what it printed
    decodes as text.  The [OSError] and [UnicodeDecodeError] it raises
    otherwise are outside the embedding, and every statement about a
    process below is about one whose result came back. *)
Definition run (cmd : list string) : M proc_result :=
  fun w =>
    let '(r, m') := subprocess_run E cmd (fs w) in
    (Ok r, record (ProcExit cmd r m') (with_fs (fun _ => m') w)).

(** Uses imageio-ffmpeg binary for portability.  Tries ffprobe if present
    next to ffmpeg, otherwise falls back to parsing ffmpeg output. *)
Definition get_video_duration_seconds (p : path) : M double :=
  match ffmpeg_exe E with
  | None => raise (PyError "RuntimeError" "imageio-ffmpeg is required to validate duration")
  | Some exe =>
      let* probed :=
        if ffprobe_exe_exists E then
          let cmd := [ffprobe_exe E; "-v"; "error"; "-show_entries"; "format=duration";
                      "-of"; "default=noprint_wrappers=1:nokey=1"; path_str p] in
          let* pr := run cmd in
          if returncode pr =? 0 then ret (py_float E (py_strip (stdout pr)))
          else ret None
        else ret None in
      match probed with
      | Some d => ret d
      | None =>
          let cmd2 := [exe; "-i"; path_str p] in
          let* p2 := run cmd2 in
          match _parse_duration_from_ffmpeg_stderr (stderr p2) with
          | Raise e => raise e
          | Ok None => raise (PyError "RuntimeError" "Could not detect video duration")
          | Ok (Some dur) => ret dur
          end
      end
  end.

(** ** Background worker *)

Definition no_ai_flag (no_ai : bool) : list string :=
  if no_ai then ["--no-ai"] else [].

(** Runs run_engine.py for one view into results/<job_id>/<view>/ *)
Definition _run_single_view (job_id view : string) (upload_path : path)
    (model : string) (no_ai : bool) : M unit :=
  let outdir := _job_dir job_id ++ [view] in
  let* _ := mkdir_parents outdir in
  let cmd := [sys_executable E; "-u"; path_str RUN_ENGINE;
              "--input"; path_str upload_path;
              "--outdir"; path_str outdir;
              "--model"; model] ++ no_ai_flag no_ai in
  let* p := run cmd in
  if negb (returncode p =? 0) then
    raise (PyError "RuntimeError"
             (view +:+ " pipeline failed (exit " +:+ pretty (returncode p)
              +:+ "). STDERR tail: " +:+ str_tail 1200 (stderr p)))
  else ret tt.

Definition status_payload (job_id status : string) (progress : Q) (stage : string)
    (started finished error result : json) : json :=
  JDict [("job_id", JStr job_id);
         ("status", JStr status);
         ("progress", JFloat progress);
         ("stage", JStr stage);
         ("started_at_unix", started);
         ("finished_at_unix", finished);
         ("error", error);
         ("result", result)].

Definition json_of_option (o : option json) : json :=
  match o with Some v => v | None => JNull end.

(** [--side]/[--front] for an analysis file that is wanted and exists. *)
Definition analysis_arg (flag : string) (analysis : option path) : M (list string) :=
  match analysis with
  | Some a =>
      let* e := exists_ a in
      ret (if e then [flag; path_str a] else [])
  | None => ret []
  end.

(** [x if isinstance(x, int) else None]; a [bool] is an [int]. *)
Definition int_or_none (v : json) : option Z :=
  match v with
  | JInt n => Some n
  | JBool b => Some (if b then 1 else 0)
  | _ => None
  end.

(** The [try] block of [start_background_job], cut at its numbered
    comments.  1) run pipelines per view. *)
Definition stage_views (job_id : string) (side_path front_path : option path)
    (model : string) (no_ai : bool) : M unit :=
  let* _ :=
    match side_path with
    | Some sp =>
        let* _ := db_update_job_status job_id (Some "running") (Some 0.10%Q)
                    (Some "running_side") in
        _run_single_view job_id "side" sp model no_ai
    | None => ret tt
    end in
  match front_path with
  | Some fp =>
      let* _ := db_update_job_status job_id (Some "running") (Some 0.45%Q)
                  (Some "running_front") in
      _run_single_view job_id "front" fp model no_ai
  | None => ret tt
  end.

Definition combined_dir (job_id : string) : path := _job_dir job_id ++ ["combined"].
Definition combined_analysis (job_id : string) : path :=
  combined_dir job_id ++ ["analysis.json"].

(** 2) combine analyses -> results/<job_id>/combined/analysis.json *)
Definition stage_combine (job_id : string) (side_path front_path : option path) : M unit :=
  let* _ := mkdir_parents (combined_dir job_id) in
  let side_analysis :=
    match side_path with
    | Some _ => Some (_job_dir job_id ++ ["side"; "analysis.json"])
    | None => None
    end in
  let front_analysis :=
    match front_path with
    | Some _ => Some (_job_dir job_id ++ ["front"; "analysis.json"])
    | None => None
    end in
  let* _ := db_update_job_status job_id (Some "running") (Some 0.75%Q)
              (Some "combining_views") in
  let* side_arg := analysis_arg "--side" side_analysis in
  let* front_arg := analysis_arg "--front" front_analysis in
  let cmd_combine := [sys_executable E; "-u"; path_str COMBINE_VIEWS;
                      "--out"; path_str (combined_analysis job_id)]
                     ++ side_arg ++ front_arg in
  let* p := run cmd_combine in
  if negb (returncode p =? 0) then
    raise (PyError "RuntimeError"
             ("combine_views failed. STDERR: " +:+ str_tail 1200 (stderr p)))
  else ret tt.

(** 3) build combined lesson + practice plan + PDF in combined/ *)
Definition stage_build (job_id model : string) (no_ai : bool) : M unit :=
  let* _ := db_update_job_status job_id (Some "running") (Some 0.88%Q)
              (Some "building_combined_outputs") in
  let cmd_build := [sys_executable E; "-u"; path_str BUILD_COMBINED;
                    "--analysis"; path_str (combined_analysis job_id);
                    "--outdir"; path_str (combined_dir job_id);
                    "--model"; model] ++ no_ai_flag no_ai in
  let* p2 := run cmd_build in
  if negb (returncode p2 =? 0) then
    raise (PyError "RuntimeError"
             ("build_combined_outputs failed. STDERR: " +:+ str_tail 1200 (stderr p2)))
  else ret tt.

(** 4) collect overlays, 5) read combined outputs, 6) final status payload
    and the [done] row. *)
Definition stage_result (job_id : string) (side_path front_path : option path) : M unit :=
  let* overlay_side_url :=
    match side_path with
    | Some _ => _pick_overlay_url job_id "side"
    | None => ret None
    end in
  let* overlay_front_url :=
    match front_path with
    | Some _ => _pick_overlay_url job_id "front"
    | None => ret None
    end in
  (* Keep legacy overlay_url behavior: prefer side then front *)
  let overlay_url :=
    match overlay_side_url with
    | Some u => Some u
    | None => overlay_front_url
    end in
  let combined_practice_plan_path := combined_dir job_id ++ ["practice_plan.json"] in
  let combined_lesson_plan_path := combined_dir job_id ++ ["lesson_plan.json"] in
  let* practice_plan_obj :=
    (let* e := exists_ combined_practice_plan_path in
     if e then _safe_read_json combined_practice_plan_path else ret None) in
  let* lesson_plan_obj :=
    (let* e := exists_ combined_lesson_plan_path in
     if e then _safe_read_json combined_lesson_plan_path else ret None) in
  let analysis_url := "/results/" +:+ job_id +:+ "/combined/analysis.json" in
  let pdf_url := "/results/" +:+ job_id +:+ "/combined/practice_plan.pdf" in
  let lesson_url := "/results/" +:+ job_id +:+ "/combined/lesson_plan.json" in
  let* txt_url := _infer_txt_url job_id in
  let* combined_read := _safe_read_json (combined_analysis job_id) in
  let combined_obj := py_or (json_of_option combined_read) (JDict []) in
  let* summary0 := py_get combined_obj "summary" in
  let summary := py_or summary0 (JDict []) in
  let* throws_detected := py_get summary "throws_detected" in
  let result :=
    JDict [("overlay_url", jopt overlay_url);
           ("overlay_side_url", jopt overlay_side_url);
           ("overlay_front_url", jopt overlay_front_url);
           ("analysis_url", JStr analysis_url);
           ("lesson_plan_url", JStr lesson_url);
           ("practice_plan_pdf_url", JStr pdf_url);
           ("practice_plan_txt_url", jopt txt_url);
           ("practice_plan", json_of_option practice_plan_obj);
           ("lesson_plan", json_of_option lesson_plan_obj);
           ("analysis_summary", summary);
           ("views", JDict [("side", JBool (bool_decide (is_Some side_path)));
                            ("front", JBool (bool_decide (is_Some front_path)))])] in
  let* st := read_status job_id in
  let* started := py_get st "started_at_unix" in
  let* finished := now in
  let* _ := write_status job_id
              (status_payload job_id "done" 1.0%Q "done" started (JFloat finished)
                 JNull result) in
  db_mark_job_done job_id overlay_url (Some analysis_url) (Some pdf_url) txt_url
    (Some lesson_url) (int_or_none throws_detected).

Definition pipeline (job_id : string) (side_path front_path : option path)
    (model : string) (no_ai : bool) : M unit :=
  let* _ := stage_views job_id side_path front_path model no_ai in
  let* _ := stage_combine job_id side_path front_path in
  let* _ := stage_build job_id model no_ai in
  stage_result job_id side_path front_path.

(** The [except Exception as e] block. *)
Definition on_failure (job_id : string) (e : exn) : M unit :=
  let err_msg := exn_type_name e +:+ ": " +:+ exn_str e in
  let* _ := db_mark_job_failed job_id err_msg in
  let* st := read_status job_id in
  let* started := py_get st "started_at_unix" in
  let* finished := now in
  write_status job_id
    (status_payload job_id "failed" 1.0%Q "failed" started (JFloat finished)
       (JDict [("message", JStr err_msg)]) JNull).

Definition start_background_job (job_id : string) (side_path front_path : option path)
    (model : string) (no_ai : bool) : M unit :=
  let* started := now in
  let* _ := write_status job_id
              (status_payload job_id "running" 0.01%Q "starting_worker"
                 (JFloat started) JNull JNull JNull) in
  let* _ := db_update_job_status job_id (Some "running") (Some 0.01%Q)
              (Some "starting_worker") in
  try_except (pipeline job_id side_path front_path model no_ai) (on_failure job_id).

(** ** API *)

(** [upl is not None and upl.filename]. *)
Definition supplied (v : option UploadFile) : bool :=
  match v with
  | Some u => negb (String.eqb (filename u) "")
  | None => false
  end.

Definition _save_and_validate (job_id : string) (upl : UploadFile) (label : string)
  : M (path * string) :=
  let suffix := if String.eqb (filename upl) "" then "" else lower (py_suffix (filename upl)) in
  let suffix := if String.eqb suffix "" then ".mov" else suffix in
  let upload_path := UPLOADS_DIR ++ [job_id +:+ "_" +:+ label +:+ suffix] in
  let* _ := save_upload_with_limit upl upload_path MAX_UPLOAD_BYTES in
  let* dur :=
    try_except (get_video_duration_seconds upload_path)
      (fun e =>
         let* _ := remove_quietly upload_path in
         raise (HTTPException 400
                  ("Could not read " +:+ label +:+ " duration: "
                   +:+ exn_type_name e +:+ ": " +:+ exn_str e))) in
  if double_lt (double_add MAX_VIDEO_SECONDS (nearest_double 5 100)) dur then
    let* _ := remove_quietly upload_path in
    raise (HTTPException 400
             (label +:+ " video too long (" +:+ double_format_1f dur +:+ "s). Max is "
              +:+ pretty (double_trunc MAX_VIDEO_SECONDS) +:+ " seconds."))
  else ret (upload_path, suffix).

(** [uuid.uuid4().hex[:12]]. *)
Definition new_job_id : M string :=
  fun w => (Ok (str_take 12 (uuid4_hex E (clock w))), tick w).

(** [a or b] on strings. *)
Definition str_or (a b : string) : string := if String.eqb a "" then b else a.

(** [POST /analyze].  The result is the JSON body of the response and the
    thread that was started; the thread itself has not run yet. *)
Definition analyze (side_video front_video : option UploadFile)
    (user_id model : string) (no_ai : bool) : M (json * thread) :=
  if negb (supplied side_video) && negb (supplied front_video) then
    raise (HTTPException 400 "Upload at least one video: side_video and/or front_video")
  else
  let* job_id := new_job_id in
  let* created_at := now in
  let* '(side_path, ext_used, name_for_db) :=
    match side_video with
    | Some upl =>
        if supplied side_video then
          let* '(p, ext) := _save_and_validate job_id upl "side" in
          ret (Some p, ext, filename upl)
        else ret (None, ".mov", "")
    | None => ret (None, ".mov", "")
    end in
  let* '(front_path, name_for_db) :=
    match front_video with
    | Some upl =>
        if supplied front_video then
          let* '(p, ext_used2) := _save_and_validate job_id upl "front" in
          ret (Some p, if String.eqb name_for_db "" then filename upl else name_for_db)
        else ret (None, name_for_db)
    | None => ret (None, name_for_db)
    end in
  (* Create job dir + immediate queued status *)
  let* _ := mkdir_parents (_job_dir job_id) in
  let* _ := write_status job_id
              (status_payload job_id "queued" 0.0%Q "starting" JNull JNull JNull JNull) in
  (* DB insert uses whichever filename/path exists first (history list) *)
  let* _ := db_insert_job job_id user_id created_at
              (str_or name_for_db "")
              (str_or ext_used ".mov")
              (match side_path, front_path with
               | Some p, _ => path_str p
               | None, Some p => path_str p
               | None, None => ""
               end) in
  ret (JDict [("job_id", JStr job_id);
              ("status_url", JStr ("/jobs/" +:+ job_id));
              ("message", JStr "Thanks for uploading. Analysis started.")],
       {| t_job_id := job_id; t_side_path := side_path; t_front_path := front_path;
          t_model := model; t_no_ai := no_ai |}).

End Program.

(** ** A JSON codec for the examples

    [py_dumps] prints as [json.dumps(v, indent=2)] does and [py_loads]
    reads JSON text, on the documents the examples use: ASCII strings,
    integers and decimal fractions of a few digits.  Outside them
    ([\u] escapes, exponents, [NaN]) [py_loads] gives [None] and
    [py_dumps] does not follow [repr].  The general results below do not
    depend on it: they hold for every codec. *)

Definition nl : string := String (ascii_of_nat 10) EmptyString.

(** The double quote, and a text with its single quotes turned into
    double ones, to write JSON texts legibly. *)
Definition dquote : ascii := ascii_of_nat 34.
Definition dq : string := String dquote EmptyString.
Definition jq (s : string) : string :=
  text (map (fun c => if Ascii.eqb c "'" then dquote else c) (chars s)).

Fixpoint spaces (n : nat) : string :=
  match n with O => "" | S n' => " " +:+ spaces n' end.

Definition newline_indent (lvl : nat) : string := nl +:+ spaces (2 * lvl).

Definition hex_digit (n : Z) : string :=
  text [nth (Z.to_nat n) (chars "0123456789abcdef") "0"%char].

Definition escape_char (c : ascii) : string :=
  let n := code c in
  if n =? 34 then "\" +:+ dq
  else if n =? 92 then "\\"
  else if n =? 10 then "\n"
  else if n =? 13 then "\r"
  else if n =? 9 then "\t"
  else if n =? 8 then "\b"
  else if n =? 12 then "\f"
  else if (n <? 32) || (126 <? n) then "\u00" +:+ hex_digit (n / 16) +:+ hex_digit (n mod 16)
  else text [c].

Definition quote (s : string) : string :=
  dq +:+ String.concat "" (map escape_char (chars s)) +:+ dq.

(** The digits of [r / d] after the point, at most [n] of them. *)
Fixpoint fraction_digits (n : nat) (r d : Z) : string :=
  match n with
  | O => ""
  | S n' =>
      let r10 := r * 10 in
      pretty (r10 / d) +:+ (if r10 mod d =? 0 then "" else fraction_digits n' (r10 mod d) d)
  end.

Definition repr_float (q : Q) : string :=
  let d := Zpos (Qden q) in
  let a := Z.abs (Qnum q) in
  (if Qnum q <? 0 then "-" else "") +:+ pretty (a / d) +:+ "." +:+ fraction_digits 17 (a mod d) d.

Fixpoint py_dumps_at (lvl : nat) (v : json) {struct v} : string :=
  match v with
  | JNull => "null"
  | JBool b => if b then "true" else "false"
  | JInt n => pretty n
  | JFloat q => repr_float q
  | JStr s => quote s
  | JList l =>
      match l with
      | [] => "[]"
      | _ :: _ =>
          "[" +:+ newline_indent (S lvl)
          +:+ String.concat ("," +:+ newline_indent (S lvl)) (map (py_dumps_at (S lvl)) l)
          +:+ newline_indent lvl +:+ "]"
      end
  | JDict d =>
      match d with
      | [] => "{}"
      | _ :: _ =>
          "{" +:+ newline_indent (S lvl)
          +:+ String.concat ("," +:+ newline_indent (S lvl))
                (map (fun kv => quote (fst kv) +:+ ": " +:+ py_dumps_at (S lvl) (snd kv)) d)
          +:+ newline_indent lvl +:+ "}"
      end
  end.

Definition py_dumps (v : json) : string := py_dumps_at 0 v.

Definition is_json_space (c : ascii) : bool :=
  (code c =? 32) || (code c =? 10) || (code c =? 13) || (code c =? 9).

Definition skip_ws (s : list ascii) : list ascii := snd (span is_json_space s).

(** The characters of a string literal up to its closing quote. *)
Fixpoint read_string (acc : list ascii) (s : list ascii) : option (string * list ascii) :=
  match s with
  | [] => None
  | c :: s' =>
      if code c =? 34 then Some (text (rev acc), s')
      else if code c =? 92 then
        match s' with
        | e :: s'' =>
            let n := code e in
            if n =? 34 then read_string (e :: acc) s''
            else if n =? 92 then read_string (e :: acc) s''
            else if n =? 47 then read_string (e :: acc) s''
            else if n =? 110 then read_string (ascii_of_nat 10 :: acc) s''
            else if n =? 114 then read_string (ascii_of_nat 13 :: acc) s''
            else if n =? 116 then read_string (ascii_of_nat 9 :: acc) s''
            else if n =? 98 then read_string (ascii_of_nat 8 :: acc) s''
            else if n =? 102 then read_string (ascii_of_nat 12 :: acc) s''
            else None
        | [] => None
        end
      else if code c <? 32 then None
      else read_string (c :: acc) s'
  end.

(** A JSON number: an optional minus, an integer part without leading
    zeros, an optional fraction; an exponent is not read. *)
Definition read_number (s : list ascii) : option (json * list ascii) :=
  let '(neg, s1) := match expect "-" s with Some r => (true, r) | None => (false, s) end in
  let '(ip, s2) :=
    match expect "0" s1 with
    | Some r => (chars "0", r)
    | None => span is_digit s1
    end in
  if nonempty ip then
    let sign := if neg then (-1) else 1 in
    match expect "." s2 with
    | Some s3 =>
        let '(fp, s4) := span is_digit s3 in
        if nonempty fp then
          match s4 with
          | c :: _ => if (code c =? 101) || (code c =? 69) then None
                      else Some (JFloat (Qmake (sign * py_int (ip ++ fp))
                                           (Z.to_pos (10 ^ Z.of_nat (length fp)))), s4)
          | [] => Some (JFloat (Qmake (sign * py_int (ip ++ fp))
                                  (Z.to_pos (10 ^ Z.of_nat (length fp)))), s4)
          end
        else None
    | None =>
        match s2 with
        | c :: _ => if (code c =? 101) || (code c =? 69) then None
                    else Some (JInt (sign * py_int ip), s2)
        | [] => Some (JInt (sign * py_int ip), s2)
        end
    end
  else None.

Fixpoint read_value (fuel : nat) (s : list ascii) {struct fuel} : option (json * list ascii) :=
  match fuel with
  | O => None
  | S fuel' =>
      let read_items :=
        fix read_items (n : nat) (acc : list json) (s : list ascii) {struct n}
          : option (json * list ascii) :=
          match n with
          | O => None
          | S n' =>
              match read_value fuel' s with
              | Some (v, r) =>
                  let r := skip_ws r in
                  match expect "," r with
                  | Some r' => read_items n' (acc ++ [v]) r'
                  | None =>
                      match expect "]" r with
                      | Some r' => Some (JList (acc ++ [v]), r')
                      | None => None
                      end
                  end
              | None => None
              end
          end in
      let read_members :=
        fix read_members (n : nat) (acc : list (string * json)) (s : list ascii) {struct n}
          : option (json * list ascii) :=
          match n with
          | O => None
          | S n' =>
              match expect dquote (skip_ws s) with
              | Some r0 =>
                  match read_string [] r0 with
                  | Some (k, r1) =>
                      match expect ":" (skip_ws r1) with
                      | Some r2 =>
                          match read_value fuel' r2 with
                          | Some (v, r3) =>
                              let r3 := skip_ws r3 in
                              match expect "," r3 with
                              | Some r' => read_members n' (dict_set k v acc) r'
                              | None =>
                                  match expect "}" r3 with
                                  | Some r' => Some (JDict (dict_set k v acc), r')
                                  | None => None
                                  end
                              end
                          | None => None
                          end
                      | None => None
                      end
                  | None => None
                  end
              | None => None
              end
          end in
      let s := skip_ws s in
      match strip_prefix (chars "null") s with
      | Some r => Some (JNull, r)
      | None =>
      match strip_prefix (chars "true") s with
      | Some r => Some (JBool true, r)
      | None =>
      match strip_prefix (chars "false") s with
      | Some r => Some (JBool false, r)
      | None =>
      match expect dquote s with
      | Some r =>
          match read_string [] r with
          | Some (t, r') => Some (JStr t, r')
          | None => None
          end
      | None =>
      match expect "[" s with
      | Some r =>
          match expect "]" (skip_ws r) with
          | Some r' => Some (JList [], r')
          | None => read_items (length r) [] r
          end
      | None =>
      match expect "{" s with
      | Some r =>
          match expect "}" (skip_ws r) with
          | Some r' => Some (JDict [], r')
          | None => read_members (length r) [] r
          end
      | None => read_number s
      end end end end end end
  end.

Definition py_loads (t : string) : option json :=
  match read_value (S (String.length t)) (chars t) with
  | Some (v, r) => match skip_ws r with [] => Some v | _ :: _ => None end
  | None => None
  end.

#[local] Instance py_json : JsonCodec := {|
  json_dumps := py_dumps;
  json_loads := py_loads;
  json_error := fun _ => "Expecting value: line 1 column 1 (char 0)"
|}.

(** ** A scripted environment for the examples

    Child processes that behave as told: each exits with the given code
    and, when that is zero, leaves the given files in its output
    directory.  The stand-in for [ffmpeg -i] prints the text of the file it
    is given, so an upload whose bytes read [Duration: 00:00:10.00] lasts
    ten seconds. *)

Definition path_of_str (s : string) : path :=
  map text (filter nonempty (split_slash [] (chars s))).

Definition put_file (dir : path) (m : gmap path node) (f : string * string)
  : gmap path node :=
  <[dir ++ [fst f] := File (list_byte_of_string (snd f))]> m.

Record script := {
  engine_exit : string -> Z;
  engine_files : list (string * string);
  combine_exit : Z;
  combine_text : string;
  build_exit : Z;
  build_files : list (string * string)
}.

Definition exited (rc : Z) : proc_result :=
  {| returncode := rc; stdout := EmptyString;
     stderr := if rc =? 0 then EmptyString else "Traceback: it broke" |}.

Definition scripted_run (o : script) (cmd : list string) (m : gmap path node)
  : proc_result * gmap path node :=
  if String.eqb (nth 1 cmd EmptyString) "-i" then
    match m !! path_of_str (nth 2 cmd EmptyString) with
    | Some (File d) =>
        ({| returncode := 1; stdout := EmptyString; stderr := string_of_list_byte d |}, m)
    | _ => (exited 1, m)
    end
  else if String.eqb (nth 2 cmd EmptyString) "run_engine.py" then
    let outdir := path_of_str (nth 6 cmd EmptyString) in
    let rc := engine_exit o (List.last outdir EmptyString) in
    (exited rc, if rc =? 0 then fold_left (put_file outdir) (engine_files o) m else m)
  else if String.eqb (nth 2 cmd EmptyString) "combine_views.py" then
    let out := path_of_str (nth 4 cmd EmptyString) in
    (exited (combine_exit o),
     if combine_exit o =? 0 then <[out := File (list_byte_of_string (combine_text o))]> m
     else m)
  else if String.eqb (nth 2 cmd EmptyString) "build_combined_outputs.py" then
    let outdir := path_of_str (nth 6 cmd EmptyString) in
    (exited (build_exit o),
     if build_exit o =? 0 then fold_left (put_file outdir) (build_files o) m else m)
  else (exited 127, m).

Definition scripted_env (o : script) : env :=
  {| subprocess_run := scripted_run o;
     time_time := fun n => inject_Z (1700000000 + Z.of_nat n);
     sys_executable := "python3";
     ffmpeg_exe := Some "ffmpeg";
     ffprobe_exe := "ffprobe";
     ffprobe_exe_exists := false;
     py_float := fun _ => None;
     uuid4_hex := fun _ => "0123456789abcdef0123456789abcdef" |}.

(** Everything goes well: both overlays of each view, a summary with
    three throws, and the two report documents. *)
Definition all_well : script :=
  {| engine_exit := fun _ => 0;
     engine_files := [("analysis.json", "{}");
                      ("overlay_release.mp4", "full");
                      ("overlay_release_web.mp4", "web")];
     combine_exit := 0;
     combine_text := jq "{'summary': {'throws_detected': 3}}";
     build_exit := 0;
     build_files := [("practice_plan.json", jq "{'drills':['grip','stance']}");
                     ("lesson_plan.json", jq "{'title': 'Week 1'}");
                     ("practice_plan.pdf", "%PDF")] |}.

(** A stream of two full chunks and three bytes more. *)
Definition two_chunks_and_more : UploadFile :=
  {| filename := "throw.mp4"; file := replicate (CHUNK + CHUNK + 3) Byte.x61 |}.

(** A clip of ten seconds and one of seventy-one. *)
Definition clip_10s : UploadFile :=
  {| filename := "throw.MP4";
     file := list_byte_of_string "  Duration: 00:00:10.00, start: 0.000000" |}.

Definition clip_71s : UploadFile :=
  {| filename := "front.mov";
     file := list_byte_of_string "  Duration: 00:01:11.00, start: 0.000000" |}.

(** The world after [analyze] accepted [clip_10s] for both views, and
    after the job it started has run. *)
Definition accepted (o : script) : world :=
  snd (analyze (scripted_env o) (Some clip_10s) (Some clip_10s) "dev_user" "gpt-5-mini"
         false empty_world).

Definition ran (o : script) : world :=
  snd (start_background_job (scripted_env o) "0123456789ab"
         (Some ["uploads"; "0123456789ab_side.mp4"])
         (Some ["uploads"; "0123456789ab_front.mp4"])
         "gpt-5-mini" false (accepted o)).

(** A row in mid-run, and a world that holds only that row. *)
Definition running_row : job_row :=
  {| job_id := "0123456789ab"; user_id := "dev_user"; created_at_unix := 1700000001;
     original_filename := Some "throw.MP4"; upload_ext := Some ".mp4";
     upload_path := Some "uploads/0123456789ab_side.mp4";
     status := "running"; progress := Some 0.45%Q; stage := Some "running_front";
     error_message := None;
     overlay_url := None; analysis_url := None; practice_plan_url := None;
     practice_plan_txt_url := None; lesson_plan_url := None;
     throws_detected := None |}.

Definition one_job (r : job_row) : world :=
  {| fs := ∅; jobs := {[ job_id r := r ]}; history := []; clock := O |}.

(** A world in which the status document of a job has been opened for
    writing and holds nothing yet. *)
Definition torn_status_world : world :=
  {| fs := <[["results"; "0123456789ab"; "status.json"] := File []]>
             (<[["results"; "0123456789ab"] := Dir]> (<[["results"] := Dir]> ∅));
     jobs := {[ "0123456789ab" := running_row ]};
     history := [];
     clock := O |}.

(** ** Reading the history

    The progress value and the status an event writes to a store, when it
    writes one. *)
Definition progress_written (e : event) : option Q :=
  match e with
  | DbInsert row => progress row
  | DbUpdate _ _ pr _ => pr
  | DbFailed _ _ => Some 1.0%Q
  | DbDone _ _ _ _ _ _ _ => Some 1.0%Q
  | DocWrite _ (JDict d) =>
      match assoc "progress" d with
      | Some (JFloat q) => Some q
      | _ => None
      end
  | DocWrite _ _ => None
  | ProcExit _ _ _ => None
  end.

Definition status_written (e : event) : option string :=
  match e with
  | DbInsert row => Some (status row)
  | DbUpdate _ st _ _ => st
  | DbFailed _ _ => Some "failed"
  | DbDone _ _ _ _ _ _ _ => Some "done"
  | DocWrite _ (JDict d) =>
      match assoc "status" d with
      | Some (JStr s) => Some s
      | _ => None
      end
  | DocWrite _ _ => None
  | ProcExit _ _ _ => None
  end.

Definition progresses (l : list event) : list Q := omap progress_written l.

Definition terminal (s : string) : Prop := s = "done" \/ s = "failed".

(** A terminal write carries progress exactly 1.0. *)
Definition snaps (e : event) : Prop :=
  forall s, status_written e = Some s -> terminal s -> progress_written e = Some 1.0%Q.

(** The events of [l] write progress values that never decrease and lie
    between [lo] and [hi], and its terminal writes carry 1.0. *)
Definition within (lo hi : Q) (l : list event) : Prop :=
  StronglySorted Qle (progresses l)
  /\ Forall (fun q => (lo <= q)%Q /\ (q <= hi)%Q) (progresses l)
  /\ Forall snaps l.

(** Whatever the world and however it ends, [m] adds to the history a
    list of events that is [within lo hi]. *)
Definition emits {A} (lo hi : Q) (m : M A) : Prop :=
  forall w, exists l, history (snd (m w)) = history w ++ l /\ within lo hi l.

(** [m] adds nothing to the history. *)
Definition keeps_history {A} (m : M A) : Prop :=
  forall w, history (snd (m w)) = history w.

(** Exit codes of the processes in a list of events. *)
Definition exit_code (e : event) : option Z :=
  match e with
  | ProcExit _ r _ => Some (returncode r)
  | _ => None
  end.

Definition exit_codes (l : list event) : list Z := omap exit_code l.

(** The report builder exits with code 2 and writes nothing; all else is
    as in [all_well]. *)
Definition build_fails : script :=
  {| engine_exit := engine_exit all_well;
     engine_files := engine_files all_well;
     combine_exit := 0;
     combine_text := combine_text all_well;
     build_exit := 2;
     build_files := [] |}.

(** What the job itself added to the history. *)
Definition job_events (o : script) : list event :=
  drop (length (history (accepted o))) (history (ran o)).

(** ** The design document's words, for comparison with the code *)

Definition is_present (m : gmap path node) (p : path) : bool :=
  match node_at m p with Some _ => true | None => false end.

(** The overlay of a view: the web variant when that file exists, else the
    full-size variant when that exists, else none. *)
Definition overlay_choice (m : gmap path node) (jid view : string) : option string :=
  if is_present m (_job_dir jid ++ [view] ++ ["overlay_release_web.mp4"]) then
    Some ("/results/" +:+ jid +:+ "/" +:+ view +:+ "/overlay_release_web.mp4")
  else if is_present m (_job_dir jid ++ [view] ++ ["overlay_release.mp4"]) then
    Some ("/results/" +:+ jid +:+ "/" +:+ view +:+ "/overlay_release.mp4")
  else None.

(** What a JSON file contributes to a payload: its parsed value, nothing
    when it is missing, is a directory, or does not parse. *)
Definition parsed_file {codec : JsonCodec} (m : gmap path node) (p : path) : option json :=
  match node_at m p with
  | Some (File d) => json_loads (string_of_list_byte d)
  | _ => None
  end.

(** [m] starts at most [n] processes, and exactly [n] that all exit with
    code zero when it returns. *)
Definition runs_at_most {A} (n : nat) (m : M A) : Prop :=
  forall w, exists l,
    history (snd (m w)) = history w ++ l
    /\ (length (exit_codes l) <= n)%nat
    /\ (forall a, fst (m w) = Ok a -> exit_codes l = replicate n 0).

(** The store events of a list: those that write the job table or a
    status document. *)
Definition is_store_write (e : event) : bool :=
  match e with
  | ProcExit _ _ _ => false
  | _ => true
  end.

(** [m] writes to neither store: the job table stays as it is and the
    history gains process exits only. *)
Definition no_store {A} (m : M A) : Prop :=
  forall w,
    jobs (snd (m w)) = jobs w
    /\ exists l, history (snd (m w)) = history w ++ l /\ filter is_store_write l = [].

(** [m] never raises an [HTTPException]. *)
Definition py_only {A} (m : M A) : Prop :=
  forall w c d, fst (m w) <> Raise (HTTPException c d).

(** [needle in hay]. *)
Fixpoint contains_chars (needle hay : list ascii) : bool :=
  match strip_prefix needle hay with
  | Some _ => true
  | None =>
      match hay with
      | [] => false
      | _ :: hay' => contains_chars needle hay'
      end
  end.

Definition contains (needle hay : string) : bool :=
  contains_chars (chars needle) (chars hay).

(** [v[k1][k2]...] on nested dicts. *)
Fixpoint json_path (keys : list string) (v : json) : option json :=
  match keys with
  | [] => Some v
  | k :: keys' =>
      match v with
      | JDict d => match assoc k d with Some x => json_path keys' x | None => None end
      | _ => None
      end
  end.

(** As [all_well], but the lesson plan the builder leaves has a trailing
    comma, which JSON does not allow. *)
Definition garbled_lesson : script :=
  {| engine_exit := engine_exit all_well;
     engine_files := engine_files all_well;
     combine_exit := 0;
     combine_text := combine_text all_well;
     build_exit := 0;
     build_files := [("practice_plan.json", jq "{'drills':['grip','stance']}");
                     ("lesson_plan.json", jq "{'title': 'Week 1',}");
                     ("practice_plan.pdf", "%PDF")] |}.

(** [m] deletes no row of the job table. *)
Definition keeps_rows {A} (m : M A) : Prop :=
  forall w jid, is_Some (jobs w !! jid) -> is_Some (jobs (snd (m w)) !! jid).

(** When [m] raises an [HTTPException], it has written to neither store. *)
Definition rejects_cleanly {A} (m : M A) : Prop :=
  forall w c d w',
    m w = (Raise (HTTPException c d), w') ->
    jobs w' = jobs w
    /\ exists l, history w' = history w ++ l /\ filter is_store_write l = [].

(** A request with a good side clip and a front clip that is too long,
    on an empty disk. *)
Definition side_ok_front_too_long : result (json * thread) * world :=
  analyze (scripted_env all_well) (Some clip_10s) (Some clip_71s)
    "dev_user" "gpt-5-mini" false empty_world.



(** ** More of the examples' environment *)

(** [float(s)] on the texts the examples meet: digits, or digits with a
    fraction; [None], for [ValueError], on anything else. *)
Definition float_of_text (s : string) : option double :=
  let l := chars s in
  let '(i, r) := span is_digit l in
  if nonempty i then
    match expect "." r with
    | Some f =>
        if nonempty f && forallb is_digit f then Some (py_float_decimal l) else None
    | None =>
        match r with
        | [] => Some (py_float_decimal l)
        | _ :: _ => None
        end
    end
  else None.

(** An environment with [ffprobe] beside [ffmpeg]: the probe ends as
    told, every other process behaves as in [scripted_env all_well]. *)
Definition probing_env (probe : proc_result) : env :=
  {| subprocess_run := fun cmd m =>
       if String.eqb (nth 0 cmd EmptyString) "ffprobe" then (probe, m)
       else scripted_run all_well cmd m;
     time_time := fun n => inject_Z (1700000000 + Z.of_nat n);
     sys_executable := "python3";
     ffmpeg_exe := Some "ffmpeg";
     ffprobe_exe := "ffprobe";
     ffprobe_exe_exists := true;
     py_float := float_of_text;
     uuid4_hex := fun _ => "0123456789abcdef0123456789abcdef" |}.

(** A disk that holds one upload, a clip of ten seconds. *)
Definition one_upload : world :=
  with_fs (fun _ => {[ ["uploads"] := Dir;
                       ["uploads"; "j_side.mp4"] := File (file clip_10s) ]}) empty_world.

(** [w'] differs from [w] at most in what the file system holds at [p]. *)
Definition same_but (p : path) (w w' : world) : Prop :=
  jobs w' = jobs w
  /\ history w' = history w
  /\ clock w' = clock w
  /\ forall q, q <> p -> fs w' !! q = fs w !! q.

(** A disk on which the place of an upload is taken by a directory. *)
Definition upload_place_taken : world :=
  with_fs (fun _ => {[ ["uploads"] := Dir;
                       ["uploads"; "j_side.mp4"] := Dir;
                       ["uploads"; "k_side.mp4"] := File (file clip_10s) ]}) empty_world.

(** ** Listing a user's jobs *)

(** The rows of the table, in the order the engine happens to hold them
    (here the map's); [ORDER BY] then decides, and among rows of equal
    [created_at_unix] SQLite promises no order. *)
Definition table_rows (w : world) : list job_row := map snd (map_to_list (jobs w)).

(** [ORDER BY created_at_unix DESC]. *)
Definition newer_first (a b : job_row) : Prop :=
  Qle_bool (created_at_unix b) (created_at_unix a) = true.

#[local] Instance newer_first_dec : RelDecision newer_first.
Proof. intros a b. unfold newer_first. apply _. Defined.

(** [LIMIT ?]: a negative limit is no limit. *)
Definition sql_limit {A} (limit : Z) (l : list A) : list A :=
  if limit <? 0 then l else take (Z.to_nat limit) l.

Definition jfloat_opt (o : option Q) : json :=
  match o with Some q => JFloat q | None => JNull end.

Definition jint_opt (o : option Z) : json :=
  match o with Some n => JInt n | None => JNull end.

(** [dict(r)] for a row of the [SELECT] of [db_list_jobs_for_user], which
    names fourteen of the sixteen columns. *)
Definition row_dict (r : job_row) : json :=
  JDict [("job_id", JStr (job_id r));
         ("user_id", JStr (user_id r));
         ("created_at_unix", JFloat (created_at_unix r));
         ("original_filename", jopt (original_filename r));
         ("status", JStr (status r));
         ("progress", jfloat_opt (progress r));
         ("stage", jopt (stage r));
         ("error_message", jopt (error_message r));
         ("overlay_url", jopt (overlay_url r));
         ("analysis_url", jopt (analysis_url r));
         ("practice_plan_url", jopt (practice_plan_url r));
         ("practice_plan_txt_url", jopt (practice_plan_txt_url r));
         ("lesson_plan_url", jopt (lesson_plan_url r));
         ("throws_detected", jint_opt (throws_detected r))].

(** The rows the [SELECT] yields, before [dict(r)]. *)
Definition select_jobs_for_user (user : string) (limit : Z) (w : world) : list job_row :=
  sql_limit limit
    (merge_sort newer_first (filter (fun r => user_id r = user) (table_rows w))).

Definition db_list_jobs_for_user (user : string) (limit : Z) : M (list json) :=
  if fits_sqlite_integer limit then
    get (fun w => map row_dict (select_jobs_for_user user limit w))
  else raise sqlite_overflow.

(** [GET /users/{user_id}/jobs]: the JSON body of the response.  The
    framework refuses a [limit] outside 1..200 before the function runs. *)
Definition list_jobs (user : string) (limit : Z) : M json :=
  let* jobs := db_list_jobs_for_user user limit in
  ret (JDict [("user_id", JStr user);
              ("count", JInt (Z.of_nat (length jobs)));
              ("jobs", JList jobs)]).

(** The columns that say which upload a row stands for. *)
Definition identity (r : job_row)
  : string * string * Q * option string * option string * option string :=
  (job_id r, user_id r, created_at_unix r, original_filename r, upload_ext r, upload_path r).

(** [m] adds and deletes no row, changes no row but that of [jid], and in
    that row changes no identity column. *)
Definition own_row_only {A} (jid : string) (m : M A) : Prop :=
  forall w j,
    match jobs w !! j, jobs (snd (m w)) !! j with
    | Some r, Some r' => identity r' = identity r /\ (j <> jid -> r' = r)
    | None, None => True
    | _, _ => False
    end.

(** A fresh row as [db_insert_job] writes it. *)
Definition queued_row (jid user : string) (t : Q) (name ext up : string) : job_row :=
  {| job_id := jid; user_id := user; created_at_unix := t;
     original_filename := Some name; upload_ext := Some ext; upload_path := Some up;
     status := "queued"; progress := Some 0.0%Q; stage := Some "starting";
     error_message := None;
     overlay_url := None; analysis_url := None; practice_plan_url := None;
     practice_plan_txt_url := None; lesson_plan_url := None;
     throws_detected := None |}.

(** A table with two jobs of one user and one of another. *)
Definition three_jobs : world :=
  with_jobs (fun _ =>
    {[ "aaaaaaaaaaaa" := queued_row "aaaaaaaaaaaa" "ann" 1700000100 "a.mp4" ".mp4" "uploads/a";
       "bbbbbbbbbbbb" := queued_row "bbbbbbbbbbbb" "bob" 1700000200 "b.mp4" ".mp4" "uploads/b";
       "cccccccccccc" := queued_row "cccccccccccc" "ann" 1700000300 "c.mp4" ".mp4" "uploads/c"
    ]}) empty_world.

(** Exit codes of a sequence of processes that was cut at the first
    failure: zeros, then at most one other code, the last. *)
Fixpoint stopped_at_first_failure (codes : list Z) : bool :=
  match codes with
  | [] => true
  | c :: rest => if c =? 0 then stopped_at_first_failure rest else negb (nonempty rest)
  end.

(** The number of views a job was given. *)
Definition views_supplied (side front : option path) : nat :=
  (match side with Some _ => 1 | None => 0 end)
  + (match front with Some _ => 1 | None => 0 end).

(** [m] starts its processes one after the other and stops at the first
    that fails: at most [n] of them, and exactly [n], all exiting with
    zero, when it returns. *)
Definition halts_on_failure {A} (n : nat) (m : M A) : Prop :=
  forall w, exists l,
    history (snd (m w)) = history w ++ l
    /\ (length (exit_codes l) <= n)%nat
    /\ stopped_at_first_failure (exit_codes l) = true
    /\ (forall a, fst (m w) = Ok a -> exit_codes l = replicate n 0).

(** A disk with the status document of one job, written by hand. *)
Definition one_status : world :=
  with_fs (fun _ => {[ ["results"] := Dir;
                       ["results"; "aaaaaaaaaaaa"] := Dir;
                       ["results"; "aaaaaaaaaaaa"; "status.json"]
                         := File (list_byte_of_string (jq "{'status': 'running'}")) ]})
    empty_world.

(** [summary.get("throws_detected")] of the combined analysis, when the
    two [.get] calls can be made and the value is an [int]. *)
Definition throws_of (analysis : option json) : option Z :=
  match py_or (json_of_option analysis) (JDict []) with
  | JDict d =>
      match py_or (match assoc "summary" d with Some x => x | None => JNull end)
              (JDict []) with
      | JDict s =>
          int_or_none (match assoc "throws_detected" s with Some x => x | None => JNull end)
      | _ => None
      end
  | _ => None
  end.

(** As [all_well], but the report builder exits with zero and leaves no
    file at all. *)
Definition silent_build : script :=
  {| engine_exit := engine_exit all_well;
     engine_files := engine_files all_well;
     combine_exit := 0;
     combine_text := combine_text all_well;
     build_exit := 0;
     build_files := [] |}.

(** The extension an upload is stored under, and the place it is stored
    at, as [_save_and_validate] computes them. *)
Definition upload_suffix (name : string) : string :=
  let suffix := if String.eqb name "" then "" else lower (py_suffix name) in
  if String.eqb suffix "" then ".mov" else suffix.

Definition upload_path_of (jid label name : string) : path :=
  UPLOADS_DIR ++ [jid +:+ "_" +:+ label +:+ upload_suffix name].

(** The file name of a view, empty when the view is missing. *)
Definition name_of (v : option UploadFile) : string :=
  match v with Some u => filename u | None => "" end.

(** A clip of ten seconds whose name has an upper-case extension and a
    directory part. *)
Definition clip_from_phone : UploadFile :=
  {| filename := "../DCIM/Throw.Final.MP4";
     file := list_byte_of_string "  Duration: 00:00:10.00, start: 0.000000" |}.

(** A disk on which the results directory cannot be made: a file has its
    name.  The table holds the row of one job. *)
Definition results_is_a_file : world :=
  with_fs (fun _ => {[ ["results"] := File [] ]}) (one_job running_row).

(** As [all_well], but the combined analysis is a list, not an object. *)
Definition list_shaped_analysis : script :=
  {| engine_exit := engine_exit all_well;
     engine_files := engine_files all_well;
     combine_exit := 0;
     combine_text := "[1, 2]";
     build_exit := 0;
     build_files := build_files all_well |}.

(** A job id that is one plain path component: not empty, not [.] or
    [..], without a slash.  Ids made by [analyze] are of this kind; for
    any other, [RESULTS_DIR / job_id] is not a directory of its own. *)
Definition plain_name (s : string) : bool :=
  negb (String.eqb s "") && negb (String.eqb s ".") && negb (String.eqb s "..")
  && negb (contains "/" s).

(* ================================================================= *)
(** * Part II: properties *)
(* ================================================================= *)

(** ** The fallback duration parser *)

Example parse_duration_ffmpeg_line :
  _parse_duration_from_ffmpeg_stderr
    "  Duration: 01:02:03.45, start: 0.000000, bitrate: 1205 kb/s"
  = Ok (Some seconds_3723_45).
Proof. vm_compute. reflexivity. Qed.

Example parse_duration_na :
  _parse_duration_from_ffmpeg_stderr "  Duration: N/A, bitrate: N/A" = Ok None.
Proof. vm_compute. reflexivity. Qed.

(** [seconds_3723_45] is the double the literal [3723.45] denotes, and the
    sum of the doubles [3720.0] and [3.45]. *)
Example seconds_3723_45_literal :
  Prim2SF 3723.45%float = seconds_3723_45
  /\ Prim2SF (PrimFloat.add 3720%float 3.45%float) = seconds_3723_45
  /\ double_add (nearest_double 3720 1) (nearest_double 345 100) = seconds_3723_45.
Proof. repeat split; vm_compute; reflexivity. Qed.

Lemma span_eq p s a b :
  span p s = (a, b) ->
  s = a ++ b /\ Forall (fun c => p c = true) a
  /\ match b with c :: _ => p c = false | [] => True end.
Proof.
  revert a b. induction s as [|c s IH]; intros a b H; simpl in H.
  - inversion H; subst. repeat split; constructor.
  - destruct (p c) eqn:Hc.
    + destruct (span p s) as [a' b'] eqn:Hs. inversion H; subst.
      destruct (IH a' b eq_refl) as (-> & Hall & Hb).
      repeat split; [constructor; assumption | assumption].
    + inversion H; subst. repeat split; [constructor | exact Hc].
Qed.

Lemma span_app p a b :
  Forall (fun c => p c = true) a ->
  match b with c :: _ => p c = false | [] => True end ->
  span p (a ++ b) = (a, b).
Proof.
  induction 1 as [|c a Hc _ IH]; intros Hb; simpl.
  - destruct b as [|c b]; [reflexivity|]. simpl. rewrite Hb. reflexivity.
  - rewrite Hc, (IH Hb). reflexivity.
Qed.

Lemma strip_prefix_app p r : strip_prefix p (p ++ r) = Some r.
Proof.
  induction p as [|a p IH]; simpl; [destruct r; reflexivity|].
  rewrite Ascii.eqb_refl. exact IH.
Qed.

Lemma strip_prefix_Some p s r : strip_prefix p s = Some r -> s = p ++ r.
Proof.
  revert s. induction p as [|a p IH]; intros s H.
  - destruct s; inversion H; reflexivity.
  - destruct s as [|b s]; simpl in H; [discriminate|].
    destruct (Ascii.eqb a b) eqn:E; [|discriminate].
    apply Ascii.eqb_eq in E. subst b. simpl. f_equal. apply IH, H.
Qed.

Lemma expect_Some c s r : expect c s = Some r -> s = c :: r.
Proof.
  destruct s as [|x s]; simpl; [discriminate|].
  destruct (Ascii.eqb x c) eqn:E; [|discriminate].
  apply Ascii.eqb_eq in E. intros H; inversion H; subst. reflexivity.
Qed.

Lemma expect_cons c r : expect c (c :: r) = Some r.
Proof. simpl. rewrite Ascii.eqb_refl. reflexivity. Qed.

Lemma nonempty_true {A} (l : list A) : nonempty l = true <-> l <> [].
Proof. destruct l; simpl; split; congruence. Qed.

Lemma digit_not_space c : is_digit c = true -> is_space c = false.
Proof.
  unfold is_digit, is_space. intros H.
  apply andb_true_iff in H as [H1 H2].
  apply Z.leb_le in H1, H2.
  repeat match goal with
         | |- context [?a <=? ?b] => destruct (Z.leb_spec a b)
         | |- context [?a =? ?b] => destruct (Z.eqb_spec a b)
         end; simpl; try reflexivity; lia.
Qed.

(** The head of a non-empty digit string followed by anything is a digit. *)
Lemma digits1_head (p : ascii -> bool) l rest :
  digits1 l -> (forall c, is_digit c = true -> p c = false) ->
  match l ++ rest with c :: _ => p c = false | [] => True end.
Proof.
  intros [Hne Hall] Hp. destruct l as [|c l]; [congruence|].
  simpl. apply Hp. inversion Hall; assumption.
Qed.

Lemma no_digit_ahead_cons c r : is_digit c = false -> no_digit_ahead (c :: r).
Proof. intros H; exact H. Qed.

Lemma colon_not_digit : is_digit ":" = false.
Proof. reflexivity. Qed.

Lemma dot_not_digit : is_digit "." = false.
Proof. reflexivity. Qed.

Lemma digits1_nonempty l : digits1 l -> nonempty l = true.
Proof. intros [H _]. apply nonempty_true, H. Qed.

Ltac span_side :=
  solve [ assumption
        | match goal with H : digits1 ?l |- Forall _ ?l => exact (proj2 H) end
        | match goal with H : digits1 ?l |- _ =>
            exact (digits1_head is_space l _ H digit_not_space) end
        | reflexivity ].

(** The scan finds every match of the pattern ... *)
Lemma duration_match_here_complete t g1 g2 g3 :
  DurationAt t g1 g2 g3 -> duration_match_here t = Some (g1, g2, g3).
Proof.
  intros H. unfold duration_match_here.
  destruct H as [ws hh mm si rest Hws Hhh Hmm Hsi Hrest Hfr
                |ws hh mm si f rest Hws Hhh Hmm Hsi Hf Hrest];
    rewrite strip_prefix_app;
    rewrite span_app by span_side;
    rewrite span_app by span_side;
    rewrite (digits1_nonempty _ Hhh), expect_cons;
    rewrite span_app by span_side;
    rewrite (digits1_nonempty _ Hmm), expect_cons;
    rewrite span_app by span_side;
    rewrite (digits1_nonempty _ Hsi).
  - unfold no_fraction_ahead in Hfr.
    destruct (expect "." rest) as [s7|] eqn:E; [|reflexivity].
    pose proof (span_app is_digit [] s7 (List.Forall_nil _) Hfr) as E'.
    simpl in E'. rewrite E'. reflexivity.
  - rewrite expect_cons.
    rewrite span_app by span_side.
    rewrite (digits1_nonempty _ Hf). reflexivity.
Qed.

(** ... and nothing else. *)
Lemma duration_match_here_sound t g1 g2 g3 :
  duration_match_here t = Some (g1, g2, g3) -> DurationAt t g1 g2 g3.
Proof.
  unfold duration_match_here. intros H.
  destruct (strip_prefix (chars "Duration:") t) as [s0|] eqn:E0; [|discriminate].
  apply strip_prefix_Some in E0. subst t.
  destruct (span is_space s0) as [ws s1] eqn:E1.
  destruct (span_eq _ _ _ _ E1) as (-> & Hws & _).
  destruct (span is_digit s1) as [hh s2] eqn:E2.
  destruct (span_eq _ _ _ _ E2) as (-> & Hhh & _).
  destruct (nonempty hh) eqn:Nh; [|discriminate]. apply nonempty_true in Nh.
  destruct (expect ":" s2) as [s3|] eqn:E3; [|discriminate].
  apply expect_Some in E3. subst s2.
  destruct (span is_digit s3) as [mm s4] eqn:E4.
  destruct (span_eq _ _ _ _ E4) as (-> & Hmm & _).
  destruct (nonempty mm) eqn:Nm; [|discriminate]. apply nonempty_true in Nm.
  destruct (expect ":" s4) as [s5|] eqn:E5; [|discriminate].
  apply expect_Some in E5. subst s4.
  destruct (span is_digit s5) as [si s6] eqn:E6.
  destruct (span_eq _ _ _ _ E6) as (-> & Hsi & Hs6).
  destruct (nonempty si) eqn:Ns; [|discriminate]. apply nonempty_true in Ns.
  destruct (expect "." s6) as [s7|] eqn:E7.
  - destruct (span is_digit s7) as [f r] eqn:E8.
    destruct (span_eq _ _ _ _ E8) as (Hs7 & Hf & Hr).
    destruct (nonempty f) eqn:Nf; inversion H; subst g1 g2 g3.
    + apply nonempty_true in Nf. apply expect_Some in E7. subst s6 s7.
      apply DurationAt_fraction; try (split; assumption); assumption.
    + destruct f; [|discriminate]. simpl in Hs7. subst r.
      apply DurationAt_whole; try (split; assumption); try assumption.
      unfold no_fraction_ahead. rewrite E7. exact Hr.
  - inversion H; subst g1 g2 g3.
    apply DurationAt_whole; try (split; assumption); try assumption.
    unfold no_fraction_ahead. rewrite E7. exact I.
Qed.

Lemma duration_search_unfold s :
  duration_search s =
  match duration_match_here s with
  | Some m => Some m
  | None => match s with [] => None | _ :: s' => duration_search s' end
  end.
Proof. destruct s; reflexivity. Qed.

(** [search] returns the match at the first position that has one. *)
Lemma duration_search_first pre t m :
  duration_match_here t = Some m ->
  (forall pre' t', pre ++ t = pre' ++ t' -> (length pre' < length pre)%nat ->
                   duration_match_here t' = None) ->
  duration_search (pre ++ t) = Some m.
Proof.
  induction pre as [|c pre IH]; intros Hm Hearlier.
  - cbn [app]. rewrite duration_search_unfold, Hm. reflexivity.
  - rewrite duration_search_unfold.
    rewrite (Hearlier [] ((c :: pre) ++ t) eq_refl) by (cbn [length]; lia).
    cbn [app]. apply IH; [exact Hm|].
    intros pre' t' E Hlt. apply (Hearlier (c :: pre') t').
    + cbn [app]. rewrite E. reflexivity.
    + cbn [length]. lia.
Qed.

Lemma duration_search_none s :
  (forall pre t, s = pre ++ t -> duration_match_here t = None) ->
  duration_search s = None.
Proof.
  induction s as [|c s IH]; intros H.
  - rewrite duration_search_unfold, (H [] [] eq_refl). reflexivity.
  - rewrite duration_search_unfold, (H [] (c :: s) eq_refl). apply IH.
    intros pre t E. apply (H (c :: pre) t). cbn [app]. rewrite E. reflexivity.
Qed.

Lemma duration_match_here_none t :
  (forall g1 g2 g3, ~ DurationAt t g1 g2 g3) -> duration_match_here t = None.
Proof.
  intros H. destruct (duration_match_here t) as [[[g1 g2] g3]|] eqn:E; [|reflexivity].
  exfalso. exact (H _ _ _ (duration_match_here_sound _ _ _ _ E)).
Qed.

Lemma no_match_before_sound s pre t pre' t' a b c :
  s = pre ++ t -> no_match_before (length pre) s = true ->
  s = pre' ++ t' -> (length pre' < length pre)%nat -> ~ DurationAt t' a b c.
Proof.
  intros -> Hn E Hlt HD. apply duration_match_here_complete in HD.
  revert pre' t' E Hlt HD Hn. generalize (pre ++ t) as s. generalize (length pre) as n.
  induction n as [|n IH]; intros s pre' t' E Hlt HD Hn; [lia|].
  cbn [no_match_before] in Hn.
  destruct (duration_match_here s) eqn:Hs; [discriminate|].
  destruct pre' as [|x pre'].
  - cbn [app] in E. subst t'. congruence.
  - subst s. cbn [app] in Hn. apply (IH _ pre' t' eq_refl); [cbn [length] in Hlt; lia|exact HD|exact Hn].
Qed.

Lemma duration_search_None_inv s pre t a b c :
  duration_search s = None -> s = pre ++ t -> ~ DurationAt t a b c.
Proof.
  intros Hs -> HD. apply duration_match_here_complete in HD.
  induction pre as [|x pre IH]; rewrite duration_search_unfold in Hs.
  - cbn [app] in Hs. rewrite HD in Hs. discriminate.
  - destruct (duration_match_here ((x :: pre) ++ t)); [discriminate|].
    cbn [app] in Hs. exact (IH Hs).
Qed.

(** ** Rounding to binary64 *)

Lemma py_int_acc_nonneg ds : forall acc,
  Forall (fun c => is_digit c = true) ds -> 0 <= acc ->
  0 <= fold_left (fun a c => a * 10 + digit_val c) ds acc.
Proof.
  induction ds as [|c ds IH]; intros acc Hd Ha; cbn [fold_left]; [exact Ha|].
  inversion Hd as [|? ? Hc Hds]; subst. apply IH; [exact Hds|].
  unfold is_digit in Hc. apply andb_true_iff in Hc as [H1 _]. apply Z.leb_le in H1.
  unfold digit_val. lia.
Qed.

Lemma py_int_nonneg ds : Forall (fun c => is_digit c = true) ds -> 0 <= py_int ds.
Proof. intros H. apply py_int_acc_nonneg; [exact H | lia]. Qed.

(** Rounding keeps the sign: shifting a mantissa to the right, and
    rounding it to nearest, leave it at zero or above. *)
Lemma shr_1_nonneg mrs : 0 <= shr_m mrs -> 0 <= shr_m (shr_1 mrs).
Proof.
  destruct mrs as [m r t]. cbn [shr_m]. intros H.
  destruct m as [|[p|p|]|p]; cbn; lia.
Qed.

Lemma iter_pos_shr_1_nonneg p : forall mrs,
  0 <= shr_m mrs -> 0 <= shr_m (SpecFloat.iter_pos shr_1 p mrs).
Proof.
  induction p as [p IH|p IH|]; intros mrs H; cbn [SpecFloat.iter_pos].
  - apply IH, IH, shr_1_nonneg, H.
  - apply IH, IH, H.
  - apply shr_1_nonneg, H.
Qed.

Lemma shr_fexp_nonneg m e l : 0 <= m -> 0 <= shr_m (fst (shr_fexp 53 1024 m e l)).
Proof.
  intros H. unfold shr_fexp, shr.
  assert (H0 : 0 <= shr_m (shr_record_of_loc m l)) by (destruct l as [|[]]; exact H).
  destruct (fexp 53 1024 (Zdigits2 m + e) - e) as [|p|p]; cbn [fst];
    [exact H0 | apply iter_pos_shr_1_nonneg, H0 | exact H0].
Qed.

Lemma round_nearest_even_nonneg m l : 0 <= m -> 0 <= round_nearest_even m l.
Proof.
  intros H. unfold round_nearest_even.
  destruct l as [|[]]; [exact H | destruct (Z.even m); lia | exact H | lia].
Qed.

Lemma binary_round_aux_sign_clear m e l :
  0 <= m -> sign_clear (binary_round_aux 53 1024 false m e l).
Proof.
  intros H. unfold binary_round_aux.
  pose proof (shr_fexp_nonneg m e l H) as H1.
  destruct (shr_fexp 53 1024 m e l) as [mrs' e']. cbn [fst] in H1.
  pose proof (shr_fexp_nonneg _ e' loc_Exact
                (round_nearest_even_nonneg _ (loc_of_shr_record mrs') H1)) as H2.
  destruct (shr_fexp 53 1024 _ e' loc_Exact) as [mrs'' e'']. cbn [fst] in H2.
  destruct (shr_m mrs'') as [|q|q]; [reflexivity | | lia].
  destruct (e'' <=? 1024 - 53); reflexivity.
Qed.

Lemma nearest_double_sign_clear n d : 0 <= n -> sign_clear (nearest_double n d).
Proof.
  intros H. unfold nearest_double. destruct n as [|p|p]; [reflexivity | | lia].
  unfold SFdiv, SFdiv_core_binary.
  set (s := 0 - 0 - _).
  set (m' := match s with Z0 => Z.pos p | Z.pos _ => Z.shiftl (Z.pos p) s | Z.neg _ => 0 end).
  assert (Hm : 0 <= m').
  { subst m'. destruct s; [lia | apply Z.shiftl_nonneg; lia | lia]. }
  pose proof (Z.div_pos m' (Z.pos d) Hm ltac:(lia)) as Hq.
  unfold Z.div in Hq. destruct (Z.div_eucl m' (Z.pos d)) as [q r].
  cbn [xorb]. apply binary_round_aux_sign_clear, Hq.
Qed.

Lemma double_of_int_sign_clear n d :
  0 <= n -> double_of_int n = Ok d -> sign_clear d.
Proof.
  intros H. unfold double_of_int.
  pose proof (nearest_double_sign_clear n 1 H) as Hs.
  destruct (nearest_double n 1); intros E; inversion E; subst; exact Hs.
Qed.

Lemma double_add_sign_clear a b : sign_clear a -> sign_clear b -> sign_clear (double_add a b).
Proof.
  destruct a as [sa|sa| |sa ma ea], b as [sb|sb| |sb mb eb]; cbn [sign_clear];
    try contradiction; intros -> ->; try reflexivity.
  unfold double_add, SFadd, cond_Zopp, binary_normalize.
  unfold binary_round.
  destruct (Z.pos (shl_align ma ea (Z.min ea eb)).1 + Z.pos (shl_align mb eb (Z.min ea eb)).1)
    as [|m|m] eqn:Hsum; [reflexivity | | lia].
  destruct (shl_align m _ _) as [mz ez].
  apply binary_round_aux_sign_clear. lia.
Qed.

Lemma sign_clear_le d : sign_clear d -> double_le (S754_zero false) d = true.
Proof.
  destruct d as [s|s| |s m e]; cbn [sign_clear]; try contradiction; intros ->; reflexivity.
Qed.

(** The number of binary digits of a mantissa bounds it, and the
    other way round. *)
Lemma digits2_pos_size p : digits2_pos p = Pos.size p.
Proof. induction p; cbn; congruence. Qed.

Lemma Zdigits2_nonneg m : 0 <= Zdigits2 m.
Proof. destruct m; cbn; lia. Qed.

Lemma Zdigits2_bound m : 0 <= m -> m < 2 ^ Zdigits2 m.
Proof.
  intros H. destruct m as [|p|p]; [reflexivity | | lia].
  cbn [Zdigits2]. rewrite digits2_pos_size.
  assert (G : Z.pos p < Z.pos (2 ^ Pos.size p)) by exact (Pos.size_gt p).
  rewrite Pos2Z.inj_pow in G. exact G.
Qed.

Lemma Zdigits2_le m k : 0 <= m -> 0 <= k -> m < 2 ^ k -> Zdigits2 m <= k.
Proof.
  intros H Hk Hm. destruct m as [|p|p]; [exact Hk | | lia].
  cbn [Zdigits2]. rewrite digits2_pos_size.
  destruct (Z.le_gt_cases (Z.pos (Pos.size p)) k) as [L|L]; [exact L|exfalso].
  assert (P : 2 ^ (k + 1) <= 2 ^ Z.pos (Pos.size p)) by (apply Z.pow_le_mono_r; lia).
  rewrite Z.pow_add_r in P by lia.
  assert (G : Z.pos (2 ^ Pos.size p) <= Z.pos p~0) by exact (Pos.size_le p).
  rewrite Pos2Z.inj_pow in G. lia.
Qed.

(** A shift to the right by [k] takes [k] digits off the mantissa. *)
Lemma shr_1_digits mrs :
  0 <= shr_m mrs -> Zdigits2 (shr_m (shr_1 mrs)) = Z.max 0 (Zdigits2 (shr_m mrs) - 1).
Proof.
  destruct mrs as [m r t]. cbn [shr_m]. intros H.
  destruct m as [|[p|p|]|p]; cbn; lia.
Qed.

Lemma iter_pos_shr_1_digits k : forall mrs,
  0 <= shr_m mrs ->
  Zdigits2 (shr_m (SpecFloat.iter_pos shr_1 k mrs))
  = Z.max 0 (Zdigits2 (shr_m mrs) - Z.pos k).
Proof.
  induction k as [k IH|k IH|]; intros mrs H; cbn [SpecFloat.iter_pos].
  - pose proof (shr_1_nonneg mrs H) as H1.
    pose proof (iter_pos_shr_1_nonneg k _ H1) as H2.
    rewrite (IH _ H2), (IH _ H1), (shr_1_digits mrs H). lia.
  - pose proof (iter_pos_shr_1_nonneg k _ H) as H2.
    rewrite (IH _ H2), (IH _ H). lia.
  - rewrite shr_1_digits by exact H. lia.
Qed.

(** The exponent [shr_fexp] settles on, and the size of what it leaves. *)
Lemma shr_fexp_bound m e l :
  0 <= m ->
  let '(mrs, e') := shr_fexp 53 1024 m e l in
  e' = Z.max e (fexp 53 1024 (Zdigits2 m + e))
  /\ Zdigits2 (shr_m mrs) + e' <= Z.max (Zdigits2 m + e) e'.
Proof.
  intros H. unfold shr_fexp, shr.
  assert (H0 : shr_m (shr_record_of_loc m l) = m) by (destruct l as [|[]]; reflexivity).
  destruct (fexp 53 1024 (Zdigits2 m + e) - e) as [|p|p] eqn:Es.
  - rewrite H0. split; lia.
  - rewrite iter_pos_shr_1_digits by (rewrite H0; exact H). rewrite H0. split; lia.
  - rewrite H0. split; lia.
Qed.

Lemma round_nearest_even_digits m l :
  0 <= m -> Zdigits2 (round_nearest_even m l) <= Zdigits2 m + 1.
Proof.
  intros H.
  assert (Hr : 0 <= round_nearest_even m l <= m + 1).
  { unfold round_nearest_even.
    destruct l as [|[]]; [lia | destruct (Z.even m); lia | lia | lia]. }
  pose proof (Zdigits2_nonneg m). pose proof (Zdigits2_bound m H).
  apply Zdigits2_le; [lia | lia |].
  rewrite Z.pow_add_r by lia. lia.
Qed.

(** Rounding a number below [2 ^ 1023] does not overflow. *)
Lemma binary_round_aux_finite m e l :
  0 <= m -> e <= 971 -> Zdigits2 m + e <= 1023 ->
  is_infinite (binary_round_aux 53 1024 false m e l) = false.
Proof.
  intros H He HD. unfold binary_round_aux.
  pose proof (shr_fexp_bound m e l H) as B1.
  pose proof (shr_fexp_nonneg m e l H) as H1.
  destruct (shr_fexp 53 1024 m e l) as [mrs' e1]. destruct B1 as (E1 & D1).
  cbn [fst] in H1.
  pose proof (round_nearest_even_nonneg _ (loc_of_shr_record mrs') H1) as H2.
  pose proof (round_nearest_even_digits _ (loc_of_shr_record mrs') H1) as D2.
  pose proof (shr_fexp_bound _ e1 loc_Exact H2) as B2.
  destruct (shr_fexp 53 1024 _ e1 loc_Exact) as [mrs'' e2]. destruct B2 as (E2 & _).
  destruct (shr_m mrs'') as [|q|q]; [reflexivity | | reflexivity].
  assert (e2 <= 1024 - 53); [|destruct (Z.leb_spec e2 (1024 - 53)); [reflexivity | lia]].
  unfold fexp, emin in *. lia.
Qed.

(** An [int] from zero up and below [2 ^ 1023] converts to a float. *)
Lemma double_of_int_small n :
  0 <= n < 2 ^ 1023 -> double_of_int n = Ok (nearest_double n 1).
Proof.
  intros [H0 H1]. unfold double_of_int.
  assert (Hf : is_infinite (nearest_double n 1) = false);
    [|destruct (nearest_double n 1); [reflexivity | discriminate | reflexivity | reflexivity]].
  unfold nearest_double. destruct n as [|p|p]; [reflexivity | | lia].
  unfold SFdiv, SFdiv_core_binary. cbn [xorb].
  set (d1 := Zdigits2 (Z.pos p)).
  assert (Hd1 : 0 <= d1 <= 1023).
  { split; [apply Zdigits2_nonneg | apply Zdigits2_le; lia]. }
  set (e' := Z.min (fexp 53 1024 (d1 + 0 - (Zdigits2 1 + 0))) (0 - 0)).
  set (s := 0 - 0 - e').
  assert (He' : e' <= 0) by (subst e'; lia).
  assert (Hs : 0 <= s) by (subst s; lia).
  set (m' := match s with Z0 => Z.pos p | Z.pos _ => Z.shiftl (Z.pos p) s | Z.neg _ => 0 end).
  assert (Hm' : m' = Z.pos p * 2 ^ s).
  { subst m'. destruct s as [|q|q]; [lia | apply Z.shiftl_mul_pow2; lia | lia]. }
  assert (Hq : Z.div_eucl m' 1 = (m', 0)).
  { pose proof (Z.div_1_r m') as Q. pose proof (Z.mod_1_r m') as R.
    unfold Z.div, Z.modulo in Q, R. destruct (Z.div_eucl m' 1) as [q r]. congruence. }
  rewrite Hq.
  pose proof (Z.pow_pos_nonneg 2 s ltac:(lia) Hs) as Hpow.
  apply binary_round_aux_finite.
  - rewrite Hm'. lia.
  - lia.
  - assert (Zdigits2 m' <= d1 + s); [|subst s; lia].
    apply Zdigits2_le; [rewrite Hm'; lia | lia |].
    rewrite Hm', Z.pow_add_r by lia.
    pose proof (Zdigits2_bound (Z.pos p) ltac:(lia)) as Hb. fold d1 in Hb.
    apply Z.mul_lt_mono_pos_r; [exact Hpow | exact Hb].
Qed.

Lemma Zdigits2_pos m : 0 < m -> 0 < Zdigits2 m.
Proof. destruct m; cbn; lia. Qed.

Lemma Zdigits2_pos_inv m : 0 <= m -> 0 < Zdigits2 m -> 0 < m.
Proof. destruct m; cbn; lia. Qed.

Lemma Zdigits2_gt m k : 0 <= k -> 2 ^ k <= m -> k < Zdigits2 m.
Proof.
  intros Hk Hm.
  assert (H : 0 <= m) by (pose proof (Z.pow_pos_nonneg 2 k ltac:(lia) Hk); lia).
  pose proof (Zdigits2_bound m H) as B. pose proof (Zdigits2_nonneg m).
  apply (Z.pow_lt_mono_r_iff 2); [lia | lia | lia].
Qed.

(** Rounding a number from [2 ^ 1024] up overflows. *)
Lemma binary_round_aux_overflow m e l :
  0 < m -> 1025 <= Zdigits2 m + e ->
  binary_round_aux 53 1024 false m e l = S754_infinity false.
Proof.
  intros H HD. unfold binary_round_aux.
  (* first shift *)
  assert (F1 : let '(mrs, e1) := shr_fexp 53 1024 m e l in
               0 < shr_m mrs /\ 972 <= e1 /\ Zdigits2 (shr_m mrs) <= 53
               /\ Zdigits2 (shr_m mrs) + e1 = Zdigits2 m + e).
  { unfold shr_fexp, shr.
    assert (H0 : shr_m (shr_record_of_loc m l) = m) by (destruct l as [|[]]; reflexivity).
    pose proof (Zdigits2_pos m H) as Hp.
    assert (Hf : fexp 53 1024 (Zdigits2 m + e) = Zdigits2 m + e - 53)
      by (unfold fexp, emin; lia).
    rewrite Hf.
    destruct (Zdigits2 m + e - 53 - e) as [|p|p] eqn:Es.
    - rewrite H0. lia.
    - pose proof (iter_pos_shr_1_digits p (shr_record_of_loc m l)) as D.
      pose proof (iter_pos_shr_1_nonneg p (shr_record_of_loc m l)) as N.
      rewrite H0 in D, N. specialize (D ltac:(lia)). specialize (N ltac:(lia)).
      assert (Zdigits2 (shr_m (SpecFloat.iter_pos shr_1 p (shr_record_of_loc m l))) = 53) by lia.
      split; [apply Zdigits2_pos_inv; lia|]. lia.
    - rewrite H0. lia. }
  destruct (shr_fexp 53 1024 m e l) as [mrs' e1]. destruct F1 as (P1 & E1 & D1 & S1).
  set (m1 := round_nearest_even (shr_m mrs') (loc_of_shr_record mrs')).
  assert (Hm1 : 0 < m1 /\ Zdigits2 m1 <= 54).
  { pose proof (round_nearest_even_digits (shr_m mrs') (loc_of_shr_record mrs') ltac:(lia)).
    fold m1 in H0. split; [|lia].
    subst m1. unfold round_nearest_even.
    destruct (loc_of_shr_record mrs') as [|[]]; [lia | destruct (Z.even _); lia | lia | lia]. }
  destruct Hm1 as [P2 D2].
  assert (F2 : let '(mrs, e2) := shr_fexp 53 1024 m1 e1 loc_Exact in
               0 < shr_m mrs /\ 972 <= e2).
  { unfold shr_fexp, shr. cbn [shr_record_of_loc].
    pose proof (Zdigits2_pos m1 P2) as Hp.
    assert (Hf : fexp 53 1024 (Zdigits2 m1 + e1) = Zdigits2 m1 + e1 - 53)
      by (unfold fexp, emin; lia).
    rewrite Hf.
    destruct (Zdigits2 m1 + e1 - 53 - e1) as [|p|p] eqn:Es.
    - cbn [shr_m]. lia.
    - pose proof (iter_pos_shr_1_digits p {| shr_m := m1; shr_r := false; shr_s := false |}) as D.
      pose proof (iter_pos_shr_1_nonneg p {| shr_m := m1; shr_r := false; shr_s := false |}) as N.
      cbn [shr_m] in D, N. specialize (D ltac:(lia)). specialize (N ltac:(lia)).
      split; [apply Zdigits2_pos_inv; lia | lia].
    - cbn [shr_m]. lia. }
  destruct (shr_fexp 53 1024 m1 e1 loc_Exact) as [mrs'' e2]. destruct F2 as [P3 E2].
  destruct (shr_m mrs'') as [|q|q]; [lia | | lia].
  destruct (Z.leb_spec e2 (1024 - 53)); [lia | reflexivity].
Qed.

(** An [int] from [2 ^ 1024] up does not convert to a float. *)
Lemma double_of_int_large n :
  2 ^ 1024 <= n ->
  double_of_int n = Raise (PyError "OverflowError" "int too large to convert to float").
Proof.
  intros H. unfold double_of_int.
  assert (Hf : nearest_double n 1 = S754_infinity false); [|rewrite Hf; reflexivity].
  assert (Hn : 0 < n) by (pose proof (Z.pow_pos_nonneg 2 1024 ltac:(lia) ltac:(lia)); lia).
  unfold nearest_double. destruct n as [|p|p]; [lia | | lia].
  unfold SFdiv, SFdiv_core_binary. cbn [xorb].
  set (d1 := Zdigits2 (Z.pos p)).
  assert (Hd1 : 1025 <= d1) by (pose proof (Zdigits2_gt (Z.pos p) 1024 ltac:(lia) H); subst d1; lia).
  set (e' := Z.min (fexp 53 1024 (d1 + 0 - (Zdigits2 1 + 0))) (0 - 0)).
  assert (He' : e' = 0).
  { subst e'. unfold fexp, emin. cbn [Zdigits2 digits2_pos]. lia. }
  set (s := 0 - 0 - e').
  assert (Hs : s = 0) by (subst s; lia).
  set (m' := match s with Z0 => Z.pos p | Z.pos _ => Z.shiftl (Z.pos p) s | Z.neg _ => 0 end).
  assert (Hm' : m' = Z.pos p) by (subst m'; rewrite Hs; reflexivity).
  assert (Hq : Z.div_eucl m' 1 = (m', 0)).
  { pose proof (Z.div_1_r m') as Q. pose proof (Z.mod_1_r m') as R.
    unfold Z.div, Z.modulo in Q, R. destruct (Z.div_eucl m' 1) as [q r]. congruence. }
  rewrite Hq. apply binary_round_aux_overflow; [lia | rewrite Hm', He'; fold d1; lia].
Qed.

(** The parser once the search has found the groups. *)
Lemma parse_duration_of_groups stderr g1 g2 g3 :
  stderr <> "" ->
  duration_search (chars stderr) = Some (g1, g2, g3) ->
  _parse_duration_from_ffmpeg_stderr stderr
  = match int_of_digits g1, int_of_digits g2 with
    | Raise e, _ => Raise e
    | Ok _, Raise e => Raise e
    | Ok hh, Ok mm =>
        match double_of_int (hh * 3600 + mm * 60) with
        | Raise e => Raise e
        | Ok whole => Ok (Some (double_add whole (py_float_decimal g3)))
        end
    end.
Proof.
  intros Hne Hs. unfold _parse_duration_from_ffmpeg_stderr.
  destruct (String.eqb_spec stderr "") as [E|_]; [contradiction|].
  rewrite Hs. destruct (int_of_digits g1); [|reflexivity].
  destruct (int_of_digits g2); reflexivity.
Qed.

Lemma int_of_digits_short ds :
  (length ds <= INT_MAX_STR_DIGITS)%nat -> int_of_digits ds = Ok (py_int ds).
Proof.
  intros H. unfold int_of_digits.
  destruct (Nat.ltb_spec INT_MAX_STR_DIGITS (length ds)); [lia | reflexivity].
Qed.

Lemma int_of_digits_long ds :
  (INT_MAX_STR_DIGITS < length ds)%nat ->
  exists msg, int_of_digits ds = Raise (PyError "ValueError" msg).
Proof.
  intros H. unfold int_of_digits.
  destruct (Nat.ltb_spec INT_MAX_STR_DIGITS (length ds)); [eexists; reflexivity | lia].
Qed.

Lemma double_of_int_cases n :
  (exists whole, double_of_int n = Ok whole)
  \/ double_of_int n = Raise (PyError "OverflowError" "int too large to convert to float").
Proof.
  unfold double_of_int. destruct (nearest_double n 1); eauto.
Qed.

(** C8. At the first place of the text where the pattern
    [Duration: H:M:S(.f)] matches, the fallback duration parser computes
    [H*3600 + M*60 + S] as Python does: [H*3600 + M*60] is an integer,
    [S] the double nearest to the decimal number, and the result their
    sum in binary64.  It returns that sum when the hour and minute groups
    have at most 4300 digits each and the integer converts to a float,
    as every integer below [2 ^ 1023] does; it raises [ValueError] when
    one of the two groups is longer and [OverflowError] when the integer
    does not convert, as no integer from [2 ^ 1024] up does.  A text
    whose first match reads
    [01:02:03.45] after [Duration:] gives the double written [3723.45];
    the empty text and a text in which the pattern matches nowhere give
    [None]. *)
Theorem parse_duration_first_pattern (stderr : string) :
  (forall pre t g1 g2 g3,
      chars stderr = pre ++ t ->
      DurationAt t g1 g2 g3 ->
      (forall pre' t' a b c, chars stderr = pre' ++ t' ->
                             (length pre' < length pre)%nat -> ~ DurationAt t' a b c) ->
      let whole_seconds := py_int g1 * 3600 + py_int g2 * 60 in
      ((length g1 <= 4300)%nat -> (length g2 <= 4300)%nat ->
       whole_seconds < 2 ^ 1023 ->
         _parse_duration_from_ffmpeg_stderr stderr
         = Ok (Some (double_add (nearest_double whole_seconds 1) (py_float_decimal g3))))
      /\ ((length g1 <= 4300)%nat -> (length g2 <= 4300)%nat ->
          2 ^ 1024 <= whole_seconds ->
          _parse_duration_from_ffmpeg_stderr stderr
          = Raise (PyError "OverflowError" "int too large to convert to float"))
      /\ ((4300 < length g1)%nat \/ (4300 < length g2)%nat ->
          exists msg,
            _parse_duration_from_ffmpeg_stderr stderr = Raise (PyError "ValueError" msg))
      /\ ((length g1 <= 4300)%nat -> (length g2 <= 4300)%nat ->
          forall whole, double_of_int whole_seconds = Ok whole ->
            _parse_duration_from_ffmpeg_stderr stderr
            = Ok (Some (double_add whole (py_float_decimal g3))))
      /\ ((length g1 <= 4300)%nat -> (length g2 <= 4300)%nat ->
          (forall whole, double_of_int whole_seconds <> Ok whole) ->
          _parse_duration_from_ffmpeg_stderr stderr
          = Raise (PyError "OverflowError" "int too large to convert to float")))
  /\ (forall pre ws rest,
      chars stderr = pre ++ chars "Duration:" ++ ws ++ chars "01:02:03.45" ++ rest ->
      Forall (fun c => is_space c = true) ws ->
      no_digit_ahead rest ->
      (forall pre' t' a b c, chars stderr = pre' ++ t' ->
                             (length pre' < length pre)%nat -> ~ DurationAt t' a b c) ->
      _parse_duration_from_ffmpeg_stderr stderr = Ok (Some seconds_3723_45))
  /\ ((forall pre t a b c, chars stderr = pre ++ t -> ~ DurationAt t a b c) ->
      _parse_duration_from_ffmpeg_stderr stderr = Ok None)
  /\ _parse_duration_from_ffmpeg_stderr "" = Ok None.
Proof.
  assert (Hfound : forall pre t g1 g2 g3,
      chars stderr = pre ++ t ->
      DurationAt t g1 g2 g3 ->
      (forall pre' t' a b c, chars stderr = pre' ++ t' ->
                             (length pre' < length pre)%nat -> ~ DurationAt t' a b c) ->
      stderr <> "" /\ duration_search (chars stderr) = Some (g1, g2, g3)).
  { intros pre t g1 g2 g3 E Hm Hfirst. split.
    { intros ->. destruct pre; [|discriminate]. simpl in E. subst t. inversion Hm. }
    rewrite E. apply duration_search_first.
    + apply duration_match_here_complete, Hm.
    + intros pre' t' E' Hlt. apply duration_match_here_none.
      intros a b c. apply (Hfirst pre' t'); [congruence | exact Hlt]. }
  split; [|split; [|split; [|reflexivity]]].
  - intros pre t g1 g2 g3 E Hm Hfirst whole_seconds.
    destruct (Hfound pre t g1 g2 g3 E Hm Hfirst) as [Hne Hs].
    rewrite (parse_duration_of_groups stderr g1 g2 g3 Hne Hs).
    assert (Hpos : 0 <= whole_seconds).
    { assert (D : digits1 g1 /\ digits1 g2) by (destruct Hm; split; assumption).
      destruct D as [[_ D1] [_ D2]].
      pose proof (py_int_nonneg g1 D1). pose proof (py_int_nonneg g2 D2).
      subst whole_seconds. lia. }
    split; [|split; [|split; [|split]]].
    + intros L1 L2 Hlt.
      rewrite (int_of_digits_short g1 L1), (int_of_digits_short g2 L2).
      fold whole_seconds. rewrite (double_of_int_small whole_seconds (conj Hpos Hlt)).
      reflexivity.
    + intros L1 L2 Hge.
      rewrite (int_of_digits_short g1 L1), (int_of_digits_short g2 L2).
      fold whole_seconds. rewrite (double_of_int_large whole_seconds Hge). reflexivity.
    + intros [L|L].
      * destruct (int_of_digits_long g1 L) as [msg ->]. exists msg. reflexivity.
      * destruct (int_of_digits_long g2 L) as [msg ->].
        destruct (int_of_digits g1) as [hh|e] eqn:E1; [exists msg; reflexivity|].
        unfold int_of_digits in E1.
        destruct (INT_MAX_STR_DIGITS <? length g1)%nat; [|discriminate].
        inversion E1. eexists. reflexivity.
    + intros L1 L2 whole Hw.
      rewrite (int_of_digits_short g1 L1), (int_of_digits_short g2 L2).
      fold whole_seconds. rewrite Hw. reflexivity.
    + intros L1 L2 Hw.
      rewrite (int_of_digits_short g1 L1), (int_of_digits_short g2 L2).
      fold whole_seconds.
      destruct (double_of_int_cases whole_seconds) as [[whole Hok]|Hr].
      * exfalso. exact (Hw whole Hok).
      * rewrite Hr. reflexivity.
  - intros pre ws rest E Hws Hrest Hfirst.
    assert (Hm : DurationAt (chars "Duration:" ++ ws ++ chars "01:02:03.45" ++ rest)
                   (chars "01") (chars "02") (chars "03.45")).
    { apply (DurationAt_fraction ws (chars "01") (chars "02") (chars "03") (chars "45") rest);
        try assumption; (split; [discriminate | repeat constructor]). }
    destruct (Hfound pre _ _ _ _ E Hm Hfirst) as [Hne Hs].
    rewrite (parse_duration_of_groups stderr _ _ _ Hne Hs).
    vm_compute. reflexivity.
  - intros Hnone. unfold _parse_duration_from_ffmpeg_stderr.
    destruct (String.eqb stderr ""); [reflexivity|].
    rewrite duration_search_none; [reflexivity|].
    intros pre t E. apply duration_match_here_none.
    intros a b c. exact (Hnone pre t a b c E).
Qed.

Lemma parse_duration_first_pattern_witness :
  _parse_duration_from_ffmpeg_stderr
    "  Duration: 01:02:03.45, start: 0.000000, bitrate: 1205 kb/s"
  = Ok (Some seconds_3723_45)
  /\ _parse_duration_from_ffmpeg_stderr "  Duration: 00:01:11.00, start: 0.000000"
     = Ok (Some (double_add (nearest_double 60 1) (nearest_double 1100 100)))
  /\ _parse_duration_from_ffmpeg_stderr "clip.mov: Invalid data found" = Ok None.
Proof.
  split; [|split].
  - apply (proj1 (proj2 (parse_duration_first_pattern _))
             (chars "  ") (chars " ")
             (chars ", start: 0.000000, bitrate: 1205 kb/s")).
    + reflexivity.
    + repeat constructor.
    + reflexivity.
    + intros pre' t' a b c E.
      apply (no_match_before_sound
               (chars "  Duration: 01:02:03.45, start: 0.000000, bitrate: 1205 kb/s")
               (chars "  ")
               (chars "Duration: 01:02:03.45, start: 0.000000, bitrate: 1205 kb/s")
               pre' t' a b c);
        [reflexivity | reflexivity | exact E].
  - refine (proj1 (proj1 (parse_duration_first_pattern
                            "  Duration: 00:01:11.00, start: 0.000000")
                     (chars "  ") (chars "Duration: 00:01:11.00, start: 0.000000")
                     (chars "00") (chars "01") (chars "11.00") eq_refl _ _)
                  _ _ _).
    + apply (DurationAt_fraction (chars " ") (chars "00") (chars "01") (chars "11")
               (chars "00") (chars ", start: 0.000000"));
        try (split; [discriminate | repeat constructor]); repeat constructor.
    + intros pre' t' a b c E.
      apply (no_match_before_sound
               (chars "  Duration: 00:01:11.00, start: 0.000000")
               (chars "  ")
               (chars "Duration: 00:01:11.00, start: 0.000000")
               pre' t' a b c);
        [reflexivity | reflexivity | exact E].
    + cbn. lia.
    + cbn. lia.
    + vm_compute. reflexivity.
  - apply (proj1 (proj2 (proj2 (parse_duration_first_pattern _)))).
    intros pre t a b c E. apply (duration_search_None_inv (chars "clip.mov: Invalid data found") pre t a b c);
      [reflexivity | exact E].
Defined.

(** The parser does not return on every text: an hour group of 310
    nines is an integer no float can hold, and one of 4301 digits is
    refused by [int]. *)
Lemma parse_duration_raises_on_long_hours :
  _parse_duration_from_ffmpeg_stderr (hours_of_nines 310)
  = Raise (PyError "OverflowError" "int too large to convert to float")
  /\ _parse_duration_from_ffmpeg_stderr (hours_of_nines 4301)
     = Raise (PyError "ValueError"
                ("Exceeds the limit (4300 digits) for integer string conversion: "
                 +:+ "value has 4301 digits; "
                 +:+ "use sys.set_int_max_str_digits() to increase the limit")).
Proof. split; vm_compute; reflexivity. Qed.

(** Where [int + float] stops converting: the largest integer that
    rounds to a double, and the next one. *)
Example double_of_int_threshold :
  double_of_int (2 ^ 1024 - 2 ^ 970 - 1) = Ok (S754_finite false 9007199254740991 971)
  /\ double_of_int (2 ^ 1024 - 2 ^ 970)
     = Raise (PyError "OverflowError" "int too large to convert to float").
Proof. split; vm_compute; reflexivity. Qed.

(** The duration check compares with [70.0 + 0.05] as binary64 computes
    it and prints one decimal of the double: a clip of 70.05 seconds
    passes, one of 70.06 seconds is over and is reported as [70.1]. *)
Example duration_limit_boundary :
  let limit := double_add MAX_VIDEO_SECONDS (nearest_double 5 100) in
  double_lt limit (nearest_double 7005 100) = false
  /\ double_lt limit (nearest_double 7006 100) = true
  /\ double_format_1f (nearest_double 7006 100) = "70.1"
  /\ double_lt limit S754_nan = false.
Proof. repeat split; vm_compute; reflexivity. Qed.

(** Seconds of any length are read: beyond the largest double they are
    [inf], which the duration check then refuses. *)
Example parse_duration_long_seconds :
  _parse_duration_from_ffmpeg_stderr
    ("Duration: 00:00:" +:+ text (replicate 400 "9"%char))
  = Ok (Some (S754_infinity false)).
Proof. vm_compute. reflexivity. Qed.


(** ** Saving an upload under a size limit *)

Example save_small_upload :
  let up := {| filename := "a.mp4"; file := list_byte_of_string "abc" |} in
  let '(r, w) := save_upload_with_limit up ["uploads"; "j_side.mp4"] 5 empty_world in
  r = Ok 3 /\ fs w !! ["uploads"; "j_side.mp4"] = Some (File (list_byte_of_string "abc")).
Proof. vm_compute. split; reflexivity. Qed.

Example save_oversized_upload :
  let up := {| filename := "a.mp4"; file := list_byte_of_string "abc" |} in
  let '(r, w) := save_upload_with_limit up ["uploads"; "j_side.mp4"] 2 empty_world in
  r = Raise (HTTPException 413 "File too large. Max is 0MB.")
  /\ fs w !! ["uploads"; "j_side.mp4"] = None.
Proof. vm_compute. split; reflexivity. Qed.

Ltac unfold_m :=
  unfold try_pass, os_error, try_except, bind, ret, raise, get, modify in *;
  cbv beta in *.

Lemma CHUNK_pos : (0 < CHUNK)%nat.
Proof. unfold CHUNK. lia. Qed.

Lemma node_at_cons m c p : node_at m (c :: p) = m !! (c :: p).
Proof. reflexivity. Qed.

Lemma node_at_snoc m p c : node_at m (p ++ [c]) = m !! (p ++ [c]).
Proof. destruct p; reflexivity. Qed.

Lemma node_at_not_root m p : node_at m p <> Some Dir -> node_at m p = m !! p.
Proof. destruct p; [intros H; exfalso; apply H; reflexivity | reflexivity]. Qed.

(** A successful [mkdir] leaves a directory at the path. *)
Lemma mkdir_from_dir todo : forall seen w w1,
  node_at (fs w) seen = Some Dir ->
  mkdir_from seen todo w = (Ok tt, w1) ->
  node_at (fs w1) (seen ++ todo) = Some Dir.
Proof.
  induction todo as [|c todo IH]; intros seen w w1 Hseen H; simpl in H.
  - unfold_m. inversion H; subst. rewrite app_nil_r. exact Hseen.
  - unfold_m. replace (seen ++ c :: todo) with ((seen ++ [c]) ++ todo)
      by (rewrite <- app_assoc; reflexivity).
    destruct (node_at (fs w) (seen ++ [c])) as [[d|]|] eqn:E.
    + destruct todo; discriminate.
    + eapply IH; eassumption.
    + eapply IH; [|eassumption].
      rewrite node_at_snoc. simpl. apply lookup_insert_eq.
Qed.

Lemma mkdir_parents_dir p w w1 :
  mkdir_parents p w = (Ok tt, w1) -> node_at (fs w1) p = Some Dir.
Proof. intros H. apply (mkdir_from_dir p [] w w1 eq_refl H). Qed.

Lemma open_wb_ok p w :
  node_at (fs w) p <> Some Dir ->
  node_at (fs w) (parent p) = Some Dir ->
  open_wb p w = (Ok tt, with_fs (insert p (File [])) w).
Proof.
  intros Hp Hd. unfold open_wb. unfold_m.
  destruct (node_at (fs w) p) as [[d|]|]; try congruence; rewrite Hd; reflexivity.
Qed.

Section CopyLoop.
Variables (dest : path) (max_bytes : Z) (stream : bytes).


Lemma copy_step_post st w :
  copy_post dest max_bytes stream Copying st w ->
  let '(s, st', w') := copy_step dest max_bytes st w in copy_post dest max_bytes stream s st' w'.
Proof.
  intros (d & Hd & Hle & Hs & Hw). unfold copy_step, copy_post.
  destruct (nonempty (take CHUNK (unread st))) eqn:Hne.
  - destruct (Z.gtb_spec (written st + Z.of_nat (length (take CHUNK (unread st)))) max_bytes)
      as [Hgt|Hok].
    + exists d. split; [exact Hd|]. split; [exact Hle|].
      exists (take CHUNK (unread st)). cbn [unread written].
      rewrite take_drop. repeat split; try assumption; try lia.
      rewrite length_take. lia.
    + exists (d ++ take CHUNK (unread st)). cbn [unread written].
      split; [|split; [|split]].
      * unfold append_file, with_fs. cbn [fs]. rewrite Hd. apply lookup_insert_eq.
      * rewrite length_app. lia.
      * rewrite <- app_assoc, take_drop. exact Hs.
      * rewrite length_app. lia.
  - exists d. split; [exact Hd|]. split; [exact Hle|]. cbn [unread written].
    assert (unread st = []) as E.
    { destruct (unread st) as [|b l] eqn:E; [reflexivity|].
      pose proof CHUNK_pos. destruct CHUNK; [lia|]. discriminate. }
    rewrite E in *. rewrite drop_nil. rewrite app_nil_r in Hs. auto.
Qed.

Lemma copy_loop_post n : forall st w,
  copy_post dest max_bytes stream Copying st w ->
  let '(s, st', w') := copy_loop dest max_bytes n st w in copy_post dest max_bytes stream s st' w'.
Proof.
  induction n as [|n IH]; intros st w H; cbn [copy_loop]; [exact H|].
  pose proof (copy_step_post st w H) as Hstep.
  destruct (copy_step dest max_bytes st w) as [[s st'] w'].
  destruct s; [apply IH; exact Hstep | exact Hstep | exact Hstep].
Qed.

(** The loop ends: each turn that goes on shortens the stream. *)
Lemma copy_loop_ends n : forall st w,
  (length (unread st) < n)%nat ->
  fst (fst (copy_loop dest max_bytes n st w)) <> Copying.
Proof.
  induction n as [|n IH]; intros st w Hlen; [lia|]. cbn [copy_loop].
  unfold copy_step.
  destruct (nonempty (take CHUNK (unread st))) eqn:Hne; [|discriminate].
  destruct (_ >? _); [discriminate|].
  apply IH. cbn [unread]. rewrite length_drop.
  pose proof CHUNK_pos.
  destruct (unread st) as [|b l]; [rewrite take_nil in Hne; discriminate|].
  cbn [length] in *. lia.
Qed.
End CopyLoop.

Lemma remove_quietly_file p d w :
  fs w !! p = Some (File d) -> p <> [] ->
  remove_quietly p w = (Ok tt, with_fs (delete p) w).
Proof.
  intros H Hp. unfold remove_quietly, exists_, unlink. unfold_m.
  destruct p as [|c p]; [congruence|].
  rewrite node_at_cons, H. cbv beta iota. rewrite node_at_cons, H. reflexivity.
Qed.

(** C2. [save_upload_with_limit] keeps the destination file within the
    ceiling at every turn of its loop and never takes more than the
    ceiling plus one chunk from the stream; over the ceiling it fails with
    the 413 "too large" error and leaves no file; otherwise it returns the
    number of bytes of the stream and the file holds them.  The turns are
    those of the function itself: the body of its [try] is the loop, run
    on the file it has just opened, the state the body ends in is the
    state of the loop's last turn, with the file within the ceiling and,
    at a refusal, less than one chunk below it, and the result of the
    function is read off that state. *)
Theorem save_upload_with_limit_ceiling
    (upload : UploadFile) (dest : path) (max_bytes : Z) (w w1 : world) :
  0 <= max_bytes ->
  mkdir_parents (parent dest) w = (Ok tt, w1) ->
  node_at (fs w1) dest <> Some Dir ->
  let size := Z.of_nat (length (file upload)) in
  (forall n,
      let '(_, st, w') :=
        copy_loop dest max_bytes n {| unread := file upload; written := 0 |}
          (with_fs (insert dest (File [])) w1) in
      disk_size dest w' <= max_bytes
      /\ written st <= max_bytes + Z.of_nat CHUNK
      /\ unread st = drop (Z.to_nat (written st)) (file upload))
  /\ (max_bytes < size ->
      exists w',
        save_upload_with_limit upload dest max_bytes w = (Raise (too_large max_bytes), w')
        /\ fs w' !! dest = None)
  /\ (size <= max_bytes ->
      exists w',
        save_upload_with_limit upload dest max_bytes w = (Ok size, w')
        /\ fs w' !! dest = Some (File (file upload)))
  /\ (exists s st w',
        copy_loop dest max_bytes (S (length (file upload)))
          {| unread := file upload; written := 0 |}
          (with_fs (insert dest (File [])) w1) = (s, st, w')
        /\ s <> Copying
        /\ save_upload_body upload dest max_bytes w1
           = (match s with
              | Finished => Ok (written st)
              | _ => Raise (too_large max_bytes)
              end, w')
        /\ disk_size dest w' <= max_bytes
        /\ (s = TooLarge -> max_bytes - Z.of_nat CHUNK < disk_size dest w')
        /\ save_upload_with_limit upload dest max_bytes w
           = match s with
             | Finished => (Ok (written st), w')
             | _ => (Raise (too_large max_bytes), with_fs (delete dest) w')
             end).
Proof.
  intros Hmax Hmk Hnd size.
  set (start := {| unread := file upload; written := 0 |}).
  set (w2 := with_fs (insert dest (File [])) w1).
  assert (Hstart : copy_post dest max_bytes (file upload) Copying start w2).
  { exists []. subst w2 start. cbn [fs with_fs unread written length app].
    rewrite lookup_insert_eq. repeat split. lia. }
  assert (Hdest : dest <> []) by (intros ->; apply Hnd; reflexivity).
  split; [|split; [|split]].
  - intros n. pose proof (copy_loop_post dest max_bytes (file upload) n start w2 Hstart) as H.
    destruct (copy_loop dest max_bytes n start w2) as [[s st] w'].
    destruct H as (d & Hd & Hle & Hs). unfold disk_size. rewrite Hd.
    destruct s.
    + destruct Hs as (Hs & Hw). rewrite Hw, Nat2Z.id, <- Hs, drop_app_length.
      repeat split; lia.
    + destruct Hs as (Hs & Hw & Hu). rewrite Hw, Nat2Z.id, Hu, <- Hs, drop_all.
      repeat split; lia.
    + destruct Hs as (chunk & Hs & Hw & Hc & Hgt).
      rewrite Hw, <- Nat2Z.inj_add, Nat2Z.id, <- Hs, app_assoc, <- length_app, drop_app_length.
      rewrite length_app. repeat split; lia.
  - intros Hbig. unfold save_upload_with_limit, bind at 1. rewrite Hmk.
    unfold try_except, save_upload_body, bind.
    rewrite (open_wb_ok dest w1 Hnd (mkdir_parents_dir _ _ _ Hmk)). fold w2. fold start.
    pose proof (copy_loop_post dest max_bytes (file upload)
                  (S (length (file upload))) start w2 Hstart) as H.
    pose proof (copy_loop_ends dest max_bytes (S (length (file upload))) start w2) as He.
    destruct (copy_loop dest max_bytes (S (length (file upload))) start w2) as [[s st] w'].
    destruct H as (d & Hd & Hle & Hs). destruct s.
    + exfalso. apply He; [cbn; lia | reflexivity].
    + exfalso. destruct Hs as (-> & _). subst size. lia.
    + exists (with_fs (delete dest) w'). unfold too_large. cbn match.
      unfold bind. rewrite (remove_quietly_file dest d w' Hd Hdest).
      split; [reflexivity|]. apply lookup_delete_eq.
  - intros Hfit. unfold save_upload_with_limit, bind at 1. rewrite Hmk.
    unfold try_except, save_upload_body, bind.
    rewrite (open_wb_ok dest w1 Hnd (mkdir_parents_dir _ _ _ Hmk)). fold w2. fold start.
    pose proof (copy_loop_post dest max_bytes (file upload)
                  (S (length (file upload))) start w2 Hstart) as H.
    pose proof (copy_loop_ends dest max_bytes (S (length (file upload))) start w2) as He.
    destruct (copy_loop dest max_bytes (S (length (file upload))) start w2) as [[s st] w'].
    destruct H as (d & Hd & Hle & Hs). destruct s.
    + exfalso. apply He; [cbn; lia | reflexivity].
    + destruct Hs as (-> & Hw & _). exists w'. rewrite Hw. split; [reflexivity | exact Hd].
    + exfalso. destruct Hs as (chunk & Hs & Hw & _ & Hgt).
      assert (length (file upload) = length d + length chunk + length (unread st))%nat
        by (rewrite <- Hs, !length_app; lia).
      subst size. lia.
  - pose proof (copy_loop_post dest max_bytes (file upload)
                  (S (length (file upload))) start w2 Hstart) as H.
    pose proof (copy_loop_ends dest max_bytes (S (length (file upload))) start w2) as He.
    destruct (copy_loop dest max_bytes (S (length (file upload))) start w2)
      as [[s st] w'] eqn:Hloop.
    assert (Hs' : s <> Copying) by (apply He; cbn; lia).
    destruct H as (d & Hd & Hle & Hs).
    assert (Hbody : save_upload_body upload dest max_bytes w1
                    = (match s with
                       | Finished => Ok (written st)
                       | _ => Raise (too_large max_bytes)
                       end, w')).
    { unfold save_upload_body, bind.
      rewrite (open_wb_ok dest w1 Hnd (mkdir_parents_dir _ _ _ Hmk)). fold w2. fold start.
      rewrite Hloop. destruct s; [contradiction | reflexivity | reflexivity]. }
    exists s, st, w'. split; [reflexivity|]. split; [exact Hs'|]. split; [exact Hbody|].
    split; [unfold disk_size; rewrite Hd; exact Hle|]. split.
    + intros ->. destruct Hs as (chunk & _ & Hw & Hc & Hgt).
      unfold disk_size. rewrite Hd. lia.
    + unfold save_upload_with_limit, bind at 1. rewrite Hmk.
      unfold try_except. rewrite Hbody.
      destruct s; [contradiction | reflexivity |].
      unfold too_large. cbn match.
      unfold bind. rewrite (remove_quietly_file dest d w' Hd Hdest). reflexivity.
Qed.

Lemma save_upload_with_limit_ceiling_witness :
  let up := {| filename := "throw.mp4"; file := list_byte_of_string "abcdef" |} in
  let dest := ["uploads"; "0123456789ab_side.mp4"] in
  (exists w',
      save_upload_with_limit up dest 4 empty_world = (Raise (too_large 4), w')
      /\ fs w' !! dest = None)
  /\ (exists w',
      save_upload_with_limit up dest MAX_UPLOAD_BYTES empty_world = (Ok 6, w')
      /\ fs w' !! dest = Some (File (list_byte_of_string "abcdef")))
  /\ (exists st w',
        save_upload_body two_chunks_and_more dest (Z.of_nat CHUNK + 5)
          (with_fs (insert ["uploads"] Dir) empty_world)
        = (Raise (too_large (Z.of_nat CHUNK + 5)), w')
        /\ copy_loop dest (Z.of_nat CHUNK + 5) (S (length (file two_chunks_and_more)))
             {| unread := file two_chunks_and_more; written := 0 |}
             (with_fs (insert dest (File [])) (with_fs (insert ["uploads"] Dir) empty_world))
           = (TooLarge, st, w')
        /\ 5 < disk_size dest w' <= Z.of_nat CHUNK + 5
        /\ save_upload_with_limit two_chunks_and_more dest (Z.of_nat CHUNK + 5) empty_world
           = (Raise (too_large (Z.of_nat CHUNK + 5)), with_fs (delete dest) w')).
Proof.
  intros up dest. split; [|split].
  - refine (proj1 (proj2 (save_upload_with_limit_ceiling up dest 4 empty_world
                            (with_fs (insert ["uploads"] Dir) empty_world) _ _ _)) _).
    + lia.
    + reflexivity.
    + vm_compute. discriminate.
    + vm_compute. reflexivity.
  - refine (proj1 (proj2 (proj2 (save_upload_with_limit_ceiling up dest MAX_UPLOAD_BYTES
                                   empty_world
                                   (with_fs (insert ["uploads"] Dir) empty_world) _ _ _))) _).
    + vm_compute. discriminate.
    + reflexivity.
    + vm_compute. discriminate.
    + vm_compute. discriminate.
  - assert (Hmax : 0 <= Z.of_nat CHUNK + 5) by lia.
    assert (Hmk : mkdir_parents (parent dest) empty_world
                  = (Ok tt, with_fs (insert ["uploads"] Dir) empty_world)) by reflexivity.
    assert (Hnd : node_at (fs (with_fs (insert ["uploads"] Dir) empty_world)) dest
                  <> Some Dir) by (vm_compute; discriminate).
    destruct (save_upload_with_limit_ceiling two_chunks_and_more dest (Z.of_nat CHUNK + 5)
                empty_world (with_fs (insert ["uploads"] Dir) empty_world) Hmax Hmk Hnd)
      as (_ & Hover & _ & (s & st & w' & Hloop & Hs & Hbody & Hle & Hlow & Hsave)).
    destruct Hover as (w'' & Hraise & _).
    { unfold two_chunks_and_more. cbn [file]. rewrite length_replicate.
      assert (3 <= CHUNK)%nat by (unfold CHUNK; lia). lia. }
    assert (s = TooLarge) as ->.
    { destruct s; [contradiction | | reflexivity].
      rewrite Hsave in Hraise. discriminate. }
    exists st, w'. split; [exact Hbody|]. split; [exact Hloop|].
    split; [|exact Hsave]. split; [|exact Hle].
    specialize (Hlow eq_refl). lia.
Defined.

(** ** The example codec on a few documents *)

Example py_loads_compact :
  py_loads (jq "{'a':1, 'b': [true, null, 2.50], 'a': 'x'}")
  = Some (JDict [("a", JStr "x"); ("b", JList [JBool true; JNull; JFloat (250 # 100)])]).
Proof. vm_compute. reflexivity. Qed.

Example py_loads_garbage : py_loads "oops" = None.
Proof. vm_compute. reflexivity. Qed.

Example py_dumps_nested :
  py_dumps (JDict [("a", JInt 1); ("p", JFloat 0.01%Q); ("l", JList [])])
  = jq ("{" +:+ nl +:+ "  'a': 1," +:+ nl +:+ "  'p': 0.01," +:+ nl +:+ "  'l': []" +:+ nl +:+ "}").
Proof. vm_compute. reflexivity. Qed.

(** ** The job table *)

Lemma db_update_job_status_eq jid st pr sg w :
  db_update_job_status jid st pr sg w
  = (Ok tt, record (DbUpdate jid st pr sg)
              (with_jobs (alter (set_status_progress_stage st pr sg) jid) w)).
Proof. reflexivity. Qed.

Lemma db_mark_job_failed_eq jid msg w :
  db_mark_job_failed jid msg w
  = (Ok tt, record (DbFailed jid msg) (with_jobs (alter (set_failed msg) jid) w)).
Proof. reflexivity. Qed.

Lemma db_mark_job_done_eq jid o a p t l n w :
  db_mark_job_done jid o a p t l n w
  = if match n with Some z => fits_sqlite_integer z | None => true end
    then (Ok tt, record (DbDone jid o a p t l n)
                   (with_jobs (alter (set_done o a p t l n) jid) w))
    else (Raise sqlite_overflow, w).
Proof.
  unfold db_mark_job_done.
  destruct (match n with Some z => fits_sqlite_integer z | None => true end); reflexivity.
Qed.

Lemma db_mark_job_done_ok jid o a p t l n w u w' :
  db_mark_job_done jid o a p t l n w = (Ok u, w') ->
  w' = record (DbDone jid o a p t l n) (with_jobs (alter (set_done o a p t l n) jid) w).
Proof.
  rewrite db_mark_job_done_eq.
  destruct (match n with Some z => fits_sqlite_integer z | None => true end);
    intros H; inversion H; reflexivity.
Qed.

(** C6. Whatever the row of [job_id] holds, [db_mark_job_failed] leaves it
    with status [failed], progress 1.0, stage [failed] and the message as
    [error_message]. *)
Theorem db_mark_job_failed_overwrites (jid msg : string) (w : world) (row : job_row) :
  jobs w !! jid = Some row ->
  exists w' row',
    db_mark_job_failed jid msg w = (Ok tt, w')
    /\ jobs w' !! jid = Some row'
    /\ status row' = "failed"
    /\ progress row' = Some 1.0%Q
    /\ stage row' = Some "failed"
    /\ error_message row' = Some msg.
Proof.
  intros Hrow. eexists _, (set_failed msg row). rewrite db_mark_job_failed_eq.
  split; [reflexivity|]. cbn [jobs record with_jobs].
  rewrite lookup_alter_eq, Hrow. repeat split.
Qed.

Lemma db_mark_job_failed_overwrites_witness :
  exists w' row',
    db_mark_job_failed "0123456789ab" "RuntimeError: front pipeline failed (exit 1)."
      (one_job running_row) = (Ok tt, w')
    /\ jobs w' !! "0123456789ab" = Some row'
    /\ status row' = "failed"
    /\ progress row' = Some 1.0%Q
    /\ stage row' = Some "failed"
    /\ error_message row' = Some "RuntimeError: front pipeline failed (exit 1).".
Proof.
  apply (db_mark_job_failed_overwrites _ _ (one_job running_row) running_row).
  vm_compute. reflexivity.
Defined.

(** C7. [db_update_job_status] replaces each of status, progress and stage
    by its argument when that is not null and keeps it otherwise; every
    other column of the row, every other row and the files stay as they
    were. *)
Theorem db_update_job_status_coalesce (jid : string) (st : option string)
    (pr : option Q) (sg : option string) (w : world) (row : job_row) :
  jobs w !! jid = Some row ->
  exists w' row',
    db_update_job_status jid st pr sg w = (Ok tt, w')
    /\ jobs w' !! jid = Some row'
    /\ status row' = match st with Some s => s | None => status row end
    /\ progress row' = match pr with Some p => Some p | None => progress row end
    /\ stage row' = match sg with Some s => Some s | None => stage row end
    /\ (job_id row' = job_id row
        /\ user_id row' = user_id row
        /\ created_at_unix row' = created_at_unix row
        /\ original_filename row' = original_filename row
        /\ upload_ext row' = upload_ext row
        /\ upload_path row' = upload_path row
        /\ error_message row' = error_message row
        /\ overlay_url row' = overlay_url row
        /\ analysis_url row' = analysis_url row
        /\ practice_plan_url row' = practice_plan_url row
        /\ practice_plan_txt_url row' = practice_plan_txt_url row
        /\ lesson_plan_url row' = lesson_plan_url row
        /\ throws_detected row' = throws_detected row)
    /\ (forall other, other <> jid -> jobs w' !! other = jobs w !! other)
    /\ fs w' = fs w.
Proof.
  intros Hrow. eexists _, (set_status_progress_stage st pr sg row).
  rewrite db_update_job_status_eq. split; [reflexivity|].
  cbn [jobs fs record with_jobs]. rewrite lookup_alter_eq, Hrow.
  repeat split; try (destruct st; reflexivity); try (destruct pr; reflexivity);
    try (destruct sg; reflexivity).
  intros other Hne. apply lookup_alter_ne. congruence.
Qed.

Lemma db_update_job_status_coalesce_witness :
  exists w' row',
    db_update_job_status "0123456789ab" None (Some 0.75%Q) None (one_job running_row)
    = (Ok tt, w')
    /\ jobs w' !! "0123456789ab" = Some row'
    /\ status row' = "running"
    /\ progress row' = Some 0.75%Q
    /\ stage row' = Some "running_front".
Proof.
  destruct (db_update_job_status_coalesce "0123456789ab" None (Some 0.75%Q) None
              (one_job running_row) running_row)
    as (w' & row' & H1 & H2 & H3 & H4 & H5 & _).
  - vm_compute. reflexivity.
  - exists w', row'. repeat split; assumption.
Defined.

(** ** Reading the stores *)

Lemma exists_eq p w :
  exists_ p w = (Ok (match node_at (fs w) p with Some _ => true | None => false end), w).
Proof. reflexivity. Qed.

Lemma read_text_world p w : snd (read_text p w) = w.
Proof.
  unfold read_text. unfold_m. destruct (node_at (fs w) p) as [[d|]|]; reflexivity.
Qed.

Lemma read_text_file p d w :
  node_at (fs w) p = Some (File d) -> read_text p w = (Ok (string_of_list_byte d), w).
Proof. intros H. unfold read_text. unfold_m. rewrite H. reflexivity. Qed.

Lemma status_path_lookup m jid : node_at m (_status_path jid) = m !! _status_path jid.
Proof. reflexivity. Qed.

Lemma job_dir_lookup m jid : node_at m (_job_dir jid) = m !! _job_dir jid.
Proof. reflexivity. Qed.

Section ReadStores.
Context {codec : JsonCodec}.

Lemma load_json_world p w : snd (load_json p w) = w.
Proof.
  unfold load_json, bind. pose proof (read_text_world p w) as H.
  destruct (read_text p w) as [[t|e] w1]; cbn [snd] in H; subst w1; [|reflexivity].
  destruct (json_loads t); reflexivity.
Qed.

Lemma safe_read_json_world p w : snd (_safe_read_json p w) = w.
Proof.
  unfold _safe_read_json, try_except, bind. rewrite exists_eq.
  destruct (node_at (fs w) p); cbn [negb]; [|reflexivity].
  pose proof (load_json_world p w) as H.
  destruct (load_json p w) as [[v|e] w1]; cbn [snd] in H; subst w1; reflexivity.
Qed.

Lemma read_status_world jid w : snd (read_status jid w) = w.
Proof.
  unfold read_status, bind. rewrite exists_eq.
  destruct (node_at (fs w) (_status_path jid)); cbn [negb].
  - apply load_json_world.
  - rewrite exists_eq. destruct (node_at (fs w) (_job_dir jid)); reflexivity.
Qed.

(** What [read_status] answers depends on the two paths of the job only. *)
Lemma read_status_eq jid w :
  read_status jid w
  = (match fs w !! _status_path jid with
     | Some (File d) =>
         match json_loads (string_of_list_byte d) with
         | Some v => Ok v
         | None => Raise (PyError "JSONDecodeError" (json_error (string_of_list_byte d)))
         end
     | Some Dir =>
         Raise (PyError "IsADirectoryError"
                  ("[Errno 21] Is a directory: '" +:+ path_str (_status_path jid) +:+ "'"))
     | None =>
         match fs w !! _job_dir jid with
         | Some _ => Ok (queued_placeholder jid)
         | None => Ok (not_found_marker jid)
         end
     end, w).
Proof.
  unfold read_status, bind. rewrite exists_eq, status_path_lookup.
  destruct (fs w !! _status_path jid) as [[d|]|] eqn:Hs; cbn [negb].
  - unfold load_json, bind. rewrite (read_text_file _ d) by exact Hs.
    destruct (json_loads (string_of_list_byte d)); reflexivity.
  - unfold load_json, bind, read_text. unfold_m. rewrite status_path_lookup, Hs. reflexivity.
  - rewrite exists_eq, job_dir_lookup. destruct (fs w !! _job_dir jid); reflexivity.
Qed.

(** C10, as the code has it. [read_status] never changes the world.  It
    returns the parsed document when the status file holds text that
    parses, the queued placeholder when only the job directory exists, and
    the [not_found] marker with the job id when neither exists.  It is
    not total: it raises [IsADirectoryError] when the status path is a
    directory and [JSONDecodeError] when the file holds text that does
    not parse, and it raises in no other case. *)
Theorem read_status_shapes (jid : string) (w : world) :
  snd (read_status jid w) = w
  /\ (forall d v,
         fs w !! _status_path jid = Some (File d) ->
         json_loads (string_of_list_byte d) = Some v ->
         fst (read_status jid w) = Ok v)
  /\ (fs w !! _status_path jid = None ->
      is_Some (fs w !! _job_dir jid) ->
      fst (read_status jid w)
      = Ok (JDict [("job_id", JStr jid); ("status", JStr "queued");
                   ("progress", JFloat 0.0%Q); ("stage", JStr "starting");
                   ("started_at_unix", JNull); ("finished_at_unix", JNull);
                   ("error", JNull); ("result", JNull)]))
  /\ (fs w !! _status_path jid = None ->
      fs w !! _job_dir jid = None ->
      fst (read_status jid w) = Ok (JDict [("job_id", JStr jid); ("status", JStr "not_found")]))
  /\ (forall e,
         fst (read_status jid w) = Raise e ->
         fs w !! _status_path jid = Some Dir
         \/ exists d, fs w !! _status_path jid = Some (File d)
                      /\ json_loads (string_of_list_byte d) = None)
  /\ (forall d,
         fs w !! _status_path jid = Some (File d) ->
         json_loads (string_of_list_byte d) = None ->
         fst (read_status jid w)
         = Raise (PyError "JSONDecodeError" (json_error (string_of_list_byte d))))
  /\ (fs w !! _status_path jid = Some Dir ->
      fst (read_status jid w)
      = Raise (PyError "IsADirectoryError"
                 ("[Errno 21] Is a directory: '" +:+ path_str (_status_path jid) +:+ "'"))).
Proof.
  rewrite read_status_eq. cbn [fst snd].
  split; [reflexivity|]. split; [|split; [|split; [|split; [|split]]]].
  - intros d v Hd Hv. rewrite Hd, Hv. reflexivity.
  - intros Hs [n Hn]. rewrite Hs, Hn. reflexivity.
  - intros Hs Hn. rewrite Hs, Hn. reflexivity.
  - intros e. destruct (fs w !! _status_path jid) as [[d|]|] eqn:Hs.
    + destruct (json_loads (string_of_list_byte d)) eqn:Hv; [discriminate|].
      intros _. right. exists d. split; [reflexivity | exact Hv].
    + intros _. left. reflexivity.
    + destruct (fs w !! _job_dir jid); discriminate.
  - intros d Hd Hv. rewrite Hd, Hv. reflexivity.
  - intros Hd. rewrite Hd. reflexivity.
Qed.

End ReadStores.

Lemma read_status_shapes_witness :
  fst (read_status "0123456789ab"
         (with_fs (insert ["results"; "0123456789ab"; "status.json"]
                     (File (list_byte_of_string (jq "{'status': 'running'}"))))
            torn_status_world))
  = Ok (JDict [("status", JStr "running")])
  /\ fst (read_status "0123456789ab"
            (with_fs (delete ["results"; "0123456789ab"; "status.json"]) torn_status_world))
     = Ok (queued_placeholder "0123456789ab")
  /\ fst (read_status "0123456789ab" empty_world) = Ok (not_found_marker "0123456789ab")
  /\ fst (read_status "0123456789ab" torn_status_world)
     = Raise (PyError "JSONDecodeError" "Expecting value: line 1 column 1 (char 0)")
  /\ fst (read_status "0123456789ab"
            (with_fs (insert ["results"; "0123456789ab"; "status.json"] Dir)
               torn_status_world))
     = Raise (PyError "IsADirectoryError"
                "[Errno 21] Is a directory: 'results/0123456789ab/status.json'").
Proof.
  split; [|split; [|split; [|split]]].
  - apply (proj1 (proj2 (read_status_shapes "0123456789ab" _))
             (list_byte_of_string (jq "{'status': 'running'}"))).
    + vm_compute. reflexivity.
    + vm_compute. reflexivity.
  - apply (proj1 (proj2 (proj2 (read_status_shapes "0123456789ab" _)))).
    + vm_compute. reflexivity.
    + exists Dir. vm_compute. reflexivity.
  - apply (proj1 (proj2 (proj2 (proj2 (read_status_shapes "0123456789ab" _))))).
    + vm_compute. reflexivity.
    + vm_compute. reflexivity.
  - etrans.
    + apply (proj1 (proj2 (proj2 (proj2 (proj2 (proj2
               (read_status_shapes "0123456789ab" torn_status_world))))))
               []); vm_compute; reflexivity.
    + vm_compute. reflexivity.
  - apply (proj2 (proj2 (proj2 (proj2 (proj2 (proj2
             (read_status_shapes "0123456789ab" _))))))).
    vm_compute. reflexivity.
Defined.

(** C10, as stated, fails: with a status file that holds no document yet,
    [GET /jobs/{job_id}] raises instead of returning a status. *)
Lemma read_status_raises_on_empty_document :
  fs torn_status_world !! _status_path "0123456789ab" = Some (File [])
  /\ job "0123456789ab" torn_status_world
     = (Raise (PyError "JSONDecodeError" "Expecting value: line 1 column 1 (char 0)"),
        torn_status_world).
Proof. split; vm_compute; reflexivity. Qed.

(** ** What a computation adds to the history *)

Lemma keeps_ret {A} (a : A) : keeps_history (ret a).
Proof. intros w. reflexivity. Qed.

Lemma keeps_raise {A} e : keeps_history (@raise A e).
Proof. intros w. reflexivity. Qed.

Lemma keeps_get {A} (f : world -> A) : keeps_history (get f).
Proof. intros w. reflexivity. Qed.

Lemma keeps_modify_fs f : keeps_history (modify (with_fs f)).
Proof. intros w. reflexivity. Qed.

Lemma keeps_os_error {A} k t p : keeps_history (@os_error A k t p).
Proof. intros w. reflexivity. Qed.

Lemma keeps_bind {A B} (m : M A) (k : A -> M B) :
  keeps_history m -> (forall a, keeps_history (k a)) -> keeps_history (bind m k).
Proof.
  intros Hm Hk w. unfold bind. specialize (Hm w).
  destruct (m w) as [[a|e] w1]; cbn [snd] in *; [|exact Hm].
  rewrite Hk. exact Hm.
Qed.

Lemma keeps_try_except {A} (m : M A) h :
  keeps_history m -> (forall e, keeps_history (h e)) -> keeps_history (try_except m h).
Proof.
  intros Hm Hh w. unfold try_except. specialize (Hm w).
  destruct (m w) as [[a|e] w1]; cbn [snd] in *; [exact Hm|].
  rewrite Hh. exact Hm.
Qed.

Create HintDb keeps.

#[local] Hint Resolve keeps_ret keeps_raise keeps_get keeps_modify_fs keeps_os_error
  keeps_bind keeps_try_except : keeps.

#[local] Hint Extern 1 (keeps_history (match ?x with _ => _ end)) => destruct x : keeps.
#[local] Hint Extern 1 (keeps_history (if ?x then _ else _)) => destruct x : keeps.
#[local] Hint Extern 2 (keeps_history _) => progress cbv beta : keeps.

Ltac keeps := intros; auto 20 with keeps.

Lemma keeps_exists p : keeps_history (exists_ p).
Proof. unfold exists_. keeps. Qed.

Lemma keeps_mkdir_from todo : forall seen, keeps_history (mkdir_from seen todo).
Proof.
  induction todo as [|c todo IH]; intros seen; cbn [mkdir_from]; [keeps|].
  apply keeps_bind; [keeps|]. intros [[d|]|]; [destruct todo; keeps | apply IH |].
  apply keeps_bind; [keeps | intros _; apply IH].
Qed.

Lemma keeps_mkdir_parents p : keeps_history (mkdir_parents p).
Proof. apply keeps_mkdir_from. Qed.

Lemma keeps_open_wb p : keeps_history (open_wb p).
Proof. unfold open_wb. keeps. Qed.

Lemma keeps_write_chunk p c : keeps_history (write_chunk p c).
Proof. unfold write_chunk. keeps. Qed.

#[local] Hint Resolve keeps_exists keeps_mkdir_parents keeps_open_wb keeps_write_chunk : keeps.

Lemma keeps_write_text p s : keeps_history (write_text p s).
Proof. unfold write_text. keeps. Qed.

Lemma keeps_read_text p : keeps_history (read_text p).
Proof. unfold read_text. keeps. Qed.

Lemma keeps_unlink p : keeps_history (unlink p).
Proof. unfold unlink. keeps. Qed.

#[local] Hint Resolve keeps_write_text keeps_read_text keeps_unlink : keeps.

Lemma keeps_remove_quietly p : keeps_history (remove_quietly p).
Proof. unfold remove_quietly, try_pass. keeps. Qed.

Lemma keeps_py_get v k : keeps_history (py_get v k).
Proof. unfold py_get. keeps. Qed.

#[local] Hint Resolve keeps_remove_quietly keeps_py_get : keeps.

Ltac qle := unfold Qle; cbn; lia.

Lemma within_nil lo hi : within lo hi [].
Proof. repeat split; constructor. Qed.

Lemma within_app lo mid hi l1 l2 :
  (lo <= mid)%Q -> (mid <= hi)%Q ->
  within lo mid l1 -> within mid hi l2 -> within lo hi (l1 ++ l2).
Proof.
  intros Hlo Hhi (S1 & B1 & T1) (S2 & B2 & T2). unfold within, progresses in *.
  rewrite omap_app. split; [|split].
  - apply StronglySorted_app_2; [|assumption..].
    intros x1 x2 H1 H2.
    rewrite Forall_forall in B1, B2.
    destruct (B1 _ H1) as [_ Hx1]. destruct (B2 _ H2) as [Hx2 _].
    eapply Qle_trans; eassumption.
  - apply Forall_app. split.
    + eapply Forall_impl; [exact B1|]. intros q [H1 H2]. split; [exact H1|].
      eapply Qle_trans; eassumption.
    + eapply Forall_impl; [exact B2|]. intros q [H1 H2]. split; [|exact H2].
      eapply Qle_trans; eassumption.
  - apply Forall_app. split; assumption.
Qed.

Lemma within_widen lo mid hi l :
  (mid <= hi)%Q -> within lo mid l -> within lo hi l.
Proof.
  intros Hhi (S1 & B1 & T1). split; [exact S1|]. split; [|exact T1].
  eapply Forall_impl; [exact B1|]. intros q [H1 H2]. split; [exact H1|].
  eapply Qle_trans; eassumption.
Qed.

Lemma within_one lo hi e p :
  progress_written e = Some p -> snaps e -> (lo <= p)%Q -> (p <= hi)%Q ->
  within lo hi [e].
Proof.
  intros Hp Hs H1 H2. unfold within, progresses. cbn [omap list_omap]. rewrite Hp.
  repeat split; repeat constructor; assumption.
Qed.

Lemma within_process lo hi cmd r m : within lo hi [ProcExit cmd r m].
Proof.
  repeat split; cbn; repeat constructor. intros s H. discriminate.
Qed.

Lemma emits_keeps {A} lo hi (m : M A) : keeps_history m -> emits lo hi m.
Proof.
  intros H w. exists []. rewrite app_nil_r. split; [apply H | apply within_nil].
Qed.

Lemma emits_bind {A B} lo mid hi (m : M A) (k : A -> M B) :
  (lo <= mid)%Q -> (mid <= hi)%Q ->
  emits lo mid m -> (forall a, emits mid hi (k a)) -> emits lo hi (bind m k).
Proof.
  intros Hlo Hhi Hm Hk w. unfold bind. destruct (Hm w) as (l1 & E1 & W1).
  destruct (m w) as [[a|e] w1]; cbn [snd] in *.
  - destruct (Hk a w1) as (l2 & E2 & W2). exists (l1 ++ l2).
    rewrite E2, E1, app_assoc. split; [reflexivity|].
    eapply within_app; eassumption.
  - exists l1. split; [exact E1|]. eapply within_widen; eassumption.
Qed.

Lemma emits_try_except {A} lo mid hi (m : M A) h :
  (lo <= mid)%Q -> (mid <= hi)%Q ->
  emits lo mid m -> (forall e, emits mid hi (h e)) -> emits lo hi (try_except m h).
Proof.
  intros Hlo Hhi Hm Hh w. unfold try_except. destruct (Hm w) as (l1 & E1 & W1).
  destruct (m w) as [[a|e] w1]; cbn [snd] in *.
  - exists l1. split; [exact E1|]. eapply within_widen; eassumption.
  - destruct (Hh e w1) as (l2 & E2 & W2). exists (l1 ++ l2).
    rewrite E2, E1, app_assoc. split; [reflexivity|].
    eapply within_app; eassumption.
Qed.

Lemma emits_record lo hi e p :
  progress_written e = Some p -> snaps e -> (lo <= p)%Q -> (p <= hi)%Q ->
  emits lo hi (modify (record e)).
Proof.
  intros Hp Hs H1 H2 w. exists [e]. split; [reflexivity|].
  eapply within_one; eassumption.
Qed.

Lemma keeps_modify_jobs f : keeps_history (modify (with_jobs f)).
Proof. intros w. reflexivity. Qed.

Lemma snaps_running jid pr sg : snaps (DbUpdate jid (Some "running") pr sg).
Proof. intros s H [->| ->]; discriminate. Qed.

Lemma emits_db_update lo hi jid p sg :
  (lo <= p)%Q -> (p <= hi)%Q ->
  emits lo hi (db_update_job_status jid (Some "running") (Some p) sg).
Proof.
  intros H1 H2. unfold db_update_job_status.
  apply (emits_bind lo lo hi); [apply Qle_refl | eapply Qle_trans; eassumption | |].
  - apply emits_keeps, keeps_modify_jobs.
  - intros _. eapply emits_record; [reflexivity | apply snaps_running | assumption..].
Qed.

Lemma emits_mark_failed lo hi jid msg :
  (lo <= 1.0)%Q -> (1.0 <= hi)%Q -> emits lo hi (db_mark_job_failed jid msg).
Proof.
  intros H1 H2. unfold db_mark_job_failed.
  apply (emits_bind lo lo hi); [apply Qle_refl | eapply Qle_trans; eassumption | |].
  - apply emits_keeps, keeps_modify_jobs.
  - intros _. eapply emits_record; [reflexivity | intros s _ _; reflexivity | assumption..].
Qed.

Lemma emits_mark_done lo hi jid o a p t l n :
  (lo <= 1.0)%Q -> (1.0 <= hi)%Q -> emits lo hi (db_mark_job_done jid o a p t l n).
Proof.
  intros H1 H2. unfold db_mark_job_done.
  destruct (match n with Some z => fits_sqlite_integer z | None => true end);
    [|apply emits_keeps, keeps_raise].
  apply (emits_bind lo lo hi); [apply Qle_refl | eapply Qle_trans; eassumption | |].
  - apply emits_keeps, keeps_modify_jobs.
  - intros _. eapply emits_record; [reflexivity | intros s _ _; reflexivity | assumption..].
Qed.

Lemma emits_widen {A} lo lo' hi hi' (m : M A) :
  (lo' <= lo)%Q -> (hi <= hi')%Q -> emits lo hi m -> emits lo' hi' m.
Proof.
  intros Hlo Hhi H w. destruct (H w) as (l & E & S1 & B1 & T1).
  exists l. split; [exact E|]. split; [exact S1|]. split; [|exact T1].
  eapply Forall_impl; [exact B1|]. intros q [H1 H2].
  split; eapply Qle_trans; eassumption.
Qed.

Ltac solve_snaps :=
  let s := fresh "s" in
  let Hs := fresh "Hs" in
  let Ht := fresh "Ht" in
  intros s Hs Ht;
  first [ reflexivity
        | destruct Ht as [-> | ->]; unfold status_payload in Hs; cbn in Hs; discriminate Hs ].

Section History.
Context {codec : JsonCodec} (E : env).

Lemma keeps_load_json p : keeps_history (load_json p).
Proof. unfold load_json. keeps. Qed.

#[local] Hint Resolve keeps_load_json : keeps.

Lemma keeps_safe_read_json p : keeps_history (_safe_read_json p).
Proof. unfold _safe_read_json. keeps. Qed.

Lemma keeps_read_status jid : keeps_history (read_status jid).
Proof. unfold read_status. keeps. Qed.

Lemma keeps_pick_overlay_url jid view : keeps_history (_pick_overlay_url jid view).
Proof. unfold _pick_overlay_url. keeps. Qed.

Lemma keeps_infer_txt_url jid : keeps_history (_infer_txt_url jid).
Proof. unfold _infer_txt_url. keeps. Qed.

Lemma keeps_analysis_arg flag a : keeps_history (analysis_arg flag a).
Proof. unfold analysis_arg. keeps. Qed.

Lemma keeps_now : keeps_history (now E).
Proof. intros w. reflexivity. Qed.

#[local] Hint Resolve keeps_safe_read_json keeps_read_status keeps_pick_overlay_url
  keeps_infer_txt_url keeps_analysis_arg keeps_now : keeps.

Lemma emits_run lo hi cmd : emits lo hi (run E cmd).
Proof.
  intros w. unfold run. destruct (subprocess_run E cmd (fs w)) as [r m'].
  exists [ProcExit cmd r m']. split; [reflexivity | apply within_process].
Qed.

Lemma emits_write_status x jid payload :
  progress_written (DocWrite jid payload) = Some x ->
  snaps (DocWrite jid payload) ->
  emits x x (write_status jid payload).
Proof.
  intros Hp Hs. unfold write_status.
  apply (emits_bind x x x); [apply Qle_refl | apply Qle_refl | apply emits_keeps; keeps |].
  intros _.
  apply (emits_bind x x x); [apply Qle_refl | apply Qle_refl | apply emits_keeps; keeps |].
  intros _. eapply emits_record; [exact Hp | exact Hs | apply Qle_refl..].
Qed.

Ltac emits_chain x :=
  lazymatch goal with
  | |- emits _ _ (bind _ _) =>
      apply (emits_bind x x x);
      [apply Qle_refl | apply Qle_refl | emits_chain x | intros ?; emits_chain x]
  | |- emits _ _ (match ?v with _ => _ end) => destruct v; emits_chain x
  | |- emits _ _ (run _ _) => apply emits_run
  | |- emits _ _ (db_update_job_status _ _ _ _) => apply emits_db_update; qle
  | |- emits _ _ (db_mark_job_done _ _ _ _ _ _ _) => apply emits_mark_done; qle
  | |- emits _ _ (db_mark_job_failed _ _) => apply emits_mark_failed; qle
  | |- emits _ _ (write_status _ _) =>
      apply emits_write_status; [reflexivity | solve_snaps]
  | |- _ => apply emits_keeps; solve [keeps]
  end.

Lemma emits_run_single_view x jid view up model no_ai :
  emits x x (_run_single_view E jid view up model no_ai).
Proof. unfold _run_single_view. cbv zeta. emits_chain x. Qed.

Lemma emits_stage_views jid side front model no_ai :
  emits 0.10 0.45 (stage_views E jid side front model no_ai).
Proof.
  unfold stage_views.
  apply (emits_bind 0.10 0.10 0.45); [qle | qle | |intros _].
  - destruct side; [|apply emits_keeps; keeps].
    apply (emits_bind 0.10 0.10 0.10); [qle | qle | apply emits_db_update; qle |].
    intros _. apply emits_run_single_view.
  - destruct front; [|apply emits_keeps; keeps].
    apply (emits_bind 0.10 0.45 0.45); [qle | qle | apply emits_db_update; qle |].
    intros _. apply emits_run_single_view.
Qed.

Lemma emits_stage_combine jid side front :
  emits 0.75 0.75 (stage_combine E jid side front).
Proof. unfold stage_combine. cbv zeta. emits_chain 0.75%Q. Qed.

Lemma emits_stage_build jid model no_ai :
  emits 0.88 0.88 (stage_build E jid model no_ai).
Proof. unfold stage_build. cbv zeta. emits_chain 0.88%Q. Qed.

Lemma emits_stage_result jid side front :
  emits 1.0 1.0 (stage_result E jid side front).
Proof. unfold stage_result. cbv zeta. emits_chain 1.0%Q. Qed.

Lemma emits_pipeline jid side front model no_ai :
  emits 0.10 1.0 (pipeline E jid side front model no_ai).
Proof.
  unfold pipeline.
  apply (emits_bind 0.10 0.45 1.0); [qle | qle | apply emits_stage_views | intros _].
  apply (emits_bind 0.45 0.75 1.0); [qle | qle | | intros _].
  { eapply emits_widen; [| |apply emits_stage_combine]; qle. }
  apply (emits_bind 0.75 0.88 1.0); [qle | qle | | intros _].
  { eapply emits_widen; [| |apply emits_stage_build]; qle. }
  eapply emits_widen; [| |apply emits_stage_result]; qle.
Qed.

Lemma emits_on_failure jid e : emits 1.0 1.0 (on_failure E jid e).
Proof. unfold on_failure. cbv zeta. emits_chain 1.0%Q. Qed.

Lemma emits_start_background_job jid side front model no_ai :
  emits 0.01 1.0 (start_background_job E jid side front model no_ai).
Proof.
  unfold start_background_job.
  apply (emits_bind 0.01 0.01 1.0); [qle | qle | apply emits_keeps; keeps | intros started].
  apply (emits_bind 0.01 0.01 1.0); [qle | qle | | intros _].
  { apply emits_write_status; [reflexivity | solve_snaps]. }
  apply (emits_bind 0.01 0.01 1.0); [qle | qle | apply emits_db_update; qle | intros _].
  apply (emits_try_except 0.01 1.0 1.0); [qle | qle | | intros e].
  - eapply emits_widen; [| |apply emits_pipeline]; qle.
  - apply emits_on_failure.
Qed.

End History.

#[local] Hint Resolve keeps_load_json keeps_safe_read_json keeps_read_status
  keeps_pick_overlay_url keeps_infer_txt_url keeps_analysis_arg keeps_now
  keeps_modify_jobs : keeps.

(** C3. On every run of the orchestrator, whichever views are present and
    wherever it fails, the progress values it writes to the job table and
    to the status document, in the order written, never decrease, lie
    between 0 and 1, and are exactly 1.0 in every write that sets status
    [done] or [failed]. *)
Theorem progress_never_decreases {codec : JsonCodec} (E : env) (jid : string)
    (side front : option path) (model : string) (no_ai : bool) (w : world) :
  exists l,
    history (snd (start_background_job E jid side front model no_ai w)) = history w ++ l
    /\ StronglySorted Qle (progresses l)
    /\ Forall (fun q => (0 <= q)%Q /\ (q <= 1)%Q) (progresses l)
    /\ Forall (fun e => forall s, status_written e = Some s -> terminal s ->
                                  progress_written e = Some 1.0%Q) l.
Proof.
  destruct (emits_start_background_job E jid side front model no_ai w)
    as (l & El & Sl & Bl & Tl).
  exists l. split; [exact El|]. split; [exact Sl|]. split; [|exact Tl].
  eapply Forall_impl; [exact Bl|]. intros q [H1 H2].
  split; eapply Qle_trans; try eassumption; qle.
Qed.

Example progress_of_a_good_run :
  progresses (job_events all_well)
  = [0.01; 0.01; 0.10; 0.45; 0.75; 0.88; 1.0; 1.0]%Q.
Proof. vm_compute. reflexivity. Qed.

Example progress_of_a_failed_run :
  progresses (job_events build_fails)
  = [0.01; 0.01; 0.10; 0.45; 0.75; 0.88; 1.0; 1.0]%Q
  /\ omap status_written (job_events build_fails)
     = ["running"; "running"; "running"; "running"; "running"; "running";
        "failed"; "failed"].
Proof. vm_compute. split; reflexivity. Qed.

(** ** Frames: what the store operations leave alone *)

Lemma bind_ok {A B} (m : M A) (k : A -> M B) w a w1 :
  m w = (Ok a, w1) -> bind m k w = k a w1.
Proof. intros H. unfold bind. rewrite H. reflexivity. Qed.

Lemma bind_raise {A B} (m : M A) (k : A -> M B) w e w1 :
  m w = (Raise e, w1) -> bind m k w = (Raise e, w1).
Proof. intros H. unfold bind. rewrite H. reflexivity. Qed.

Lemma mkdir_from_frame todo : forall seen w r w',
  mkdir_from seen todo w = (r, w') ->
  jobs w' = jobs w
  /\ clock w' = clock w
  /\ (forall p, (length (seen ++ todo) < length p)%nat -> fs w' !! p = fs w !! p).
Proof.
  induction todo as [|c todo IH]; intros seen w r w' H; cbn [mkdir_from] in H.
  - inversion H; subst. repeat split.
  - unfold bind at 1 in H. unfold get in H. cbv beta iota in H.
    replace (seen ++ c :: todo) with ((seen ++ [c]) ++ todo)
      by (rewrite <- app_assoc; reflexivity).
    destruct (node_at (fs w) (seen ++ [c])) as [[d|]|].
    + destruct todo; inversion H; subst; repeat split.
    + eapply IH; exact H.
    + unfold bind, modify in H. cbv beta iota in H.
      destruct (IH _ _ _ _ H) as (J & C & F).
      split; [exact J|]. split; [exact C|]. intros p Hp. rewrite (F p Hp).
      cbn [fs with_fs]. apply lookup_insert_ne. intros <-.
      rewrite !length_app in Hp. lia.
Qed.

Lemma write_text_frame p s w r w' :
  write_text p s w = (r, w') ->
  jobs w' = jobs w
  /\ clock w' = clock w
  /\ (forall q, q <> p -> fs w' !! q = fs w !! q).
Proof.
  unfold write_text, open_wb, write_chunk. unfold_m.
  destruct (node_at (fs w) p) as [[d|]|];
    try (intros H; inversion H; subst; repeat split; fail);
    (destruct (node_at (fs w) (parent p)) as [[d'|]|];
     try (intros H; inversion H; subst; repeat split; fail));
    intros H; inversion H; subst; cbn [fs with_fs jobs clock];
    rewrite lookup_insert_eq;
    (split; [reflexivity|]); (split; [reflexivity|]);
    intros q Hq; rewrite !lookup_insert_ne by congruence; reflexivity.
Qed.

(** A successful [write_text] leaves a file with exactly the text. *)
Lemma write_text_ok p s w w' :
  write_text p s w = (Ok tt, w') ->
  fs w' !! p = Some (File (list_byte_of_string s)).
Proof.
  unfold write_text, open_wb, write_chunk. unfold_m.
  destruct (node_at (fs w) p) as [[d|]|];
    try discriminate;
    (destruct (node_at (fs w) (parent p)) as [[d'|]|]; try discriminate);
    intros H; inversion H; subst; cbn [fs with_fs];
    rewrite lookup_insert_eq; rewrite lookup_insert_eq; reflexivity.
Qed.

Section Frames.
Context {codec : JsonCodec}.

Lemma write_status_spec jid payload w r w' :
  write_status jid payload w = (r, w') ->
  jobs w' = jobs w
  /\ clock w' = clock w
  /\ (forall p, (3 < length p)%nat -> fs w' !! p = fs w !! p)
  /\ match r with
     | Ok _ =>
         history w' = history w ++ [DocWrite jid payload]
         /\ fs w' !! _status_path jid = Some (File (list_byte_of_string (json_dumps payload)))
     | Raise _ => history w' = history w
     end.
Proof.
  unfold write_status. cbv zeta. unfold bind at 1.
  pose proof (keeps_mkdir_parents (_job_dir jid) w) as H1.
  destruct (mkdir_parents (_job_dir jid) w) as [[[]|e] w1] eqn:E1; cbn [snd] in H1;
    destruct (mkdir_from_frame _ _ _ _ _ E1) as (J1 & C1 & F1).
  - unfold bind at 1.
    pose proof (keeps_write_text (_status_path jid) (json_dumps payload) w1) as H2.
    destruct (write_text (_status_path jid) (json_dumps payload) w1) as [[[]|e] w2] eqn:E2;
      cbn [snd] in H2; destruct (write_text_frame _ _ _ _ _ E2) as (J2 & C2 & F2).
    + unfold modify. intros H; inversion H; subst r w'.
      cbn [jobs clock fs history record].
      split; [congruence|]. split; [congruence|]. split.
      * intros p Hp. rewrite F2, F1; [reflexivity | cbn; lia |].
        intros ->. cbn in Hp. lia.
      * split; [rewrite H2, H1; reflexivity | apply (write_text_ok _ _ _ _ E2)].
    + intros H; inversion H; subst r w'.
      split; [congruence|]. split; [congruence|]. split; [|congruence].
      intros p Hp. rewrite F2, F1; [reflexivity | cbn; lia |].
      intros ->. cbn in Hp. lia.
  - intros H; inversion H; subst r w'.
    split; [exact J1|]. split; [exact C1|]. split; [|exact H1].
    intros p Hp. apply F1. cbn. lia.
Qed.

Lemma pick_overlay_url_eq jid view w :
  _pick_overlay_url jid view w = (Ok (overlay_choice (fs w) jid view), w).
Proof.
  unfold _pick_overlay_url, overlay_choice, is_present. cbv zeta.
  unfold bind at 1. rewrite exists_eq. rewrite <- !app_assoc.
  destruct (node_at (fs w) _); [reflexivity|].
  unfold bind. rewrite exists_eq.
  destruct (node_at (fs w) _); reflexivity.
Qed.

Lemma infer_txt_url_eq jid w :
  _infer_txt_url jid w
  = (Ok (if is_present (fs w) (_job_dir jid ++ ["combined"; "practice_plan.txt"])
         then Some ("/results/" +:+ jid +:+ "/combined/practice_plan.txt") else None), w).
Proof.
  unfold _infer_txt_url, is_present. cbv zeta. unfold bind. rewrite exists_eq.
  destruct (node_at (fs w) _); reflexivity.
Qed.

Lemma safe_read_json_eq p w : _safe_read_json p w = (Ok (parsed_file (fs w) p), w).
Proof.
  unfold _safe_read_json, parsed_file, try_except, bind. rewrite exists_eq.
  destruct (node_at (fs w) p) as [[d|]|] eqn:Hp; cbn [negb].
  - unfold load_json, bind. rewrite (read_text_file p d w Hp).
    destruct (json_loads (string_of_list_byte d)); reflexivity.
  - unfold load_json, bind, read_text. unfold_m. rewrite Hp. reflexivity.
  - reflexivity.
Qed.

Lemma guarded_read_json_eq p w :
  (let* e := exists_ p in if e then _safe_read_json p else ret None) w
  = (Ok (parsed_file (fs w) p), w).
Proof.
  unfold bind. rewrite exists_eq. unfold parsed_file.
  destruct (node_at (fs w) p) as [n|] eqn:Hp; [|reflexivity].
  rewrite safe_read_json_eq. unfold parsed_file. rewrite Hp. reflexivity.
Qed.

End Frames.

Lemma py_get_world v k w : snd (py_get v k w) = w.
Proof. destruct v; reflexivity. Qed.

Section Done.
Context {codec : JsonCodec} (E : env).

Lemma view_overlay_eq (v : option path) jid view w :
  match v with Some _ => _pick_overlay_url jid view | None => ret None end w
  = (Ok (match v with Some _ => overlay_choice (fs w) jid view | None => None end), w).
Proof. destruct v; [apply pick_overlay_url_eq | reflexivity]. Qed.

(** What the last stage does when it returns: it reads the files as the
    report builder left them, writes the [done] document and the [done]
    row, and changes no file deeper than the status document. *)
Lemma stage_result_done jid side front w w' :
  stage_result E jid side front w = (Ok tt, w') ->
  exists started finished summary throws,
    let m := fs w in
    let side_url := match side with Some _ => overlay_choice m jid "side" | None => None end in
    let front_url :=
      match front with Some _ => overlay_choice m jid "front" | None => None end in
    let overlay := match side_url with Some u => Some u | None => front_url end in
    let txt := if is_present m (_job_dir jid ++ ["combined"; "practice_plan.txt"])
               then Some ("/results/" +:+ jid +:+ "/combined/practice_plan.txt")
               else None in
    let payload :=
      status_payload jid "done" 1.0%Q "done" started (JFloat finished) JNull
        (JDict [("overlay_url", jopt overlay);
                ("overlay_side_url", jopt side_url);
                ("overlay_front_url", jopt front_url);
                ("analysis_url", JStr ("/results/" +:+ jid +:+ "/combined/analysis.json"));
                ("lesson_plan_url",
                 JStr ("/results/" +:+ jid +:+ "/combined/lesson_plan.json"));
                ("practice_plan_pdf_url",
                 JStr ("/results/" +:+ jid +:+ "/combined/practice_plan.pdf"));
                ("practice_plan_txt_url", jopt txt);
                ("practice_plan",
                 json_of_option (parsed_file m (combined_dir jid ++ ["practice_plan.json"])));
                ("lesson_plan",
                 json_of_option (parsed_file m (combined_dir jid ++ ["lesson_plan.json"])));
                ("analysis_summary", summary);
                ("views", JDict [("side", JBool (bool_decide (is_Some side)));
                                 ("front", JBool (bool_decide (is_Some front)))])]) in
    history w' = history w
                 ++ [DocWrite jid payload;
                     DbDone jid overlay
                       (Some ("/results/" +:+ jid +:+ "/combined/analysis.json"))
                       (Some ("/results/" +:+ jid +:+ "/combined/practice_plan.pdf"))
                       txt
                       (Some ("/results/" +:+ jid +:+ "/combined/lesson_plan.json"))
                       throws]
    /\ fs w' !! _status_path jid = Some (File (list_byte_of_string (json_dumps payload)))
    /\ (forall p, (3 < length p)%nat -> fs w' !! p = fs w !! p).
Proof.
  unfold stage_result. cbv zeta. intros H.
  rewrite (bind_ok _ _ _ _ _ (view_overlay_eq side jid "side" w)) in H.
  rewrite (bind_ok _ _ _ _ _ (view_overlay_eq front jid "front" w)) in H.
  rewrite (bind_ok _ _ _ _ _ (guarded_read_json_eq _ w)) in H.
  rewrite (bind_ok _ _ _ _ _ (guarded_read_json_eq _ w)) in H.
  rewrite (bind_ok _ _ _ _ _ (infer_txt_url_eq jid w)) in H.
  rewrite (bind_ok _ _ _ _ _ (safe_read_json_eq _ w)) in H.
  unfold bind at 1 in H.
  match type of H with
  | context [py_get ?v ?k w] =>
      pose proof (py_get_world v k w) as Hw1;
      destruct (py_get v k w) as [[summary0|e] w1]; cbn [snd] in Hw1; [subst w1|discriminate]
  end.
  unfold bind at 1 in H.
  match type of H with
  | context [py_get ?v ?k w] =>
      pose proof (py_get_world v k w) as Hw1;
      destruct (py_get v k w) as [[throws|e] w1]; cbn [snd] in Hw1; [subst w1|discriminate]
  end.
  unfold bind at 1 in H.
  pose proof (read_status_world jid w) as Hw1.
  destruct (read_status jid w) as [[st|e] w1]; cbn [snd] in Hw1; [subst w1|discriminate].
  unfold bind at 1 in H.
  match type of H with
  | context [py_get ?v ?k w] =>
      pose proof (py_get_world v k w) as Hw1;
      destruct (py_get v k w) as [[started|e] w1]; cbn [snd] in Hw1; [subst w1|discriminate]
  end.
  unfold bind at 1 in H. unfold now at 1 in H.
  unfold bind at 1 in H.
  match type of H with
  | context [write_status ?j ?p ?x] =>
      destruct (write_status j p x) as [[[]|e] w2] eqn:Ew; [|discriminate];
      destruct (write_status_spec _ _ _ _ _ Ew) as (J & C & F & Hh & Hf)
  end.
  apply db_mark_job_done_ok in H. subst w'.
  exists started, (time_time E (clock w)), (py_or summary0 (JDict [])), (int_or_none throws).
  cbv zeta. cbn [history fs record with_jobs].
  split; [|split].
  - rewrite Hh. cbn [history tick]. rewrite <- app_assoc. reflexivity.
  - exact Hf.
  - intros p Hp. rewrite (F p Hp). reflexivity.
Qed.

End Done.

Section Failure.
Context {codec : JsonCodec} (E : env).

(** What the [except] block does: the row is marked failed; then, when
    the status document can be read and written, the [failed] document
    replaces it; no file deeper than the status document changes. *)
Lemma on_failure_spec jid e w r w' :
  on_failure E jid e w = (r, w') ->
  let msg := exn_type_name e +:+ ": " +:+ exn_str e in
  jobs w' = alter (set_failed msg) jid (jobs w)
  /\ (forall p, (3 < length p)%nat -> fs w' !! p = fs w !! p)
  /\ match r with
     | Ok _ =>
         exists started finished,
           let payload :=
             status_payload jid "failed" 1.0%Q "failed" started (JFloat finished)
               (JDict [("message", JStr msg)]) JNull in
           history w' = history w ++ [DbFailed jid msg; DocWrite jid payload]
           /\ fs w' !! _status_path jid
              = Some (File (list_byte_of_string (json_dumps payload)))
     | Raise _ => history w' = history w ++ [DbFailed jid msg]
     end.
Proof.
  unfold on_failure. cbv zeta. intros H.
  rewrite (bind_ok _ _ _ _ _ (db_mark_job_failed_eq jid _ w)) in H.
  set (w0 := record _ _) in H.
  unfold bind at 1 in H.
  pose proof (read_status_world jid w0) as Hw1.
  destruct (read_status jid w0) as [[st|e1] w1]; cbn [snd] in Hw1; subst w1;
    [|inversion H; subst; repeat split].
  unfold bind at 1 in H.
  pose proof (py_get_world st "started_at_unix" w0) as Hw1.
  destruct (py_get st "started_at_unix" w0) as [[started|e1] w1]; cbn [snd] in Hw1; subst w1;
    [|inversion H; subst; repeat split].
  unfold bind at 1 in H. unfold now at 1 in H.
  match type of H with
  | write_status ?j ?p ?x = _ => destruct (write_status_spec _ _ _ _ _ H) as (J & C & F & Hh)
  end.
  split; [rewrite J; reflexivity|]. split; [intros p Hp; rewrite (F p Hp); reflexivity|].
  destruct r as [[]|e1].
  - destruct Hh as [Hh Hf]. exists started, (time_time E (clock w0)). cbv zeta.
    split; [|exact Hf]. rewrite Hh. cbn [history tick]. subst w0. cbn [history record].
    rewrite <- app_assoc. reflexivity.
  - rewrite Hh. reflexivity.
Qed.

(** The handler never ends the history with a [done] row. *)
Lemma on_failure_last jid e w r w' l :
  on_failure E jid e w = (r, w') ->
  history w' = history w ++ l ->
  forall o a p t ls n, last l <> Some (DbDone jid o a p t ls n).
Proof.
  intros H Hl o a p t ls n. destruct (on_failure_spec _ _ _ _ _ H) as (_ & _ & Hh).
  destruct r as [[]|e1].
  - destruct Hh as (started & finished & Hh & _). rewrite Hh in Hl.
    apply app_inv_head in Hl. subst l. cbn. discriminate.
  - rewrite Hh in Hl. apply app_inv_head in Hl. subst l. cbn. discriminate.
Qed.

(** A run whose last event is the [done] row went through the last stage. *)
Lemma done_run_inv jid side front model no_ai w r w' l o a p t ls n :
  start_background_job E jid side front model no_ai w = (r, w') ->
  history w' = history w ++ l ->
  last l = Some (DbDone jid o a p t ls n) ->
  exists w3, stage_result E jid side front w3 = (Ok tt, w').
Proof.
  unfold start_background_job. intros H Hl Hlast.
  unfold bind at 1 in H. unfold now at 1 in H.
  unfold bind at 1 in H.
  match type of H with
  | context [write_status ?j ?pl ?x] =>
      destruct (write_status j pl x) as [[[]|e] w1] eqn:Ew;
      destruct (write_status_spec _ _ _ _ _ Ew) as (_ & _ & _ & Hh1)
  end.
  2:{ inversion H; subst. cbn [history tick] in Hh1. rewrite Hh1 in Hl.
      rewrite <- (app_nil_r (history w)) in Hl at 1. apply app_inv_head in Hl. subst l.
      discriminate. }
  rewrite (bind_ok _ _ _ _ _ (db_update_job_status_eq jid _ _ _ w1)) in H.
  set (w2 := record _ _) in H.
  unfold try_except in H.
  destruct (pipeline E jid side front model no_ai w2) as [[[]|e] w3] eqn:Ep.
  - inversion H; subst r w'. unfold pipeline in Ep.
    unfold bind at 1 in Ep.
    destruct (stage_views E jid side front model no_ai w2) as [[[]|e] wa]; [|discriminate].
    unfold bind at 1 in Ep.
    destruct (stage_combine E jid side front wa) as [[[]|e] wb]; [|discriminate].
    unfold bind at 1 in Ep.
    destruct (stage_build E jid model no_ai wb) as [[[]|e] wc]; [|discriminate].
    exists wc. exact Ep.
  - exfalso.
    destruct (emits_pipeline E jid side front model no_ai w2) as (lp & Hp & _).
    rewrite Ep in Hp. cbn [snd] in Hp.
    destruct (on_failure_spec _ _ _ _ _ H) as (_ & _ & Hh).
    destruct Hh1 as [Hh1 _]. cbn [history tick] in Hh1.
    assert (exists x lh, history w' = history w3 ++ lh ++ [x]
                         /\ x <> DbDone jid o a p t ls n)
      as (x & lh & Hlh & Hne).
    { destruct r as [[]|e1].
      - destruct Hh as (s & f & Hh & _). eexists _, [_]. split; [exact Hh|]. discriminate.
      - eexists _, []. split; [exact Hh|]. discriminate. }
    rewrite Hlh, Hp in Hl. subst w2. cbn [history record with_jobs] in Hl.
    rewrite Hh1 in Hl. rewrite <- !app_assoc in Hl. apply app_inv_head in Hl. subst l.
    rewrite !app_assoc, last_snoc in Hlast. congruence.
Qed.

End Failure.

(** ** A job that reaches [done] *)

Lemma overlay_choice_frame (m m' : gmap path node) jid view :
  (forall p, (3 < length p)%nat -> m' !! p = m !! p) ->
  overlay_choice m' jid view = overlay_choice m jid view.
Proof.
  intros F. unfold overlay_choice, is_present. cbn [_job_dir RESULTS_DIR ROOT app node_at].
  rewrite !F by (cbn; lia). reflexivity.
Qed.

Lemma parsed_file_frame {codec : JsonCodec} (m m' : gmap path node) p :
  (3 < length p)%nat ->
  (forall q, (3 < length q)%nat -> m' !! q = m !! q) ->
  parsed_file m' p = parsed_file m p.
Proof.
  intros Hp F. unfold parsed_file. destruct p as [|c p]; [cbn in Hp; lia|].
  cbn [node_at]. rewrite F by exact Hp. reflexivity.
Qed.

Example pick_overlay_prefers_web :
  let w := with_fs (fun _ => {[ ["results"; "j"; "side"; "overlay_release.mp4"] := File [];
                                ["results"; "j"; "side"; "overlay_release_web.mp4"] := File [];
                                ["results"; "j"; "front"; "overlay_release.mp4"] := File [] ]})
             empty_world in
  fst (_pick_overlay_url "j" "side" w) = Ok (Some "/results/j/side/overlay_release_web.mp4")
  /\ fst (_pick_overlay_url "j" "front" w) = Ok (Some "/results/j/front/overlay_release.mp4")
  /\ fst (_pick_overlay_url "j" "top" w) = Ok None.
Proof. cbv zeta. repeat split; vm_compute; reflexivity. Qed.

(** C9. In the status document of a job that reached [done], the overlay
    URL of each view that was supplied is the web variant when that file
    exists, else the full-size one when that exists, else null (and null
    for a view that was not supplied); the legacy [overlay_url], in the
    document and in the row, is the side view's URL when there is one and
    the front view's otherwise. *)
Theorem overlay_urls_of_a_done_job {codec : JsonCodec} (E : env) (jid : string)
    (side front : option path) (model : string) (no_ai : bool)
    (w w' : world) (r : result unit) (l : list event)
    (o a p t ls : option string) (n : option Z) :
  start_background_job E jid side front model no_ai w = (r, w') ->
  history w' = history w ++ l ->
  last l = Some (DbDone jid o a p t ls n) ->
  let side_url :=
    match side with Some _ => overlay_choice (fs w') jid "side" | None => None end in
  let front_url :=
    match front with Some _ => overlay_choice (fs w') jid "front" | None => None end in
  let legacy := match side_url with Some u => Some u | None => front_url end in
  exists started finished res,
    fs w' !! _status_path jid
    = Some (File (list_byte_of_string
                    (json_dumps (status_payload jid "done" 1.0%Q "done" started finished
                                   JNull (JDict res)))))
    /\ assoc "overlay_side_url" res = Some (jopt side_url)
    /\ assoc "overlay_front_url" res = Some (jopt front_url)
    /\ assoc "overlay_url" res = Some (jopt legacy)
    /\ o = legacy.
Proof.
  intros H Hl Hlast.
  destruct (done_run_inv E _ _ _ _ _ _ _ _ _ _ _ _ _ _ _ H Hl Hlast) as (w3 & H3).
  destruct (stage_result_done E _ _ _ _ _ H3) as (started & finished & summary & throws & Hd).
  cbv zeta in Hd. destruct Hd as (Hh & Hf & F).
  intros side_url front_url legacy. subst side_url front_url legacy.
  rewrite !(overlay_choice_frame (fs w3) (fs w') jid) by exact F.
  eexists started, (JFloat finished), _. split; [exact Hf|].
  split; [reflexivity|]. split; [reflexivity|]. split; [reflexivity|].
  assert (last (history w') = Some (DbDone jid o a p t ls n)) as Hl2
    by (rewrite Hl, last_app, Hlast; reflexivity).
  rewrite Hh, last_app in Hl2. cbn [last] in Hl2. congruence.
Qed.

(** The example job: its run, and the events it added. *)
Lemma ran_eq o :
  start_background_job (scripted_env o) "0123456789ab"
    (Some ["uploads"; "0123456789ab_side.mp4"])
    (Some ["uploads"; "0123456789ab_front.mp4"])
    "gpt-5-mini" false (accepted o)
  = (fst (start_background_job (scripted_env o) "0123456789ab"
            (Some ["uploads"; "0123456789ab_side.mp4"])
            (Some ["uploads"; "0123456789ab_front.mp4"])
            "gpt-5-mini" false (accepted o)),
     ran o).
Proof. unfold ran. apply surjective_pairing. Qed.

Lemma job_events_eq o : history (ran o) = history (accepted o) ++ job_events o.
Proof.
  unfold job_events, ran.
  destruct (emits_start_background_job (scripted_env o) "0123456789ab"
              (Some ["uploads"; "0123456789ab_side.mp4"])
              (Some ["uploads"; "0123456789ab_front.mp4"])
              "gpt-5-mini" false (accepted o)) as (l & Hl & _).
  rewrite Hl, drop_app_length. reflexivity.
Qed.

Lemma overlay_urls_of_a_done_job_witness :
  exists started finished res,
    fs (ran all_well) !! _status_path "0123456789ab"
    = Some (File (list_byte_of_string
                    (json_dumps (status_payload "0123456789ab" "done" 1.0%Q "done"
                                   started finished JNull (JDict res)))))
    /\ assoc "overlay_side_url" res
       = Some (JStr "/results/0123456789ab/side/overlay_release_web.mp4")
    /\ assoc "overlay_front_url" res
       = Some (JStr "/results/0123456789ab/front/overlay_release_web.mp4")
    /\ assoc "overlay_url" res
       = Some (JStr "/results/0123456789ab/side/overlay_release_web.mp4").
Proof.
  pose proof (ran_eq all_well) as H1.
  pose proof (job_events_eq all_well) as H2.
  assert (H3 : last (job_events all_well)
               = Some (DbDone "0123456789ab"
                         (Some "/results/0123456789ab/side/overlay_release_web.mp4")
                         (Some "/results/0123456789ab/combined/analysis.json")
                         (Some "/results/0123456789ab/combined/practice_plan.pdf")
                         None
                         (Some "/results/0123456789ab/combined/lesson_plan.json")
                         (Some 3)))
    by (vm_compute; reflexivity).
  pose proof (overlay_urls_of_a_done_job _ _ _ _ _ _ _ _ _ _ _ _ _ _ _ _ H1 H2 H3) as H.
  cbv zeta in H. destruct H as (started & finished & res & Hf & Hs & Hfr & Hl & _).
  exists started, finished, res.
  split; [exact Hf|]. rewrite Hs, Hfr, Hl.
  repeat split; vm_compute; reflexivity.
Defined.

(** C5, as the code has it. In the status document of a job that reached
    [done], [practice_plan] and [lesson_plan] are the values parsed from
    the report files when these exist and parse, and null otherwise; the
    document itself is a fresh serialisation of the payload. *)
Theorem report_documents_of_a_done_job {codec : JsonCodec} (E : env) (jid : string)
    (side front : option path) (model : string) (no_ai : bool)
    (w w' : world) (r : result unit) (l : list event)
    (o a p t ls : option string) (n : option Z) :
  start_background_job E jid side front model no_ai w = (r, w') ->
  history w' = history w ++ l ->
  last l = Some (DbDone jid o a p t ls n) ->
  exists started finished res,
    fs w' !! _status_path jid
    = Some (File (list_byte_of_string
                    (json_dumps (status_payload jid "done" 1.0%Q "done" started finished
                                   JNull (JDict res)))))
    /\ assoc "practice_plan" res
       = Some (json_of_option
                 (parsed_file (fs w') (combined_dir jid ++ ["practice_plan.json"])))
    /\ assoc "lesson_plan" res
       = Some (json_of_option
                 (parsed_file (fs w') (combined_dir jid ++ ["lesson_plan.json"]))).
Proof.
  intros H Hl Hlast.
  destruct (done_run_inv E _ _ _ _ _ _ _ _ _ _ _ _ _ _ _ H Hl Hlast) as (w3 & H3).
  destruct (stage_result_done E _ _ _ _ _ H3) as (started & finished & summary & throws & Hd).
  cbv zeta in Hd. destruct Hd as (Hh & Hf & F).
  rewrite !(parsed_file_frame (fs w3) (fs w')) by (exact F || (cbn; lia)).
  eexists started, (JFloat finished), _. split; [exact Hf|].
  split; reflexivity.
Qed.

Lemma report_documents_of_a_done_job_witness :
  exists started finished res,
    fs (ran all_well) !! _status_path "0123456789ab"
    = Some (File (list_byte_of_string
                    (json_dumps (status_payload "0123456789ab" "done" 1.0%Q "done"
                                   started finished JNull (JDict res)))))
    /\ assoc "practice_plan" res
       = Some (JDict [("drills", JList [JStr "grip"; JStr "stance"])])
    /\ assoc "lesson_plan" res = Some (JDict [("title", JStr "Week 1")]).
Proof.
  pose proof (ran_eq all_well) as H1.
  pose proof (job_events_eq all_well) as H2.
  assert (H3 : last (job_events all_well)
               = Some (DbDone "0123456789ab"
                         (Some "/results/0123456789ab/side/overlay_release_web.mp4")
                         (Some "/results/0123456789ab/combined/analysis.json")
                         (Some "/results/0123456789ab/combined/practice_plan.pdf")
                         None
                         (Some "/results/0123456789ab/combined/lesson_plan.json")
                         (Some 3)))
    by (vm_compute; reflexivity).
  destruct (report_documents_of_a_done_job _ _ _ _ _ _ _ _ _ _ _ _ _ _ _ _ H1 H2 H3)
    as (started & finished & res & Hf & Hp & Hls).
  exists started, finished, res.
  split; [exact Hf|]. rewrite Hp, Hls.
  split; vm_compute; reflexivity.
Defined.

(** C5, as stated, fails.  The job below reaches [done] with both report
    files on disk.  The bytes of the practice plan do not occur in the
    status document, which holds the plan in another layout; and the
    lesson plan, which does not parse, is served as null. *)
Lemma report_bytes_not_in_status_document :
  let w' := ran garbled_lesson in
  let practice := jq "{'drills':['grip','stance']}" in
  let lesson := jq "{'title': 'Week 1',}" in
  (exists o a p t ls n, last (job_events garbled_lesson)
                        = Some (DbDone "0123456789ab" o a p t ls n))
  /\ fs w' !! (combined_dir "0123456789ab" ++ ["practice_plan.json"])
     = Some (File (list_byte_of_string practice))
  /\ fs w' !! (combined_dir "0123456789ab" ++ ["lesson_plan.json"])
     = Some (File (list_byte_of_string lesson))
  /\ (exists doc served,
         fs w' !! _status_path "0123456789ab" = Some (File doc)
         /\ contains practice (string_of_list_byte doc) = false
         /\ fst (job "0123456789ab" w') = Ok served
         /\ json_path ["result"; "practice_plan"] served
            = Some (JDict [("drills", JList [JStr "grip"; JStr "stance"])])
         /\ json_path ["result"; "lesson_plan"] served = Some JNull).
Proof.
  cbv zeta. split; [|split; [|split]].
  - do 6 eexists. vm_compute. reflexivity.
  - vm_compute. reflexivity.
  - vm_compute. reflexivity.
  - eexists _, _. split; [vm_compute; reflexivity|].
    split; [vm_compute; reflexivity|].
    split; [vm_compute; reflexivity|].
    split; vm_compute; reflexivity.
Qed.

(** ** Rows and processes along a run *)

Lemma rows_ret {A} (a : A) : keeps_rows (ret a).
Proof. intros w j H. exact H. Qed.

Lemma rows_raise {A} e : keeps_rows (@raise A e).
Proof. intros w j H. exact H. Qed.

Lemma rows_get {A} (f : world -> A) : keeps_rows (get f).
Proof. intros w j H. exact H. Qed.

Lemma rows_os_error {A} k t p : keeps_rows (@os_error A k t p).
Proof. intros w j H. exact H. Qed.

Lemma rows_modify_fs f : keeps_rows (modify (with_fs f)).
Proof. intros w j H. exact H. Qed.

Lemma rows_modify_record e : keeps_rows (modify (record e)).
Proof. intros w j H. exact H. Qed.

Lemma rows_modify_alter f k : keeps_rows (modify (with_jobs (alter f k))).
Proof.
  intros w j [x Hx]. cbn [snd modify jobs with_jobs]. rewrite lookup_alter.
  destruct (decide (k = j)) as [->|_]; rewrite Hx; eexists; reflexivity.
Qed.

Lemma rows_bind {A B} (m : M A) (k : A -> M B) :
  keeps_rows m -> (forall a, keeps_rows (k a)) -> keeps_rows (bind m k).
Proof.
  intros Hm Hk w j H. unfold bind. specialize (Hm w j H).
  destruct (m w) as [[a|e] w1]; cbn [snd] in *; [|exact Hm].
  apply Hk, Hm.
Qed.

Lemma rows_try_except {A} (m : M A) h :
  keeps_rows m -> (forall e, keeps_rows (h e)) -> keeps_rows (try_except m h).
Proof.
  intros Hm Hh w j H. unfold try_except. specialize (Hm w j H).
  destruct (m w) as [[a|e] w1]; cbn [snd] in *; [exact Hm|].
  apply Hh, Hm.
Qed.

Create HintDb rows.

#[local] Hint Resolve rows_ret rows_raise rows_get rows_os_error rows_modify_fs
  rows_modify_record rows_modify_alter rows_bind rows_try_except : rows.

#[local] Hint Extern 1 (keeps_rows (match ?x with _ => _ end)) => destruct x : rows.
#[local] Hint Extern 2 (keeps_rows _) => progress cbv beta : rows.

Ltac rows := intros; auto 20 with rows.

Lemma rows_mkdir_parents p : keeps_rows (mkdir_parents p).
Proof.
  intros w j H. unfold mkdir_parents.
  destruct (mkdir_from [] p w) as [r w'] eqn:Em.
  destruct (mkdir_from_frame _ _ _ _ _ Em) as (J & _). cbn [snd]. rewrite J. exact H.
Qed.

Lemma rows_exists p : keeps_rows (exists_ p).
Proof. unfold exists_. rows. Qed.

Lemma rows_py_get v k : keeps_rows (py_get v k).
Proof. unfold py_get. rows. Qed.

Lemma rows_db_update jid st pr sg : keeps_rows (db_update_job_status jid st pr sg).
Proof. unfold db_update_job_status. rows. Qed.

#[local] Hint Resolve rows_mkdir_parents rows_exists rows_py_get rows_db_update : rows.

Lemma exit_codes_app l1 l2 : exit_codes (l1 ++ l2) = exit_codes l1 ++ exit_codes l2.
Proof. apply omap_app. Qed.

Lemma runs_keeps {A} (m : M A) : keeps_history m -> runs_at_most 0 m.
Proof.
  intros H w. exists []. rewrite app_nil_r. split; [apply H|]. split; [cbn; lia | reflexivity].
Qed.

Lemma runs_record e :
  exit_code e = None -> runs_at_most 0 (modify (record e)).
Proof.
  intros He w. exists [e]. split; [reflexivity|].
  unfold exit_codes. cbn [omap list_omap]. rewrite He. split; [cbn; lia | reflexivity].
Qed.

Lemma runs_bind {A B} n1 n2 n (m : M A) (k : A -> M B) :
  n = (n1 + n2)%nat ->
  runs_at_most n1 m -> (forall a, runs_at_most n2 (k a)) -> runs_at_most n (bind m k).
Proof.
  intros -> Hm Hk w. unfold bind. destruct (Hm w) as (l1 & E1 & L1 & O1).
  destruct (m w) as [[a|e] w1]; cbn [fst snd] in *.
  - destruct (Hk a w1) as (l2 & E2 & L2 & O2). exists (l1 ++ l2).
    rewrite E2, E1, app_assoc, exit_codes_app, length_app.
    split; [reflexivity|]. split; [lia|].
    intros b Hb. rewrite (O1 a eq_refl), (O2 b Hb), replicate_add. reflexivity.
  - exists l1. split; [exact E1|]. split; [lia|]. discriminate.
Qed.

Ltac runs_zero :=
  lazymatch goal with
  | |- runs_at_most _ (bind _ _) =>
      apply (runs_bind 0 0 0 _ _ eq_refl); [runs_zero | intros ?; runs_zero]
  | |- runs_at_most _ (match ?v with _ => _ end) => destruct v; runs_zero
  | |- runs_at_most _ (modify (record _)) => apply runs_record; reflexivity
  | |- _ => apply runs_keeps; solve [keeps]
  end.

Section Runs.
Context {codec : JsonCodec} (E : env).

Lemma rows_run cmd : keeps_rows (run E cmd).
Proof.
  intros w j H. unfold run. destruct (subprocess_run E cmd (fs w)). exact H.
Qed.

Lemma rows_analysis_arg flag a : keeps_rows (analysis_arg flag a).
Proof. unfold analysis_arg. rows. Qed.

#[local] Hint Resolve rows_run rows_analysis_arg : rows.

Lemma rows_run_single_view jid view up model no_ai :
  keeps_rows (_run_single_view E jid view up model no_ai).
Proof. unfold _run_single_view. cbv zeta. rows. Qed.

#[local] Hint Resolve rows_run_single_view : rows.

Lemma rows_stage_views jid side front model no_ai :
  keeps_rows (stage_views E jid side front model no_ai).
Proof. unfold stage_views. rows. Qed.

Lemma rows_stage_combine jid side front : keeps_rows (stage_combine E jid side front).
Proof. unfold stage_combine. cbv zeta. rows. Qed.

Lemma rows_write_text p t : keeps_rows (write_text p t).
Proof. unfold write_text, open_wb, write_chunk. rows. Qed.

Lemma rows_read_text p : keeps_rows (read_text p).
Proof. unfold read_text. rows. Qed.

#[local] Hint Resolve rows_write_text rows_read_text : rows.

Lemma rows_load_json p : keeps_rows (load_json p).
Proof. unfold load_json. rows. Qed.

#[local] Hint Resolve rows_load_json : rows.

Lemma rows_safe_read_json p : keeps_rows (_safe_read_json p).
Proof. unfold _safe_read_json. rows. Qed.

Lemma rows_read_status jid : keeps_rows (read_status jid).
Proof. unfold read_status. rows. Qed.

Lemma rows_pick_overlay_url jid view : keeps_rows (_pick_overlay_url jid view).
Proof. unfold _pick_overlay_url. cbv zeta. rows. Qed.

Lemma rows_infer_txt_url jid : keeps_rows (_infer_txt_url jid).
Proof. unfold _infer_txt_url. cbv zeta. rows. Qed.

Lemma rows_now : keeps_rows (now E).
Proof. intros w j H. exact H. Qed.

Lemma rows_write_status jid payload : keeps_rows (write_status jid payload).
Proof. unfold write_status. cbv zeta. rows. Qed.

Lemma rows_db_mark_job_done jid o a p t l n : keeps_rows (db_mark_job_done jid o a p t l n).
Proof.
  unfold db_mark_job_done.
  destruct (match n with Some z => fits_sqlite_integer z | None => true end); rows.
Qed.

#[local] Hint Resolve rows_safe_read_json rows_read_status rows_pick_overlay_url
  rows_infer_txt_url rows_now rows_write_status rows_db_mark_job_done : rows.

Lemma rows_stage_result jid side front : keeps_rows (stage_result E jid side front).
Proof.
  unfold stage_result. cbv zeta.
  repeat (apply rows_bind; [solve [rows] | intros ?]). rows.
Qed.

(** A process that is started and whose exit code is then checked. *)
Lemma runs_checked cmd (f : proc_result -> exn) :
  runs_at_most 1
    (let* p := run E cmd in
     if negb (returncode p =? 0) then raise (f p) else ret tt).
Proof.
  intros w. unfold bind, run. destruct (subprocess_run E cmd (fs w)) as [res m].
  exists [ProcExit cmd res m].
  destruct (Z.eqb_spec (returncode res) 0) as [H0|H0]; cbn [negb fst snd raise ret].
  - split; [reflexivity|]. split; [cbn; lia|]. intros _ _. cbn. rewrite H0. reflexivity.
  - split; [reflexivity|]. split; [cbn; lia|]. discriminate.
Qed.

Lemma runs_run_single_view jid view up model no_ai :
  runs_at_most 1 (_run_single_view E jid view up model no_ai).
Proof.
  unfold _run_single_view. cbv zeta.
  apply (runs_bind 0 1 1 _ _ eq_refl); [apply runs_keeps; keeps | intros _].
  apply runs_checked.
Qed.

Lemma runs_db_update jid st pr sg : runs_at_most 0 (db_update_job_status jid st pr sg).
Proof. unfold db_update_job_status. runs_zero. Qed.

Lemma runs_stage_views_both jid sp fp model no_ai :
  runs_at_most 2 (stage_views E jid (Some sp) (Some fp) model no_ai).
Proof.
  unfold stage_views.
  apply (runs_bind 1 1 2 _ _ eq_refl); [|intros _];
    (apply (runs_bind 0 1 1 _ _ eq_refl);
     [apply runs_db_update | intros _; apply runs_run_single_view]).
Qed.

Lemma runs_stage_combine jid side front : runs_at_most 1 (stage_combine E jid side front).
Proof.
  unfold stage_combine. cbv zeta.
  apply (runs_bind 0 1 1 _ _ eq_refl); [apply runs_keeps; keeps | intros _].
  apply (runs_bind 0 1 1 _ _ eq_refl); [apply runs_db_update | intros _].
  apply (runs_bind 0 1 1 _ _ eq_refl); [apply runs_keeps; keeps | intros ?].
  apply (runs_bind 0 1 1 _ _ eq_refl); [apply runs_keeps; keeps | intros ?].
  apply runs_checked.
Qed.

Lemma runs_write_status jid payload : runs_at_most 0 (write_status jid payload).
Proof. unfold write_status. cbv zeta. runs_zero. Qed.

Lemma runs_stage_result jid side front : runs_at_most 0 (stage_result E jid side front).
Proof.
  unfold stage_result. cbv zeta.
  repeat (apply (runs_bind 0 0 0 _ _ eq_refl);
          [first [ apply runs_write_status | apply runs_keeps; solve [keeps] ] | intros ?]).
  unfold db_mark_job_done. runs_zero.
Qed.

End Runs.

Section BuilderFailure.
Context {codec : JsonCodec} (E : env).

Lemma stage_build_eq jid model no_ai w :
  let w1 := record (DbUpdate jid (Some "running") (Some 0.88%Q)
                      (Some "building_combined_outputs"))
              (with_jobs (alter (set_status_progress_stage (Some "running") (Some 0.88%Q)
                                   (Some "building_combined_outputs")) jid) w) in
  let cmd := [sys_executable E; "-u"; path_str BUILD_COMBINED;
              "--analysis"; path_str (combined_analysis jid);
              "--outdir"; path_str (combined_dir jid);
              "--model"; model] ++ no_ai_flag no_ai in
  let res := fst (subprocess_run E cmd (fs w1)) in
  let m := snd (subprocess_run E cmd (fs w1)) in
  stage_build E jid model no_ai w
  = (if returncode res =? 0 then Ok tt
     else Raise (PyError "RuntimeError"
                   ("build_combined_outputs failed. STDERR: " +:+ str_tail 1200 (stderr res))),
     record (ProcExit cmd res m) (with_fs (fun _ => m) w1)).
Proof.
  cbv zeta. unfold stage_build. cbv zeta.
  rewrite (bind_ok _ _ _ _ _ (db_update_job_status_eq jid _ _ _ w)).
  unfold bind, run.
  destruct (subprocess_run E _ _) as [res m]. cbn [fst snd].
  destruct (returncode res =? 0); reflexivity.
Qed.

(** A two-view pipeline whose processes exit with 0, 0, 0 and then a
    non-zero code stopped at the report builder. *)
Lemma pipeline_stops_at_builder jid sp fp model no_ai w rp w' :
  pipeline E jid (Some sp) (Some fp) model no_ai w = (rp, w') ->
  exists lp,
    history w' = history w ++ lp
    /\ (forall j, is_Some (jobs w !! j) -> is_Some (jobs w' !! j))
    /\ forall rc,
        exit_codes lp = [0; 0; 0; rc] -> rc <> 0 ->
        exists pre cmd res,
          lp = pre ++ [DbUpdate jid (Some "running") (Some 0.88%Q)
                         (Some "building_combined_outputs");
                       ProcExit cmd res (fs w')]
          /\ returncode res = rc
          /\ rp = Raise (PyError "RuntimeError"
                           ("build_combined_outputs failed. STDERR: "
                            +:+ str_tail 1200 (stderr res))).
Proof.
  unfold pipeline. intros H.
  destruct (runs_stage_views_both E jid sp fp model no_ai w) as (la & Ha & La & Oa).
  pose proof (rows_stage_views E jid (Some sp) (Some fp) model no_ai w) as Ra.
  destruct (stage_views E jid (Some sp) (Some fp) model no_ai w) as [[[]|ea] wa] eqn:Ea;
    cbn [fst snd] in *.
  2:{ rewrite (bind_raise _ _ _ _ _ Ea) in H. inversion H; subst rp w'.
      exists la. split; [exact Ha|]. split; [exact Ra|].
      intros rc Hc _. rewrite Hc in La. cbn in La. lia. }
  rewrite (bind_ok _ _ _ _ _ Ea) in H. specialize (Oa tt eq_refl).
  destruct (runs_stage_combine E jid (Some sp) (Some fp) wa) as (lb & Hb & Lb & Ob).
  pose proof (rows_stage_combine E jid (Some sp) (Some fp) wa) as Rb.
  destruct (stage_combine E jid (Some sp) (Some fp) wa) as [[[]|eb] wb] eqn:Eb;
    cbn [fst snd] in *.
  2:{ rewrite (bind_raise _ _ _ _ _ Eb) in H. inversion H; subst rp w'.
      exists (la ++ lb). split; [rewrite Hb, Ha, app_assoc; reflexivity|].
      split; [intros j Hj; apply Rb, Ra, Hj|].
      intros rc Hc _. apply (f_equal length) in Hc.
      rewrite exit_codes_app, length_app, Oa in Hc. cbn in Hc. lia. }
  rewrite (bind_ok _ _ _ _ _ Eb) in H. specialize (Ob tt eq_refl).
  pose proof (stage_build_eq jid model no_ai wb) as Ec. cbv zeta in Ec.
  set (wb1 := record _ (with_jobs _ wb)) in Ec.
  set (cmd := _ ++ no_ai_flag no_ai) in Ec.
  set (res := fst (subprocess_run E cmd (fs wb1))) in Ec.
  set (m := snd (subprocess_run E cmd (fs wb1))) in Ec.
  set (wc := record (ProcExit cmd res m) _) in Ec.
  assert (Hc : history wc = history w ++ la ++ lb
                 ++ [DbUpdate jid (Some "running") (Some 0.88%Q)
                       (Some "building_combined_outputs"); ProcExit cmd res m]).
  { subst wc wb1. cbn [history record with_fs with_jobs]. rewrite Hb, Ha.
    rewrite <- !app_assoc. reflexivity. }
  assert (Rc : forall j, is_Some (jobs w !! j) -> is_Some (jobs wc !! j)).
  { intros j Hj. subst wc wb1. cbn [jobs record with_fs with_jobs].
    apply (rows_modify_alter _ _ wb j). apply Rb, Ra, Hj. }
  destruct (Z.eqb_spec (returncode res) 0) as [H0|H0].
  - rewrite (bind_ok _ _ _ _ _ Ec) in H.
    destruct (runs_stage_result E jid (Some sp) (Some fp) wc) as (ld & Hd & Ld & _).
    rewrite H in Hd. cbn [snd] in Hd.
    exists (la ++ lb ++ [DbUpdate jid (Some "running") (Some 0.88%Q)
                           (Some "building_combined_outputs"); ProcExit cmd res m] ++ ld).
    split; [rewrite Hd, Hc, <- !app_assoc; reflexivity|].
    split.
    { intros j Hj. pose proof (rows_stage_result E jid (Some sp) (Some fp) wc j (Rc j Hj)) as Rd.
      rewrite H in Rd. exact Rd. }
    intros rc Hrc Hne. exfalso. apply Hne.
    rewrite !exit_codes_app, Oa, Ob in Hrc. cbn in Hrc.
    destruct (exit_codes ld); [|cbn in Ld; lia].
    cbn in Hrc. inversion Hrc. congruence.
  - rewrite (bind_raise _ _ _ _ _ Ec) in H. inversion H; subst rp w'.
    exists (la ++ lb ++ [DbUpdate jid (Some "running") (Some 0.88%Q)
                           (Some "building_combined_outputs"); ProcExit cmd res m]).
    split; [exact Hc|]. split; [exact Rc|].
    intros rc Hrc _. exists (la ++ lb), cmd, res.
    split; [rewrite <- app_assoc; reflexivity|].
    rewrite !exit_codes_app, Oa, Ob in Hrc. cbn in Hrc. inversion Hrc.
    split; reflexivity.
Qed.

End BuilderFailure.

(** C4, as the code has it. When both view stages and the combiner exit
    zero and the report builder does not, the row ends with status
    [failed], progress 1.0 and stage [failed] (not
    [building_combined_outputs], which is the stage written just before
    the builder started), with the builder's error as message; the status
    document says the same once the handler could write it; and every
    file below the job directory, the combined analysis among them, is as
    the builder left it. *)
Theorem report_builder_failure {codec : JsonCodec} (E : env) (jid : string)
    (sp fp : path) (model : string) (no_ai : bool)
    (w w' : world) (r : result unit) (l : list event) (rc : Z) :
  start_background_job E jid (Some sp) (Some fp) model no_ai w = (r, w') ->
  history w' = history w ++ l ->
  exit_codes l = [0; 0; 0; rc] ->
  rc <> 0 ->
  exists pre cmd res m post,
    let msg := "RuntimeError: build_combined_outputs failed. STDERR: "
               +:+ str_tail 1200 (stderr res) in
    l = pre ++ [DbUpdate jid (Some "running") (Some 0.88%Q)
                  (Some "building_combined_outputs");
                ProcExit cmd res m;
                DbFailed jid msg] ++ post
    /\ returncode res = rc
    /\ (forall row, jobs w !! jid = Some row ->
          exists row',
            jobs w' !! jid = Some row'
            /\ status row' = "failed"
            /\ progress row' = Some 1.0%Q
            /\ stage row' = Some "failed"
            /\ error_message row' = Some msg)
    /\ (forall p, (3 < length p)%nat -> fs w' !! p = m !! p)
    /\ fs w' !! combined_analysis jid = m !! combined_analysis jid
    /\ match r with
       | Ok _ =>
           exists started finished,
             let payload :=
               status_payload jid "failed" 1.0%Q "failed" started (JFloat finished)
                 (JDict [("message", JStr msg)]) JNull in
             post = [DocWrite jid payload]
             /\ fs w' !! _status_path jid
                = Some (File (list_byte_of_string (json_dumps payload)))
       | Raise _ => post = []
       end.
Proof.
  unfold start_background_job. intros H Hl Hc Hne.
  unfold bind at 1 in H. unfold now at 1 in H.
  unfold bind at 1 in H.
  match type of H with
  | context [write_status ?j ?pl ?x] =>
      destruct (write_status j pl x) as [[[]|e0] w1] eqn:Ew;
      destruct (write_status_spec _ _ _ _ _ Ew) as (J1 & _ & _ & Hh1)
  end.
  2:{ inversion H; subst. cbn [history tick] in Hh1. rewrite Hh1 in Hl.
      rewrite <- (app_nil_r (history w)) in Hl at 1. apply app_inv_head in Hl. subst l.
      discriminate. }
  destruct Hh1 as [Hh1 _]. cbn [history tick jobs] in Hh1, J1.
  rewrite (bind_ok _ _ _ _ _ (db_update_job_status_eq jid _ _ _ w1)) in H.
  set (w2 := record _ _) in H.
  unfold try_except in H.
  destruct (pipeline E jid (Some sp) (Some fp) model no_ai w2) as [rp w3] eqn:Ep.
  destruct (pipeline_stops_at_builder E _ _ _ _ _ _ _ _ Ep) as (lp & Hp & Rp & Hstop).
  assert (H2 : history w2 = history w ++ [DocWrite jid
             (status_payload jid "running" 0.01%Q "starting_worker"
                (JFloat (time_time E (clock w))) JNull JNull JNull);
             DbUpdate jid (Some "running") (Some 0.01%Q) (Some "starting_worker")]).
  { subst w2. cbn [history record with_jobs]. rewrite Hh1, <- app_assoc. reflexivity. }
  assert (R2 : forall j, is_Some (jobs w !! j) -> is_Some (jobs w3 !! j)).
  { intros j Hj. apply Rp. subst w2. cbn [jobs record with_jobs].
    apply (rows_modify_alter _ _ w1 j). rewrite J1. exact Hj. }
  destruct rp as [[]|e].
  - exfalso. inversion H; subst r w'.
    rewrite Hp, H2, <- app_assoc in Hl. apply app_inv_head in Hl. subst l.
    rewrite exit_codes_app in Hc. cbn in Hc.
    destruct (Hstop rc Hc Hne) as (? & ? & ? & _ & _ & ?). discriminate.
  - destruct (on_failure_spec E _ _ _ _ _ H) as (Jf & Ff & Hhf). cbv zeta in Jf, Hhf.
    assert (exists post,
               history w' = history w3
                            ++ DbFailed jid (exn_type_name e +:+ ": " +:+ exn_str e) :: post
               /\ exit_codes post = []
               /\ match r with
                  | Ok _ =>
                      exists started finished,
                        let payload :=
                          status_payload jid "failed" 1.0%Q "failed" started
                            (JFloat finished)
                            (JDict [("message",
                                     JStr (exn_type_name e +:+ ": " +:+ exn_str e))])
                            JNull in
                        post = [DocWrite jid payload]
                        /\ fs w' !! _status_path jid
                           = Some (File (list_byte_of_string (json_dumps payload)))
                  | Raise _ => post = []
                  end) as (post & Hpost & Cpost & Rpost).
    { destruct r as [[]|e1].
      - destruct Hhf as (s & f & Hh & Hf). eexists. split; [exact Hh|].
        split; [reflexivity|]. exists s, f. split; [reflexivity | exact Hf].
      - exists []. split; [exact Hhf|]. split; reflexivity. }
    rewrite Hpost, Hp, H2, <- !app_assoc in Hl. apply app_inv_head in Hl. subst l.
    rewrite !exit_codes_app in Hc. cbn in Hc. fold (exit_codes post) in Hc.
    rewrite Cpost, app_nil_r in Hc.
    destruct (Hstop rc Hc Hne) as (pre & cmd & res & Hlp & Hrc & He).
    inversion He; subst e. clear He.
    eexists (_ :: _ :: pre), cmd, res, (fs w3), post. cbv zeta.
    split; [subst lp; cbn [app]; rewrite <- !app_assoc; reflexivity|].
    split; [exact Hrc|].
    split.
    { intros row Hrow. destruct (R2 jid (ex_intro _ row Hrow)) as [row3 Hrow3].
      exists (set_failed
                ("RuntimeError: build_combined_outputs failed. STDERR: "
                 +:+ str_tail 1200 (stderr res)) row3).
      rewrite Jf, lookup_alter_eq, Hrow3. repeat split. }
    split; [exact Ff|].
    split; [apply Ff; cbn; lia|].
    exact Rpost.
Qed.

Lemma report_builder_failure_witness :
  exists pre cmd res m post,
    job_events build_fails
    = pre ++ [DbUpdate "0123456789ab" (Some "running") (Some 0.88%Q)
                (Some "building_combined_outputs");
              ProcExit cmd res m;
              DbFailed "0123456789ab"
                ("RuntimeError: build_combined_outputs failed. STDERR: "
                 +:+ str_tail 1200 (stderr res))] ++ post
    /\ returncode res = 2
    /\ (exists row',
           jobs (ran build_fails) !! "0123456789ab" = Some row'
           /\ status row' = "failed"
           /\ progress row' = Some 1.0%Q
           /\ stage row' = Some "failed")
    /\ fs (ran build_fails) !! combined_analysis "0123456789ab"
       = m !! combined_analysis "0123456789ab".
Proof.
  assert (H3 : exit_codes (job_events build_fails) = [0; 0; 0; 2])
    by (vm_compute; reflexivity).
  assert (H4 : (2 : Z) <> 0) by discriminate.
  destruct (report_builder_failure _ _ _ _ _ _ _ _ _ _ _
              (ran_eq build_fails) (job_events_eq build_fails) H3 H4)
    as (pre & cmd & res & m & post & Hl & Hrc & Hrow & _ & Hca & _).
  exists pre, cmd, res, m, post.
  split; [exact Hl|]. split; [exact Hrc|]. split; [|exact Hca].
  assert (exists row, jobs (accepted build_fails) !! "0123456789ab" = Some row)
    as [row Hacc] by (eexists; vm_compute; reflexivity).
  destruct (Hrow row Hacc) as (row' & H1 & H2 & H5 & H6 & _).
  exists row'. repeat split; assumption.
Defined.

(** C4, as stated, fails on the stage. In the job below the view stages
    and the combiner exit zero and the report builder exits 2; the row and
    the status document then read status [failed] and stage [failed], not
    [building_combined_outputs].  The combined analysis is still on disk. *)
Lemma failed_job_reports_stage_failed :
  let w' := ran build_fails in
  exit_codes (job_events build_fails) = [0; 0; 0; 2]
  /\ status <$> jobs w' !! "0123456789ab" = Some "failed"
  /\ stage <$> jobs w' !! "0123456789ab" = Some (Some "failed")
  /\ stage <$> jobs w' !! "0123456789ab" <> Some (Some "building_combined_outputs")
  /\ match fst (job "0123456789ab" w') with
     | Ok served => json_path ["stage"] served
     | Raise _ => None
     end = Some (JStr "failed")
  /\ fs w' !! combined_analysis "0123456789ab"
     = Some (File (list_byte_of_string (jq "{'summary': {'throws_detected': 3}}"))).
Proof.
  cbv zeta.
  assert (Hs : stage <$> jobs (ran build_fails) !! "0123456789ab" = Some (Some "failed"))
    by (vm_compute; reflexivity).
  split; [vm_compute; reflexivity|].
  split; [vm_compute; reflexivity|].
  split; [exact Hs|].
  split; [rewrite Hs; discriminate|].
  split; vm_compute; reflexivity.
Qed.

(** ** Admission *)

Lemma no_store_same {A} (m : M A) :
  (forall w, jobs (snd (m w)) = jobs w /\ history (snd (m w)) = history w) -> no_store m.
Proof.
  intros H w. destruct (H w) as [J Hh]. split; [exact J|].
  exists []. rewrite app_nil_r. split; [exact Hh | reflexivity].
Qed.

Lemma no_store_ret {A} (a : A) : no_store (ret a).
Proof. apply no_store_same. intros w. split; reflexivity. Qed.

Lemma no_store_raise {A} e : no_store (@raise A e).
Proof. apply no_store_same. intros w. split; reflexivity. Qed.

Lemma no_store_get {A} (f : world -> A) : no_store (get f).
Proof. apply no_store_same. intros w. split; reflexivity. Qed.

Lemma no_store_os_error {A} k t p : no_store (@os_error A k t p).
Proof. apply no_store_same. intros w. split; reflexivity. Qed.

Lemma no_store_modify_fs f : no_store (modify (with_fs f)).
Proof. apply no_store_same. intros w. split; reflexivity. Qed.

Lemma no_store_bind {A B} (m : M A) (k : A -> M B) :
  no_store m -> (forall a, no_store (k a)) -> no_store (bind m k).
Proof.
  intros Hm Hk w. unfold bind. destruct (Hm w) as (J1 & l1 & H1 & F1).
  destruct (m w) as [[a|e] w1]; cbn [snd] in *.
  - destruct (Hk a w1) as (J2 & l2 & H2 & F2). split; [congruence|].
    exists (l1 ++ l2). rewrite H2, H1, app_assoc, filter_app, F1, F2.
    split; reflexivity.
  - split; [exact J1|]. exists l1. split; assumption.
Qed.

Lemma no_store_try_except {A} (m : M A) h :
  no_store m -> (forall e, no_store (h e)) -> no_store (try_except m h).
Proof.
  intros Hm Hh w. unfold try_except. destruct (Hm w) as (J1 & l1 & H1 & F1).
  destruct (m w) as [[a|e] w1]; cbn [snd] in *.
  - split; [exact J1|]. exists l1. split; assumption.
  - destruct (Hh e w1) as (J2 & l2 & H2 & F2). split; [congruence|].
    exists (l1 ++ l2). rewrite H2, H1, app_assoc, filter_app, F1, F2.
    split; reflexivity.
Qed.

Create HintDb nostore.

#[local] Hint Resolve no_store_ret no_store_raise no_store_get no_store_os_error
  no_store_modify_fs no_store_bind no_store_try_except : nostore.

#[local] Hint Extern 1 (no_store (match ?x with _ => _ end)) => destruct x : nostore.
#[local] Hint Extern 2 (no_store _) => progress cbv beta : nostore.

Ltac nostore := intros; auto 20 with nostore.

Lemma no_store_mkdir_parents p : no_store (mkdir_parents p).
Proof.
  apply no_store_same. intros w. split; [|apply keeps_mkdir_parents].
  unfold mkdir_parents. destruct (mkdir_from [] p w) as [r w'] eqn:Em.
  destruct (mkdir_from_frame _ _ _ _ _ Em) as (J & _). exact J.
Qed.

Lemma no_store_exists p : no_store (exists_ p).
Proof. unfold exists_. nostore. Qed.

Lemma no_store_open_wb p : no_store (open_wb p).
Proof. unfold open_wb. nostore. Qed.

Lemma no_store_unlink p : no_store (unlink p).
Proof. unfold unlink. nostore. Qed.

#[local] Hint Resolve no_store_mkdir_parents no_store_exists no_store_open_wb
  no_store_unlink : nostore.

Lemma no_store_remove_quietly p : no_store (remove_quietly p).
Proof. unfold remove_quietly, try_pass. nostore. Qed.

#[local] Hint Resolve no_store_remove_quietly : nostore.

Lemma copy_loop_stores dest max_bytes n : forall st w,
  jobs (snd (copy_loop dest max_bytes n st w)) = jobs w
  /\ history (snd (copy_loop dest max_bytes n st w)) = history w.
Proof.
  induction n as [|n IH]; intros st w; cbn [copy_loop]; [split; reflexivity|].
  unfold copy_step. destruct (nonempty _); [|split; reflexivity].
  destruct (_ >? _); [split; reflexivity|].
  destruct (IH {| unread := drop CHUNK (unread st);
                  written := written st + Z.of_nat (length (take CHUNK (unread st))) |}
              (append_file dest (take CHUNK (unread st)) w)) as [J Hh].
  split; [rewrite J | rewrite Hh]; reflexivity.
Qed.

Lemma no_store_save_upload_with_limit upl dest max_bytes :
  no_store (save_upload_with_limit upl dest max_bytes).
Proof.
  unfold save_upload_with_limit. apply no_store_bind; [nostore | intros _].
  apply no_store_try_except; [|intros [c d|t m]; nostore].
  unfold save_upload_body. apply no_store_bind; [nostore | intros _].
  apply no_store_same. intros w.
  destruct (copy_loop_stores dest max_bytes (S (length (file upl)))
              {| unread := file upl; written := 0 |} w) as [J Hh].
  destruct (copy_loop dest max_bytes _ _ w) as [[[] st] w']; split; assumption.
Qed.

Lemma py_only_ret {A} (a : A) : py_only (ret a).
Proof. intros w c d. discriminate. Qed.

Lemma py_only_get {A} (f : world -> A) : py_only (get f).
Proof. intros w c d. discriminate. Qed.

Lemma py_only_modify f : py_only (modify f).
Proof. intros w c d. discriminate. Qed.

Lemma py_only_os_error {A} k t p : py_only (@os_error A k t p).
Proof. intros w c d. discriminate. Qed.

Lemma py_only_raise {A} t m : py_only (@raise A (PyError t m)).
Proof. intros w c d. discriminate. Qed.

Lemma py_only_bind {A B} (m : M A) (k : A -> M B) :
  py_only m -> (forall a, py_only (k a)) -> py_only (bind m k).
Proof.
  intros Hm Hk w c d. unfold bind. specialize (Hm w c d).
  destruct (m w) as [[a|e] w1]; cbn [fst] in *; [apply Hk|].
  intros H. apply Hm. inversion H. reflexivity.
Qed.

Create HintDb pyonly.

#[local] Hint Resolve py_only_ret py_only_get py_only_modify py_only_os_error py_only_raise
  py_only_bind : pyonly.

#[local] Hint Extern 1 (py_only (match ?x with _ => _ end)) => destruct x : pyonly.
#[local] Hint Extern 2 (py_only _) => progress cbv beta : pyonly.

Ltac pyonly := intros; auto 20 with pyonly.

Lemma py_only_mkdir_from todo : forall seen, py_only (mkdir_from seen todo).
Proof.
  induction todo as [|c todo IH]; intros seen; cbn [mkdir_from]; [pyonly|].
  apply py_only_bind; [pyonly|]. intros [[d|]|]; [destruct todo; pyonly | apply IH |].
  apply py_only_bind; [pyonly | intros _; apply IH].
Qed.

Lemma py_only_mkdir_parents p : py_only (mkdir_parents p).
Proof. apply py_only_mkdir_from. Qed.

Lemma py_only_write_text p t : py_only (write_text p t).
Proof. unfold write_text, open_wb, write_chunk. pyonly. Qed.

Lemma py_only_db_insert_job jid user t name ext up :
  py_only (db_insert_job jid user t name ext up).
Proof. unfold db_insert_job. cbv zeta. pyonly. Qed.

#[local] Hint Resolve py_only_mkdir_parents py_only_write_text py_only_db_insert_job : pyonly.

Lemma rejects_no_store {A} (m : M A) : no_store m -> rejects_cleanly m.
Proof.
  intros H w c d w' Hm. destruct (H w) as (J & l & Hl & F). rewrite Hm in J, Hl.
  split; [exact J|]. exists l. split; assumption.
Qed.

Lemma rejects_py_only {A} (m : M A) : py_only m -> rejects_cleanly m.
Proof. intros H w c d w' Hm. exfalso. apply (H w c d). rewrite Hm. reflexivity. Qed.

Lemma rejects_bind {A B} (m : M A) (k : A -> M B) :
  no_store m -> (forall a, rejects_cleanly (k a)) -> rejects_cleanly (bind m k).
Proof.
  intros Hm Hk w c d w' H. unfold bind in H. destruct (Hm w) as (J1 & l1 & H1 & F1).
  destruct (m w) as [[a|e] w1]; cbn [snd] in *.
  - destruct (Hk a w1 c d w' H) as (J2 & l2 & H2 & F2). split; [congruence|].
    exists (l1 ++ l2). rewrite H2, H1, app_assoc, filter_app, F1, F2.
    split; reflexivity.
  - inversion H; subst. split; [exact J1|]. exists l1. split; assumption.
Qed.

Section Admission.
Context {codec : JsonCodec} (E : env).

Lemma no_store_run cmd : no_store (run E cmd).
Proof.
  intros w. unfold run. destruct (subprocess_run E cmd (fs w)) as [r m].
  split; [reflexivity|]. exists [ProcExit cmd r m]. split; reflexivity.
Qed.

Lemma no_store_now : no_store (now E).
Proof. apply no_store_same. intros w. split; reflexivity. Qed.

Lemma no_store_new_job_id : no_store (new_job_id E).
Proof. apply no_store_same. intros w. split; reflexivity. Qed.

#[local] Hint Resolve no_store_run no_store_now no_store_new_job_id
  no_store_save_upload_with_limit : nostore.

Lemma no_store_get_video_duration_seconds p : no_store (get_video_duration_seconds E p).
Proof. unfold get_video_duration_seconds. cbv zeta. nostore. Qed.

#[local] Hint Resolve no_store_get_video_duration_seconds : nostore.

Lemma no_store_save_and_validate jid upl label :
  no_store (_save_and_validate E jid upl label).
Proof. unfold _save_and_validate. cbv zeta. nostore. Qed.

Lemma py_only_write_status jid payload : py_only (write_status jid payload).
Proof. unfold write_status. cbv zeta. pyonly. Qed.

(** Every rejection of [POST /analyze] with an [HTTPException] comes
    before the job exists: no row has been inserted and no status
    document written. *)
Lemma analyze_rejects_cleanly side front user model no_ai :
  rejects_cleanly (analyze E side front user model no_ai).
Proof.
  unfold analyze. destruct (_ && _); [apply rejects_no_store; nostore|].
  apply rejects_bind; [nostore | intros jid].
  apply rejects_bind; [nostore | intros created].
  apply rejects_bind.
  { destruct side as [upl|]; [|nostore]. destruct (supplied (Some upl)); [|nostore].
    apply no_store_bind; [apply no_store_save_and_validate | intros [p ext]; nostore]. }
  intros [[side_path ext_used] name].
  apply rejects_bind.
  { destruct front as [upl|]; [|nostore]. destruct (supplied (Some upl)); [|nostore].
    apply no_store_bind; [apply no_store_save_and_validate | intros [p ext]; nostore]. }
  intros [front_path name'].
  apply rejects_py_only.
  apply py_only_bind; [pyonly | intros _].
  apply py_only_bind; [apply py_only_write_status | intros _].
  apply py_only_bind; [pyonly | intros _]. pyonly.
Qed.

End Admission.

(** C1 on a request the code can receive: the side clip passes admission,
    the front clip is over the duration limit.  The request is refused
    with a client error, no row and no status document are written and
    the front upload is removed, but the side upload stays on disk. *)
Lemma analyze_rejection_leaves_side_upload :
  let w' := snd side_ok_front_too_long in
  fst side_ok_front_too_long
  = Raise (HTTPException 400 "front video too long (71.0s). Max is 70 seconds.")
  /\ jobs w' = ∅
  /\ filter is_store_write (history w') = []
  /\ fs w' !! _status_path "0123456789ab" = None
  /\ fs w' !! ["uploads"; "0123456789ab_front.mov"] = None
  /\ fs w' !! ["uploads"; "0123456789ab_side.mp4"] = Some (File (file clip_10s)).
Proof. cbv zeta. repeat split; vm_compute; reflexivity. Qed.

(** ** More on the duration helpers *)

Lemma py_float_decimal_whole si :
  digits1 si -> py_float_decimal si = nearest_double (py_int si) 1.
Proof.
  intros [_ H]. unfold py_float_decimal.
  pose proof (span_app is_digit si [] H I) as E. rewrite app_nil_r in E. rewrite E.
  reflexivity.
Qed.

Lemma py_float_decimal_fraction si f :
  digits1 si ->
  py_float_decimal (si ++ "."%char :: f)
  = nearest_double (py_int (si ++ f)) (Z.to_pos (10 ^ Z.of_nat (length f))).
Proof.
  intros [_ H]. unfold py_float_decimal.
  rewrite (span_app is_digit si ("."%char :: f) H dot_not_digit), expect_cons.
  reflexivity.
Qed.

Lemma duration_group_sign_clear t g1 g2 g3 whole :
  DurationAt t g1 g2 g3 ->
  double_of_int (py_int g1 * 3600 + py_int g2 * 60) = Ok whole ->
  sign_clear (double_add whole (py_float_decimal g3)).
Proof.
  intros H Hw.
  assert (Hsum : forall a b, digits1 a -> digits1 b -> 0 <= py_int a * 3600 + py_int b * 60).
  { intros a b [_ Ha] [_ Hb].
    pose proof (py_int_nonneg a Ha). pose proof (py_int_nonneg b Hb). lia. }
  destruct H as [ws hh mm si rest _ Hhh Hmm Hsi _ _ | ws hh mm si f rest _ Hhh Hmm Hsi Hf _];
    (apply double_add_sign_clear;
     [exact (double_of_int_sign_clear _ _ (Hsum _ _ Hhh Hmm) Hw)|]).
  - rewrite (py_float_decimal_whole si Hsi).
    apply nearest_double_sign_clear, py_int_nonneg, Hsi.
  - rewrite (py_float_decimal_fraction si f Hsi).
    apply nearest_double_sign_clear, py_int_nonneg.
    apply Forall_app. split; [apply Hsi | apply Hf].
Qed.

Lemma duration_search_Some s m :
  duration_search s = Some m ->
  exists pre t, s = pre ++ t /\ duration_match_here t = Some m.
Proof.
  induction s as [|c s IH]; rewrite duration_search_unfold; intros H.
  - destruct (duration_match_here []) eqn:E; [|discriminate].
    exists [], []. split; [reflexivity | congruence].
  - destruct (duration_match_here (c :: s)) eqn:E.
    + exists [], (c :: s). split; [reflexivity | congruence].
    + destruct (IH H) as (pre & t & -> & Ht). exists (c :: pre), t.
      split; [reflexivity | exact Ht].
Qed.

Lemma contains_chars_unfold needle hay :
  contains_chars needle hay
  = match strip_prefix needle hay with
    | Some _ => true
    | None => match hay with [] => false | _ :: hay' => contains_chars needle hay' end
    end.
Proof. destruct hay; reflexivity. Qed.

Lemma contains_chars_app needle pre rest :
  contains_chars needle (pre ++ needle ++ rest) = true.
Proof.
  induction pre as [|c pre IH]; rewrite contains_chars_unfold.
  - cbn [app]. rewrite strip_prefix_app. reflexivity.
  - destruct (strip_prefix needle ((c :: pre) ++ needle ++ rest)); [reflexivity | exact IH].
Qed.

(** X1. Whatever the child process printed, a duration read from it is never
    negative, and the text it is read from holds the word [Duration:]. *)
Theorem parse_duration_nonnegative (stderr : string) (q : double) :
  _parse_duration_from_ffmpeg_stderr stderr = Ok (Some q) ->
  double_le (S754_zero false) q = true /\ contains "Duration:" stderr = true.
Proof.
  unfold _parse_duration_from_ffmpeg_stderr. destruct (String.eqb stderr ""); [discriminate|].
  destruct (duration_search (chars stderr)) as [[[g1 g2] g3]|] eqn:E; [|discriminate].
  unfold int_of_digits.
  destruct (INT_MAX_STR_DIGITS <? length g1)%nat; [discriminate|].
  destruct (INT_MAX_STR_DIGITS <? length g2)%nat; [discriminate|].
  destruct (double_of_int (py_int g1 * 3600 + py_int g2 * 60)) as [whole|e] eqn:Hw;
    [|discriminate].
  intros H. inversion H; subst q. clear H.
  destruct (duration_search_Some _ _ E) as (pre & t & Hs & Ht).
  apply duration_match_here_sound in Ht. split.
  - apply sign_clear_le. exact (duration_group_sign_clear _ _ _ _ _ Ht Hw).
  - unfold contains. rewrite Hs.
    destruct Ht; apply contains_chars_app.
Qed.

Lemma parse_duration_nonnegative_witness :
  double_le (S754_zero false) seconds_3723_45 = true
  /\ contains "Duration:" "  Duration: 01:02:03.45, start: 0.000000, bitrate: 1205 kb/s" = true.
Proof.
  apply (parse_duration_nonnegative
           "  Duration: 01:02:03.45, start: 0.000000, bitrate: 1205 kb/s" seconds_3723_45).
  vm_compute. reflexivity.
Defined.

(** The parser raises nothing but the two errors of the conversions. *)
Lemma parse_duration_raises_only stderr e :
  _parse_duration_from_ffmpeg_stderr stderr = Raise e ->
  exn_type_name e = "ValueError" \/ exn_type_name e = "OverflowError".
Proof.
  unfold _parse_duration_from_ffmpeg_stderr. destruct (String.eqb stderr ""); [discriminate|].
  destruct (duration_search (chars stderr)) as [[[g1 g2] g3]|]; [|discriminate].
  unfold int_of_digits.
  destruct (INT_MAX_STR_DIGITS <? length g1)%nat.
  { intros H. inversion H. left. reflexivity. }
  destruct (INT_MAX_STR_DIGITS <? length g2)%nat.
  { intros H. inversion H. left. reflexivity. }
  destruct (double_of_int_cases (py_int g1 * 3600 + py_int g2 * 60)) as [[whole ->]| ->].
  - discriminate.
  - intros H. inversion H. right. reflexivity.
Qed.

Section DurationProbe.
Variable E : env.

(** The function as a case analysis on what the two tools answer. *)
Lemma get_video_duration_seconds_eq (p : path) (w : world) :
  get_video_duration_seconds E p w
  = match ffmpeg_exe E with
    | None =>
        (Raise (PyError "RuntimeError" "imageio-ffmpeg is required to validate duration"), w)
    | Some exe =>
        let cmd := [ffprobe_exe E; "-v"; "error"; "-show_entries"; "format=duration";
                    "-of"; "default=noprint_wrappers=1:nokey=1"; path_str p] in
        let pr := fst (subprocess_run E cmd (fs w)) in
        let m1 := snd (subprocess_run E cmd (fs w)) in
        let w1 := if ffprobe_exe_exists E
                  then record (ProcExit cmd pr m1) (with_fs (fun _ => m1) w) else w in
        let probed := if ffprobe_exe_exists E
                      then if returncode pr =? 0 then py_float E (py_strip (stdout pr))
                           else None
                      else None in
        match probed with
        | Some d => (Ok d, w1)
        | None =>
            let cmd2 := [exe; "-i"; path_str p] in
            let p2 := fst (subprocess_run E cmd2 (fs w1)) in
            let m2 := snd (subprocess_run E cmd2 (fs w1)) in
            (match _parse_duration_from_ffmpeg_stderr (stderr p2) with
             | Ok (Some dur) => Ok dur
             | Ok None => Raise (PyError "RuntimeError" "Could not detect video duration")
             | Raise e => Raise e
             end,
             record (ProcExit cmd2 p2 m2) (with_fs (fun _ => m2) w1))
        end
    end.
Proof.
  unfold get_video_duration_seconds. destruct (ffmpeg_exe E) as [exe|]; [|reflexivity].
  cbv zeta. unfold bind, run, ret, raise.
  destruct (ffprobe_exe_exists E).
  - destruct (subprocess_run E _ (fs w)) as [pr m1]. cbn [fst snd].
    destruct (returncode pr =? 0); [destruct (py_float E _); [reflexivity|]|];
      destruct (subprocess_run E _ _) as [p2 m2]; cbn [fst snd];
      destruct (_parse_duration_from_ffmpeg_stderr _) as [[d|]|e]; reflexivity.
  - destruct (subprocess_run E [exe; _; _] _) as [p2 m2]. cbn [fst snd].
    destruct (_parse_duration_from_ffmpeg_stderr _) as [[d|]|e]; reflexivity.
Qed.

(** X2. What measuring a duration can do and how it can fail, once
    [imageio_ffmpeg] names its binary and [subprocess.run] returns: it
    starts at most two processes and writes to no store; it raises the
    first [RuntimeError] before anything has happened, when the import
    fails, and anything else only after [ffmpeg -i] has run: the second
    [RuntimeError] when no duration was printed, or the [ValueError] or
    [OverflowError] of the parser, which is not caught here. *)
Theorem get_video_duration_seconds_effects (p : path) (w : world) :
  let r := fst (get_video_duration_seconds E p w) in
  let w' := snd (get_video_duration_seconds E p w) in
  jobs w' = jobs w
  /\ clock w' = clock w
  /\ (exists l, history w' = history w ++ l
                /\ (length l <= 2)%nat
                /\ length (exit_codes l) = length l)
  /\ (ffmpeg_exe E = None ->
      r = Raise (PyError "RuntimeError" "imageio-ffmpeg is required to validate duration")
      /\ w' = w)
  /\ (forall e, r = Raise e ->
        (e = PyError "RuntimeError" "imageio-ffmpeg is required to validate duration"
         /\ ffmpeg_exe E = None)
        \/ (exists l cmd p2 m,
              history w' = history w ++ l ++ [ProcExit cmd p2 m]
              /\ ((e = PyError "RuntimeError" "Could not detect video duration"
                   /\ _parse_duration_from_ffmpeg_stderr (stderr p2) = Ok None)
                  \/ (_parse_duration_from_ffmpeg_stderr (stderr p2) = Raise e
                      /\ (exn_type_name e = "ValueError"
                          \/ exn_type_name e = "OverflowError"))))).
Proof.
  cbv zeta. rewrite get_video_duration_seconds_eq.
  destruct (ffmpeg_exe E) as [exe|].
  2:{ cbn [fst snd]. repeat split.
      - exists []. rewrite app_nil_r. repeat split. cbn. lia.
      - intros e He. inversion He. left. split; reflexivity. }
  cbv zeta.
  set (cmd := [ffprobe_exe E; _; _; _; _; _; _; _]).
  set (pr := fst (subprocess_run E cmd (fs w))).
  set (m1 := snd (subprocess_run E cmd (fs w))).
  set (w1 := if ffprobe_exe_exists E then _ else w).
  assert (H1 : jobs w1 = jobs w /\ clock w1 = clock w
               /\ exists l1, history w1 = history w ++ l1 /\ (length l1 <= 1)%nat
                             /\ length (exit_codes l1) = length l1).
  { subst w1. destruct (ffprobe_exe_exists E).
    - split; [reflexivity|]. split; [reflexivity|].
      exists [ProcExit cmd pr m1]. split; [reflexivity|]. split; [cbn; lia | reflexivity].
    - split; [reflexivity|]. split; [reflexivity|].
      exists []. rewrite app_nil_r. split; [reflexivity|]. split; [cbn; lia | reflexivity]. }
  destruct H1 as (J1 & C1 & l1 & Hl1 & L1 & X1).
  match goal with |- context [match ?x with Some _ => _ | None => _ end] => destruct x as [d|] end.
  - cbn [fst snd]. split; [exact J1|]. split; [exact C1|]. split.
    + exists l1. repeat split; [exact Hl1 | lia | exact X1].
    + split; [discriminate|]. discriminate.
  - set (cmd2 := [exe; _; _]).
    set (p2 := fst (subprocess_run E cmd2 (fs w1))).
    set (m2 := snd (subprocess_run E cmd2 (fs w1))).
    cbn [fst snd jobs clock history record with_fs].
    split; [exact J1|]. split; [exact C1|]. split.
    + exists (l1 ++ [ProcExit cmd2 p2 m2]). rewrite Hl1, <- app_assoc.
      split; [reflexivity|]. rewrite exit_codes_app, !length_app, X1. cbn. split; lia.
    + split; [discriminate|]. intros e He. right.
      exists l1, cmd2, p2, m2. rewrite Hl1, <- app_assoc. split; [reflexivity|].
      destruct (_parse_duration_from_ffmpeg_stderr (stderr p2)) as [[d|]|e'] eqn:Hp;
        [discriminate | |].
      * left. inversion He. split; reflexivity.
      * right. inversion He; subst e'. split; [reflexivity|].
        exact (parse_duration_raises_only _ _ Hp).
Qed.

(** X3. Where a measured duration comes from: from [ffprobe], when it is
    there, exits with zero and prints a number, and then [ffmpeg] is not
    started; otherwise from the [Duration:] line [ffmpeg -i] prints,
    whatever code [ffmpeg] exits with. *)
Theorem get_video_duration_seconds_source (p : path) (w w' : world) (d : double) :
  get_video_duration_seconds E p w = (Ok d, w') ->
  exists exe,
    ffmpeg_exe E = Some exe
    /\ let probe := [ffprobe_exe E; "-v"; "error"; "-show_entries"; "format=duration";
                     "-of"; "default=noprint_wrappers=1:nokey=1"; path_str p] in
       let fallback := [exe; "-i"; path_str p] in
       (exists pr,
           ffprobe_exe_exists E = true
           /\ returncode pr = 0
           /\ py_float E (py_strip (stdout pr)) = Some d
           /\ subprocess_run E probe (fs w) = (pr, fs w')
           /\ history w' = history w ++ [ProcExit probe pr (fs w')])
       \/ (exists l p2,
              history w' = history w ++ l ++ [ProcExit fallback p2 (fs w')]
              /\ _parse_duration_from_ffmpeg_stderr (stderr p2) = Ok (Some d)
              /\ match l with
                 | [] => ffprobe_exe_exists E = false
                 | [ProcExit cmd pr _] =>
                     cmd = probe
                     /\ (returncode pr <> 0 \/ py_float E (py_strip (stdout pr)) = None)
                 | _ => False
                 end).
Proof.
  rewrite get_video_duration_seconds_eq.
  destruct (ffmpeg_exe E) as [exe|]; [|discriminate]. cbv zeta.
  intros H. exists exe. split; [reflexivity|].
  set (cmd := [ffprobe_exe E; _; _; _; _; _; _; _]) in *.
  destruct (subprocess_run E cmd (fs w)) as [pr m1] eqn:E1. cbn [fst snd] in H.
  destruct (ffprobe_exe_exists E) eqn:Hx.
  - destruct (Z.eqb_spec (returncode pr) 0) as [H0|H0].
    + destruct (py_float E (py_strip (stdout pr))) as [d'|] eqn:Hf.
      * inversion H; subst d' w'. left. exists pr. cbn [fs history record with_fs].
        repeat split; assumption.
      * right.
        destruct (subprocess_run E _ _) as [p2 m2] in H. cbn [fst snd] in H.
        destruct (_parse_duration_from_ffmpeg_stderr (stderr p2)) as [[d'|]|e'] eqn:Hp;
          [|discriminate|discriminate].
        inversion H; subst. exists [ProcExit cmd pr m1], p2.
        cbn [fs history record with_fs]. rewrite <- app_assoc.
        repeat split; try assumption. right. exact Hf.
    + right.
      destruct (subprocess_run E _ _) as [p2 m2] in H. cbn [fst snd] in H.
      destruct (_parse_duration_from_ffmpeg_stderr (stderr p2)) as [[d'|]|e'] eqn:Hp;
        [|discriminate|discriminate].
      inversion H; subst. exists [ProcExit cmd pr m1], p2.
      cbn [fs history record with_fs]. rewrite <- app_assoc.
      repeat split; try assumption. left. assumption.
  - right.
    destruct (subprocess_run E _ _) as [p2 m2] in H. cbn [fst snd] in H.
    destruct (_parse_duration_from_ffmpeg_stderr (stderr p2)) as [[d'|]|e'] eqn:Hp;
      [|discriminate|discriminate].
    inversion H; subst. exists [], p2.
    cbn [fs history record with_fs app]. repeat split; assumption.
Qed.

End DurationProbe.

Lemma get_video_duration_seconds_source_witness :
  let E := probing_env {| returncode := 0; stdout := "10.000000" +:+ nl; stderr := "" |} in
  let p := ["uploads"; "j_side.mp4"] in
  let w' := snd (get_video_duration_seconds E p one_upload) in
  exists pr,
    returncode pr = 0
    /\ py_float E (py_strip (stdout pr)) = Some (nearest_double 10 1)
    /\ history w' = [ProcExit ["ffprobe"; "-v"; "error"; "-show_entries"; "format=duration";
                               "-of"; "default=noprint_wrappers=1:nokey=1";
                               "uploads/j_side.mp4"] pr (fs w')].
Proof.
  intros E p w'.
  destruct (get_video_duration_seconds_source E p one_upload w' (nearest_double 10 1))
    as (exe & _ & [(pr & _ & H0 & Hf & _ & Hh) | (l & p2 & Hh & _ & Hl)]).
  - subst w'. rewrite surjective_pairing at 1.
    apply (f_equal2 pair); [vm_compute; reflexivity | reflexivity].
  - exists pr. repeat split; assumption.
  - exfalso. destruct l as [|e [|e' l]].
    + discriminate Hl.
    + apply (f_equal (@length _)) in Hh. vm_compute in Hh. discriminate.
    + apply (f_equal (@length _)) in Hh. rewrite !length_app in Hh.
      assert (length (history w') = 1%nat) as L by (vm_compute; reflexivity).
      rewrite L in Hh. cbn in Hh. lia.
Defined.

(** [ffmpeg -i] without an output file exits with an error, and the
    duration is read from what it printed all the same. *)
Example duration_from_ffmpeg_banner :
  fst (get_video_duration_seconds (scripted_env all_well) ["uploads"; "j_side.mp4"] one_upload)
  = Ok (nearest_double 10 1)
  /\ exit_codes (history (snd (get_video_duration_seconds (scripted_env all_well)
                                 ["uploads"; "j_side.mp4"] one_upload))) = [1].
Proof. split; vm_compute; reflexivity. Qed.

(** A banner with an absurd hour count: the parser's error leaves
    [get_video_duration_seconds] as it is. *)
Example duration_probe_lets_overflow_through :
  let clip := with_fs (fun _ => {[ ["uploads"] := Dir;
                                   ["uploads"; "j_side.mp4"]
                                     := File (list_byte_of_string (hours_of_nines 310)) ]})
                empty_world in
  fst (get_video_duration_seconds (scripted_env all_well) ["uploads"; "j_side.mp4"] clip)
  = Raise (PyError "OverflowError" "int too large to convert to float").
Proof. vm_compute. reflexivity. Qed.

(** ** More on saving an upload *)

Lemma same_but_refl p w : same_but p w w.
Proof. repeat split. Qed.

Lemma same_but_trans p w1 w2 w3 : same_but p w1 w2 -> same_but p w2 w3 -> same_but p w1 w3.
Proof.
  intros (J1 & H1 & C1 & F1) (J2 & H2 & C2 & F2).
  split; [congruence|]. split; [congruence|]. split; [congruence|].
  intros q Hq. rewrite (F2 q Hq). apply F1, Hq.
Qed.

Lemma open_wb_same_but p w : same_but p w (snd (open_wb p w)).
Proof.
  unfold open_wb. unfold_m.
  destruct (node_at (fs w) p) as [[d|]|]; try apply same_but_refl;
    (destruct (node_at (fs w) (parent p)) as [[d'|]|]; try apply same_but_refl);
    cbn [snd]; repeat split; intros q Hq; cbn [fs with_fs];
    apply lookup_insert_ne; congruence.
Qed.

Lemma copy_loop_same_but dest max_bytes n : forall st w,
  same_but dest w (snd (copy_loop dest max_bytes n st w)).
Proof.
  induction n as [|n IH]; intros st w; cbn [copy_loop]; [apply same_but_refl|].
  unfold copy_step. destruct (nonempty _); [|apply same_but_refl].
  destruct (_ >? _); [apply same_but_refl|].
  eapply same_but_trans; [|apply IH].
  repeat split. intros q Hq. unfold append_file. cbn [fs with_fs].
  destruct (fs w !! dest) as [[d|]|]; [|reflexivity..].
  apply lookup_insert_ne. congruence.
Qed.

(** The clean-up never fails, leaves no file at the path, and touches
    nothing else. *)
Lemma remove_quietly_spec p w :
  exists w',
    remove_quietly p w = (Ok tt, w')
    /\ same_but p w w'
    /\ (forall d, node_at (fs w') p <> Some (File d))
    /\ (node_at (fs w) p = Some Dir -> w' = w).
Proof.
  unfold remove_quietly, exists_, unlink. unfold_m.
  destruct (node_at (fs w) p) as [[d|]|] eqn:Hn; cbv beta iota; rewrite ?Hn.
  - eexists. split; [reflexivity|]. split; [|split; [|discriminate]].
    + repeat split. intros q Hq. cbn [fs with_fs]. apply lookup_delete_ne. congruence.
    + intros d'. destruct p as [|c p]; [discriminate|].
      rewrite node_at_cons. cbn [fs with_fs]. rewrite lookup_delete_eq. discriminate.
  - exists w. split; [reflexivity|]. split; [apply same_but_refl|].
    split; [rewrite Hn; discriminate | reflexivity].
  - exists w. split; [reflexivity|]. split; [apply same_but_refl|].
    split; [rewrite Hn; discriminate | discriminate].
Qed.

(** [mkdir] changes nothing but the ancestors it creates. *)
Lemma mkdir_from_touch todo : forall seen w r w',
  mkdir_from seen todo w = (r, w') ->
  forall q, ~ q `prefix_of` (seen ++ todo) -> fs w' !! q = fs w !! q.
Proof.
  induction todo as [|c todo IH]; intros seen w r w' H q Hq; cbn [mkdir_from] in H.
  - inversion H; subst. reflexivity.
  - unfold bind at 1 in H. unfold get in H. cbv beta iota in H.
    assert (Hq' : ~ q `prefix_of` ((seen ++ [c]) ++ todo))
      by (rewrite <- app_assoc; exact Hq).
    destruct (node_at (fs w) (seen ++ [c])) as [[d|]|].
    + destruct todo; inversion H; subst; reflexivity.
    + exact (IH _ _ _ _ H q Hq').
    + unfold bind, modify in H. cbv beta iota in H.
      rewrite (IH _ _ _ _ H q Hq'). cbn [fs with_fs].
      apply lookup_insert_ne. intros <-. apply Hq.
      exists todo. rewrite <- app_assoc. reflexivity.
Qed.

Lemma parent_prefix p : parent p `prefix_of` p.
Proof.
  unfold parent. destruct (decide (p = [])) as [->|Hp]; [exists []; reflexivity|].
  exists [List.last p EmptyString]. apply app_removelast_last. exact Hp.
Qed.

Lemma parent_shorter p : p <> [] -> (length (parent p) < length p)%nat.
Proof.
  intros Hp. unfold parent.
  rewrite (app_removelast_last EmptyString Hp) at 2. rewrite length_app. cbn. lia.
Qed.

Section SaveUpload.
Variables (upload : UploadFile) (dest : path) (max_bytes : Z).

(** X4. Saving an upload changes, on disk, the destination and the
    directories above it that were missing, and nothing else anywhere:
    no other file, no row, no event, not the clock. *)
Theorem save_upload_with_limit_frame (w : world) :
  let w' := snd (save_upload_with_limit upload dest max_bytes w) in
  jobs w' = jobs w
  /\ history w' = history w
  /\ clock w' = clock w
  /\ forall q, q <> dest -> ~ q `prefix_of` parent dest -> fs w' !! q = fs w !! q.
Proof.
  cbv zeta. destruct (save_upload_with_limit upload dest max_bytes w) as [r w'] eqn:H.
  cbn [snd]. unfold save_upload_with_limit in H. unfold bind at 1 in H.
  destruct (mkdir_parents (parent dest) w) as [[[]|e] w1] eqn:E1.
  2:{ inversion H; subst r w'.
      destruct (mkdir_from_frame _ _ _ _ _ E1) as (J & C & _).
      pose proof (keeps_mkdir_parents (parent dest) w) as Hh. rewrite E1 in Hh.
      split; [exact J|]. split; [exact Hh|]. split; [exact C|].
      intros q _ Hq. exact (mkdir_from_touch _ _ _ _ _ E1 q Hq). }
  assert (S1 : same_but dest w1 w' ->
                 jobs w' = jobs w /\ history w' = history w /\ clock w' = clock w
                 /\ forall q, q <> dest -> ~ q `prefix_of` parent dest ->
                              fs w' !! q = fs w !! q).
  { intros (J2 & H2 & C2 & F2).
    destruct (mkdir_from_frame _ _ _ _ _ E1) as (J & C & _).
    pose proof (keeps_mkdir_parents (parent dest) w) as Hh. rewrite E1 in Hh. cbn [snd] in Hh.
    split; [congruence|]. split; [congruence|]. split; [congruence|].
    intros q Hq Hp. rewrite (F2 q Hq). exact (mkdir_from_touch _ _ _ _ _ E1 q Hp). }
  apply S1. clear S1. unfold try_except, save_upload_body in H. unfold bind at 1 in H.
  pose proof (open_wb_same_but dest w1) as S2.
  destruct (open_wb dest w1) as [[[]|e] w2]; cbn [snd] in S2.
  - pose proof (copy_loop_same_but dest max_bytes (S (length (file upload)))
                  {| unread := file upload; written := 0 |} w2) as S3.
    destruct (copy_loop dest max_bytes _ _ w2) as [[s st] w3]. cbn [snd] in S3.
    pose proof (same_but_trans _ _ _ _ S2 S3) as S4.
    destruct (remove_quietly_spec dest w3) as (w4 & E4 & S5 & _).
    destruct s; unfold too_large in H; cbv beta iota in H; unfold bind in H;
      rewrite ?E4 in H; inversion H; subst; eauto using same_but_trans.
  - destruct (remove_quietly_spec dest w2) as (w4 & E4 & S5 & _).
    destruct e; unfold bind in H; rewrite E4 in H; inversion H; subst;
      eauto using same_but_trans.
Qed.

(** In the embedding a refusal has one of two causes. *)
Lemma save_upload_refused_cases (w w' : world) (c : Z) (d : string) :
  0 <= max_bytes ->
  save_upload_with_limit upload dest max_bytes w = (Raise (HTTPException c d), w') ->
  ((HTTPException c d = too_large max_bytes
    /\ max_bytes < Z.of_nat (length (file upload))
    /\ node_at (fs w) dest <> Some Dir)
   \/ (c = 500
       /\ d = "Failed to save upload: IsADirectoryError: [Errno 21] Is a directory: '"
              +:+ path_str dest +:+ "'"
       /\ node_at (fs w) dest = Some Dir))
  /\ forall data, node_at (fs w') dest <> Some (File data).
Proof.
  intros Hmax H. unfold save_upload_with_limit in H. unfold bind at 1 in H.
  destruct (mkdir_parents (parent dest) w) as [[[]|e] w1] eqn:E1.
  2:{ exfalso. inversion H; subst e w'.
      apply (py_only_mkdir_parents (parent dest) w c d). rewrite E1. reflexivity. }
  pose proof (mkdir_parents_dir _ _ _ E1) as Hpar.
  assert (Hsame : node_at (fs w1) dest = node_at (fs w) dest).
  { destruct (mkdir_from_frame _ _ _ _ _ E1) as (_ & _ & F).
    destruct (decide (dest = [])) as [->|Hne]; [reflexivity|].
    destruct dest as [|x rest] eqn:Hd; [congruence|]. rewrite <- Hd in *.
    rewrite Hd, !node_at_cons, <- Hd. apply F. cbn [app]. apply parent_shorter, Hne. }
  unfold try_except, save_upload_body in H. unfold bind at 1 in H.
  assert (Hcase : node_at (fs w1) dest = Some Dir \/ node_at (fs w1) dest <> Some Dir)
    by (destruct (node_at (fs w1) dest) as [[?|]|]; [right|left|right]; congruence).
  destruct Hcase as [Hn|Hn].
  - (* the destination is a directory *)
    assert (Ho : open_wb dest w1
                 = (Raise (PyError "IsADirectoryError"
                             ("[Errno 21] Is a directory: '" +:+ path_str dest +:+ "'")), w1))
      by (unfold open_wb; unfold_m; rewrite Hn; reflexivity).
    rewrite Ho in H. cbv beta iota in H.
    destruct (remove_quietly_spec dest w1) as (w4 & E4 & _ & _ & Hkeep).
    unfold bind in H. rewrite E4 in H. rewrite (Hkeep Hn) in H.
    inversion H; subst c d w'.
    split; [|rewrite Hn; discriminate].
    right. split; [reflexivity|]. split; [reflexivity|]. rewrite <- Hsame. exact Hn.
  - rewrite (open_wb_ok dest w1 Hn Hpar) in H.
    set (w2 := with_fs (insert dest (File [])) w1) in H.
    set (start := {| unread := file upload; written := 0 |}) in H.
    assert (Hstart : copy_post dest max_bytes (file upload) Copying start w2).
    { exists []. subst w2 start. cbn [fs with_fs unread written length app].
      rewrite lookup_insert_eq. repeat split. lia. }
    pose proof (copy_loop_post dest max_bytes (file upload)
                  (S (length (file upload))) start w2 Hstart) as Hpost.
    pose proof (copy_loop_ends dest max_bytes (S (length (file upload))) start w2) as Hend.
    destruct (copy_loop dest max_bytes (S (length (file upload))) start w2) as [[s st] w3].
    destruct Hpost as (d1 & Hd1 & Hle & Hs).
    destruct s; [exfalso; apply Hend; [cbn; lia | reflexivity] | discriminate |].
    destruct (remove_quietly_spec dest w3) as (w4 & E4 & _ & Hnone & _).
    unfold too_large in H. cbv beta iota in H. unfold bind in H. rewrite E4 in H.
    inversion H; subst c d w'.
    split; [|exact Hnone]. left. split; [reflexivity|].
    split; [|rewrite <- Hsame; exact Hn].
    destruct Hs as (chunk & Hs & Hw & _ & Hgt).
    assert (length (file upload) = length d1 + length chunk + length (unread st))%nat
      by (rewrite <- Hs, !length_app; lia).
    lia.
Qed.

(** X5. A save that is refused with an [HTTPException] is refused with
    status 413 or 500 and leaves no file at the destination.  The status
    is 413 only for a stream longer than the ceiling; and a destination
    that is a directory is refused with 500 and the text of the
    [IsADirectoryError]. *)
Theorem save_upload_with_limit_refusals (w w' : world) (c : Z) (d : string) :
  0 <= max_bytes ->
  save_upload_with_limit upload dest max_bytes w = (Raise (HTTPException c d), w') ->
  (c = 413 \/ c = 500)
  /\ (c = 413 ->
      HTTPException c d = too_large max_bytes
      /\ max_bytes < Z.of_nat (length (file upload)))
  /\ (node_at (fs w) dest = Some Dir ->
      c = 500
      /\ d = "Failed to save upload: IsADirectoryError: [Errno 21] Is a directory: '"
             +:+ path_str dest +:+ "'")
  /\ forall data, node_at (fs w') dest <> Some (File data).
Proof.
  intros Hmax H.
  destruct (save_upload_refused_cases w w' c d Hmax H)
    as [[(He & Hbig & Hnd)|(Hc & Hd & Hdir)] Hnone].
  - assert (c = 413) as Hc by (unfold too_large in He; congruence).
    split; [left; exact Hc|]. split; [intros _; split; assumption|].
    split; [intros Hdir; contradiction | exact Hnone].
  - split; [right; exact Hc|]. split; [intros H413; lia|].
    split; [intros _; split; assumption | exact Hnone].
Qed.

End SaveUpload.

Lemma save_upload_with_limit_refusals_witness :
  let dest := ["uploads"; "j_side.mp4"] in
  node_at (fs upload_place_taken) dest = Some Dir
  /\ forall data, node_at (fs upload_place_taken) dest <> Some (File data).
Proof.
  intros dest. split; [reflexivity|].
  refine (proj2 (proj2 (proj2
    (save_upload_with_limit_refusals clip_10s dest MAX_UPLOAD_BYTES
       upload_place_taken upload_place_taken 500
       "Failed to save upload: IsADirectoryError: [Errno 21] Is a directory: 'uploads/j_side.mp4'"
       _ _)))).
  - vm_compute. discriminate.
  - vm_compute. reflexivity.
Defined.

(** Saving one upload leaves another one, next to it, as it was. *)
Example save_leaves_the_neighbour :
  let w' := snd (save_upload_with_limit clip_71s ["uploads"; "m_front.mov"] MAX_UPLOAD_BYTES
                   upload_place_taken) in
  fs w' !! ["uploads"; "m_front.mov"] = Some (File (file clip_71s))
  /\ fs w' !! ["uploads"; "k_side.mp4"] = Some (File (file clip_10s)).
Proof. cbv zeta. split; vm_compute; reflexivity. Qed.

(** ** More on the job table *)

(** X6. A new id gets the [queued] row and no other row changes; an id that
    is taken is refused by the primary key and nothing changes at all. *)
Theorem db_insert_job_lookup (jid user : string) (t : Q) (name ext up : string) (w : world) :
  (jobs w !! jid = None ->
   exists w',
     db_insert_job jid user t name ext up w = (Ok tt, w')
     /\ jobs w' !! jid = Some (queued_row jid user t name ext up)
     /\ (forall j, j <> jid -> jobs w' !! j = jobs w !! j)
     /\ fs w' = fs w)
  /\ (is_Some (jobs w !! jid) ->
      db_insert_job jid user t name ext up w
      = (Raise (PyError "IntegrityError" "UNIQUE constraint failed: jobs.job_id"), w)).
Proof.
  unfold db_insert_job. cbv zeta. unfold_m. split.
  - intros Hn. rewrite Hn. eexists. split; [reflexivity|].
    cbn [jobs fs record with_jobs]. split; [apply lookup_insert_eq|].
    split; [|reflexivity]. intros j Hj. apply lookup_insert_ne. congruence.
  - intros [r Hr]. rewrite Hr. reflexivity.
Qed.

Lemma alter_absent {V} (f : V -> V) (k : string) (m : gmap string V) :
  m !! k = None -> alter f k m = m.
Proof.
  intros H. apply map_eq. intros j. rewrite lookup_alter.
  destruct (decide (k = j)) as [->|_]; [rewrite H|]; reflexivity.
Qed.

Lemma fits_sqlite_integer_spec z :
  fits_sqlite_integer z = true <-> - 2 ^ 63 <= z < 2 ^ 63.
Proof. unfold fits_sqlite_integer. rewrite andb_true_iff, Z.leb_le, Z.ltb_lt. reflexivity. Qed.

Lemma binds_as_integer (n : option Z) :
  (forall z, n = Some z -> - 2 ^ 63 <= z < 2 ^ 63) ->
  match n with Some z => fits_sqlite_integer z | None => true end = true.
Proof.
  intros H. destruct n as [z|]; [|reflexivity].
  apply fits_sqlite_integer_spec, H. reflexivity.
Qed.

(** X7. An [UPDATE] for a job that has no row is not an error and changes no
    row: none of the three helpers ever creates one.  For
    [db_mark_job_done] the throw count has to fit the 64-bit [INTEGER] of
    SQLite; one that does not is refused with [OverflowError], and then
    too no row changes. *)
Theorem db_updates_skip_unknown_job (jid : string) (w : world)
    (st : option string) (pr : option Q) (sg : option string) (msg : string)
    (o a p t l : option string) (n : option Z) :
  jobs w !! jid = None ->
  (fst (db_update_job_status jid st pr sg w) = Ok tt
   /\ jobs (snd (db_update_job_status jid st pr sg w)) = jobs w)
  /\ (fst (db_mark_job_failed jid msg w) = Ok tt
      /\ jobs (snd (db_mark_job_failed jid msg w)) = jobs w)
  /\ (((forall z, n = Some z -> - 2 ^ 63 <= z < 2 ^ 63) ->
       fst (db_mark_job_done jid o a p t l n w) = Ok tt)
      /\ ((exists z, n = Some z /\ ~ (- 2 ^ 63 <= z < 2 ^ 63)) ->
          fst (db_mark_job_done jid o a p t l n w) = Raise sqlite_overflow)
      /\ jobs (snd (db_mark_job_done jid o a p t l n w)) = jobs w).
Proof.
  intros H.
  rewrite db_update_job_status_eq, db_mark_job_failed_eq, db_mark_job_done_eq.
  cbn [fst snd jobs record with_jobs]. rewrite !(alter_absent _ _ _ H).
  split; [split; reflexivity|]. split; [split; reflexivity|].
  split; [|split].
  - intros Hn. rewrite (binds_as_integer n Hn). reflexivity.
  - intros (z & -> & Hz).
    destruct (fits_sqlite_integer z) eqn:Ez; [|reflexivity].
    apply fits_sqlite_integer_spec in Ez. contradiction.
  - destruct (match n with Some z => fits_sqlite_integer z | None => true end);
      cbn [snd jobs record with_jobs]; [apply (alter_absent _ _ _ H) | reflexivity].
Qed.

Lemma db_updates_skip_unknown_job_witness :
  jobs (snd (db_mark_job_failed "dddddddddddd" "RuntimeError: lost" three_jobs))
  = jobs three_jobs
  /\ fst (db_mark_job_done "dddddddddddd" None None None None None (Some 3) three_jobs)
     = Ok tt
  /\ fst (db_mark_job_done "dddddddddddd" None None None None None (Some (2 ^ 63))
            three_jobs)
     = Raise sqlite_overflow.
Proof.
  destruct (db_updates_skip_unknown_job "dddddddddddd" three_jobs None None None
              "RuntimeError: lost" None None None None None (Some 3))
    as (_ & (_ & Hf) & (Hd & _ & _)); [vm_compute; reflexivity|].
  destruct (db_updates_skip_unknown_job "dddddddddddd" three_jobs None None None
              "RuntimeError: lost" None None None None None (Some (2 ^ 63)))
    as (_ & _ & (_ & Hr & _)); [vm_compute; reflexivity|].
  split; [exact Hf|]. split.
  - apply Hd. intros z Hz. inversion Hz; subst z. lia.
  - apply Hr. exists (2 ^ 63). split; [reflexivity | lia].
Defined.

(** X8. Whatever the row of [job_id] holds, [db_mark_job_done] with a throw
    count that is null or fits the 64-bit [INTEGER] of SQLite leaves the
    row with status [done], progress 1.0, stage [done], no error message
    and the six result columns as given; the identity columns, the other
    rows and the files stay as they were. *)
Theorem db_mark_job_done_overwrites (jid : string) (o a p t l : option string)
    (n : option Z) (w : world) (row : job_row) :
  jobs w !! jid = Some row ->
  (forall z, n = Some z -> - 2 ^ 63 <= z < 2 ^ 63) ->
  exists w' row',
    db_mark_job_done jid o a p t l n w = (Ok tt, w')
    /\ jobs w' !! jid = Some row'
    /\ status row' = "done"
    /\ progress row' = Some 1.0%Q
    /\ stage row' = Some "done"
    /\ error_message row' = None
    /\ (overlay_url row' = o /\ analysis_url row' = a /\ practice_plan_url row' = p
        /\ practice_plan_txt_url row' = t /\ lesson_plan_url row' = l
        /\ throws_detected row' = n)
    /\ identity row' = identity row
    /\ (forall other, other <> jid -> jobs w' !! other = jobs w !! other)
    /\ fs w' = fs w.
Proof.
  intros Hrow Hn. eexists _, (set_done o a p t l n row).
  rewrite db_mark_job_done_eq, (binds_as_integer n Hn).
  split; [reflexivity|]. cbn [jobs fs record with_jobs]. rewrite lookup_alter_eq, Hrow.
  repeat split. intros other Hne. apply lookup_alter_ne. congruence.
Qed.

Lemma db_mark_job_done_overwrites_witness :
  exists w' row',
    db_mark_job_done "0123456789ab" (Some "/results/0123456789ab/side/overlay_release.mp4")
      (Some "/results/0123456789ab/combined/analysis.json") None None None (Some 3)
      (snd (db_mark_job_failed "0123456789ab" "RuntimeError: lost" (one_job running_row)))
    = (Ok tt, w')
    /\ jobs w' !! "0123456789ab" = Some row'
    /\ status row' = "done"
    /\ error_message row' = None
    /\ throws_detected row' = Some 3
    /\ upload_path row' = Some "uploads/0123456789ab_side.mp4".
Proof.
  destruct (db_mark_job_done_overwrites "0123456789ab"
              (Some "/results/0123456789ab/side/overlay_release.mp4")
              (Some "/results/0123456789ab/combined/analysis.json") None None None (Some 3)
              (snd (db_mark_job_failed "0123456789ab" "RuntimeError: lost"
                      (one_job running_row)))
              (set_failed "RuntimeError: lost" running_row))
    as (w' & row' & H1 & H2 & H3 & _ & _ & H4 & (_ & _ & _ & _ & _ & H5) & H6 & _).
  - vm_compute. reflexivity.
  - intros z Hz. inversion Hz; subst z. lia.
  - exists w', row'. repeat split; try assumption.
    apply (f_equal snd) in H6. exact H6.
Defined.

(** ** Listing a user's jobs *)

#[local] Instance newer_first_total : Total newer_first.
Proof.
  intros a b. unfold newer_first. rewrite !Qle_bool_iff.
  destruct (Qlt_le_dec (created_at_unix a) (created_at_unix b)) as [H|H];
    [right; apply Qlt_le_weak, H | left; exact H].
Qed.

#[local] Instance newer_first_trans : Transitive newer_first.
Proof.
  intros a b c. unfold newer_first. rewrite !Qle_bool_iff. intros H1 H2.
  exact (Qle_trans _ _ _ H2 H1).
Qed.

Lemma table_rows_elem r w : r ∈ table_rows w <-> exists k, jobs w !! k = Some r.
Proof.
  unfold table_rows. rewrite list_elem_of_In, in_map_iff. split.
  - intros ([k r'] & <- & Hin). exists k. apply elem_of_map_to_list.
    apply list_elem_of_In. exact Hin.
  - intros [k Hk]. exists (k, r). split; [reflexivity|].
    apply list_elem_of_In, elem_of_map_to_list. exact Hk.
Qed.

Lemma StronglySorted_impl {A} (R1 R2 : A -> A -> Prop) l :
  (forall a b, R1 a b -> R2 a b) -> StronglySorted R1 l -> StronglySorted R2 l.
Proof.
  intros HR. induction 1 as [|x l Hl IH Hx]; constructor; [exact IH|].
  eapply List.Forall_impl; [|exact Hx]. intros b. apply HR.
Qed.

(** The rows the [SELECT] yields for a limit that is not negative. *)
Lemma select_jobs_for_user_rows (user : string) (limit : Z) (w : world) :
  0 <= limit ->
  let rows := select_jobs_for_user user limit w in
  Forall (fun r => user_id r = user /\ exists k, jobs w !! k = Some r) rows
  /\ StronglySorted (fun a b => (created_at_unix b <= created_at_unix a)%Q) rows
  /\ length rows
     = Nat.min (Z.to_nat limit)
         (length (filter (fun r => user_id r = user) (table_rows w)))
  /\ (forall k r,
        jobs w !! k = Some r -> user_id r = user -> r ∉ rows ->
        Forall (fun r' => (created_at_unix r <= created_at_unix r')%Q) rows).
Proof.
  intros Hlim. cbv zeta.
  unfold select_jobs_for_user, sql_limit.
  destruct (Z.ltb_spec limit 0) as [Hneg|_]; [lia|].
  set (l := filter (fun r => user_id r = user) (table_rows w)).
  set (s := merge_sort newer_first l).
  set (n := Z.to_nat limit).
  pose proof (merge_sort_Permutation newer_first l) as Hperm. fold s in Hperm.
  pose proof (StronglySorted_merge_sort newer_first l) as Hsort. fold s in Hsort.
  rewrite <- (take_drop n s) in Hsort.
  assert (Hin : forall r, r ∈ take n s -> r ∈ l).
  { intros r Hr. rewrite <- Hperm, <- (take_drop n s). apply elem_of_app. left. exact Hr. }
  split; [|split; [|split]].
  - apply Forall_forall. intros r Hr. apply Hin in Hr. subst l.
    apply list_elem_of_filter in Hr as [Hu Ht]. split; [exact Hu|].
    apply table_rows_elem, Ht.
  - apply StronglySorted_app_1_l in Hsort.
    eapply StronglySorted_impl; [|exact Hsort].
    intros a b. unfold newer_first. apply Qle_bool_iff.
  - rewrite length_take. f_equal. apply Permutation_length, Hperm.
  - intros k r Hk Hu Hout. apply Forall_forall. intros r' Hr'.
    assert (r ∈ s) as Hs.
    { rewrite Hperm. subst l. apply list_elem_of_filter. split; [exact Hu|].
      apply table_rows_elem. exists k. exact Hk. }
    rewrite <- (take_drop n s) in Hs. apply elem_of_app in Hs as [Hs|Hs]; [contradiction|].
    pose proof (StronglySorted_app_1_elem_of _ _ _ _ _ Hsort Hr' Hs) as HR.
    unfold newer_first in HR. apply Qle_bool_iff in HR. exact HR.
Qed.

Lemma db_list_jobs_for_user_eq (user : string) (limit : Z) (w : world) :
  - 2 ^ 63 <= limit < 2 ^ 63 ->
  db_list_jobs_for_user user limit w
  = (Ok (map row_dict (select_jobs_for_user user limit w)), w).
Proof.
  intros H. unfold db_list_jobs_for_user.
  rewrite (proj2 (fits_sqlite_integer_spec limit) H). reflexivity.
Qed.

(** X9. The listing of a user's jobs, for a limit from zero up that fits the
    64-bit [INTEGER] of SQLite, reads and does not write.  It holds only
    rows of that user, each one a row of the table, newest first; it holds
    [limit] of them, or all when there are fewer; and no row it leaves out
    is newer than one it holds. *)
Theorem db_list_jobs_for_user_newest_first (user : string) (limit : Z) (w : world) :
  0 <= limit < 2 ^ 63 ->
  exists rows,
    db_list_jobs_for_user user limit w = (Ok (map row_dict rows), w)
    /\ Forall (fun r => user_id r = user /\ exists k, jobs w !! k = Some r) rows
    /\ StronglySorted (fun a b => (created_at_unix b <= created_at_unix a)%Q) rows
    /\ length rows
       = Nat.min (Z.to_nat limit)
           (length (filter (fun r => user_id r = user) (table_rows w)))
    /\ (forall k r,
          jobs w !! k = Some r -> user_id r = user -> r ∉ rows ->
          Forall (fun r' => (created_at_unix r <= created_at_unix r')%Q) rows).
Proof.
  intros [Hlo Hhi]. exists (select_jobs_for_user user limit w).
  split; [apply db_list_jobs_for_user_eq; lia|].
  exact (select_jobs_for_user_rows user limit w Hlo).
Qed.

(** A limit SQLite cannot hold is refused before anything is read. *)
Example db_list_jobs_for_user_huge_limit :
  db_list_jobs_for_user "ann" (2 ^ 63) three_jobs = (Raise sqlite_overflow, three_jobs).
Proof. reflexivity. Qed.

Lemma db_list_jobs_for_user_newest_first_witness :
  exists rows,
    db_list_jobs_for_user "ann" 1 three_jobs = (Ok (map row_dict rows), three_jobs)
    /\ map job_id rows = ["cccccccccccc"].
Proof.
  destruct (db_list_jobs_for_user_newest_first "ann" 1 three_jobs) as (rows & H & _).
  - lia.
  - exists rows. split; [exact H|].
    assert (map row_dict rows
            = map row_dict [queued_row "cccccccccccc" "ann" 1700000300 "c.mp4" ".mp4"
                              "uploads/c"]) as Hr.
    { assert (fst (db_list_jobs_for_user "ann" 1 three_jobs)
              = Ok (map row_dict [queued_row "cccccccccccc" "ann" 1700000300 "c.mp4" ".mp4"
                                    "uploads/c"])) as H2 by (vm_compute; reflexivity).
      rewrite H in H2. cbn [fst] in H2. congruence. }
    destruct rows as [|r [|r' rows]]; [discriminate | | discriminate].
    cbn [map] in Hr. inversion Hr. reflexivity.
Defined.

(** X10. [GET /users/{user_id}/jobs] for a limit the framework admits: the
    answer echoes the user, counts the jobs it lists, lists at most
    [limit] of them, all of that user, and changes nothing. *)
Theorem list_jobs_count (user : string) (limit : Z) (w : world) :
  1 <= limit <= 200 ->
  exists js,
    list_jobs user limit w
    = (Ok (JDict [("user_id", JStr user);
                  ("count", JInt (Z.of_nat (length js)));
                  ("jobs", JList js)]), w)
    /\ Z.of_nat (length js) <= limit
    /\ Forall (fun j => json_path ["user_id"] j = Some (JStr user)) js.
Proof.
  intros [Hlo Hhi].
  assert (H : db_list_jobs_for_user user limit w
              = (Ok (map row_dict (select_jobs_for_user user limit w)), w))
    by (apply db_list_jobs_for_user_eq; lia).
  destruct (select_jobs_for_user_rows user limit w) as (Hall & _ & Hlen & _); [lia|].
  set (rows := select_jobs_for_user user limit w) in *.
  exists (map row_dict rows). unfold list_jobs, bind. rewrite H. split; [reflexivity|].
  split.
  - rewrite length_map, Hlen. lia.
  - apply Forall_forall. intros j Hj. apply list_elem_of_In, in_map_iff in Hj as (r & <- & Hr).
    apply list_elem_of_In in Hr. rewrite Forall_forall in Hall.
    destruct (Hall r Hr) as [Hu _]. cbn. rewrite Hu. reflexivity.
Qed.

Lemma list_jobs_count_witness :
  exists js,
    list_jobs "ann" 50 three_jobs
    = (Ok (JDict [("user_id", JStr "ann");
                  ("count", JInt (Z.of_nat (length js)));
                  ("jobs", JList js)]), three_jobs)
    /\ Z.of_nat (length js) <= 50.
Proof.
  destruct (list_jobs_count "ann" 50 three_jobs) as (js & H & Hle & _).
  - lia.
  - exists js. split; assumption.
Defined.

Example list_jobs_of_ann :
  match fst (list_jobs "ann" 50 three_jobs) with
  | Ok body =>
      json_path ["count"] body = Some (JInt 2)
      /\ match json_path ["jobs"] body with
         | Some (JList js) => map (json_path ["job_id"]) js
         | _ => []
         end = [Some (JStr "cccccccccccc"); Some (JStr "aaaaaaaaaaaa")]
  | Raise _ => False
  end.
Proof. vm_compute. split; reflexivity. Qed.

(** ** The worker and the rows of other jobs *)

Lemma own_same {A} jid (m : M A) :
  (forall w, jobs (snd (m w)) = jobs w) -> own_row_only jid m.
Proof.
  intros H w j. rewrite H. destruct (jobs w !! j); [split; reflexivity | exact I].
Qed.

Lemma own_ret {A} jid (a : A) : own_row_only jid (ret a).
Proof. apply own_same. reflexivity. Qed.

Lemma own_raise {A} jid e : own_row_only jid (@raise A e).
Proof. apply own_same. reflexivity. Qed.

Lemma own_get {A} jid (f : world -> A) : own_row_only jid (get f).
Proof. apply own_same. reflexivity. Qed.

Lemma own_os_error {A} jid k t p : own_row_only jid (@os_error A k t p).
Proof. apply own_same. reflexivity. Qed.

Lemma own_modify_fs jid f : own_row_only jid (modify (with_fs f)).
Proof. apply own_same. reflexivity. Qed.

Lemma own_modify_record jid e : own_row_only jid (modify (record e)).
Proof. apply own_same. reflexivity. Qed.

Lemma own_modify_alter jid f :
  (forall r, identity (f r) = identity r) ->
  own_row_only jid (modify (with_jobs (alter f jid))).
Proof.
  intros Hf w j. cbn [snd modify jobs with_jobs]. rewrite lookup_alter.
  destruct (decide (jid = j)) as [->|Hne]; destruct (jobs w !! j) as [r|]; cbn.
  - split; [apply Hf | congruence].
  - exact I.
  - split; reflexivity.
  - exact I.
Qed.

Lemma own_bind {A B} jid (m : M A) (k : A -> M B) :
  own_row_only jid m -> (forall a, own_row_only jid (k a)) -> own_row_only jid (bind m k).
Proof.
  intros Hm Hk w j. unfold bind. specialize (Hm w j).
  destruct (m w) as [[a|e] w1]; cbn [snd] in *; [|exact Hm].
  specialize (Hk a w1 j).
  destruct (jobs w !! j) as [r|], (jobs w1 !! j) as [r1|],
    (jobs (snd (k a w1)) !! j) as [r2|]; cbn in *; try contradiction; try exact I.
  destruct Hm as [I1 E1], Hk as [I2 E2]. split; [congruence|].
  intros Hj. rewrite (E2 Hj). apply E1, Hj.
Qed.

Lemma own_try_except {A} jid (m : M A) h :
  own_row_only jid m -> (forall e, own_row_only jid (h e)) ->
  own_row_only jid (try_except m h).
Proof.
  intros Hm Hh w j. unfold try_except. specialize (Hm w j).
  destruct (m w) as [[a|e] w1]; cbn [snd] in *; [exact Hm|].
  specialize (Hh e w1 j).
  destruct (jobs w !! j) as [r|], (jobs w1 !! j) as [r1|],
    (jobs (snd (h e w1)) !! j) as [r2|]; cbn in *; try contradiction; try exact I.
  destruct Hm as [I1 E1], Hh as [I2 E2]. split; [congruence|].
  intros Hj. rewrite (E2 Hj). apply E1, Hj.
Qed.

Create HintDb own.

#[local] Hint Resolve own_ret own_raise own_get own_os_error own_modify_fs
  own_modify_record own_bind own_try_except : own.

#[local] Hint Extern 1 (own_row_only _ (match ?x with _ => _ end)) => destruct x : own.
#[local] Hint Extern 2 (own_row_only _ _) => progress cbv beta : own.

Ltac own := intros; auto 20 with own.

Lemma own_mkdir_parents jid p : own_row_only jid (mkdir_parents p).
Proof.
  apply own_same. intros w. unfold mkdir_parents.
  destruct (mkdir_from [] p w) as [r w'] eqn:Em.
  destruct (mkdir_from_frame _ _ _ _ _ Em) as (J & _). exact J.
Qed.

Lemma own_db_update jid st pr sg : own_row_only jid (db_update_job_status jid st pr sg).
Proof.
  unfold db_update_job_status. apply own_bind; [|own].
  apply own_modify_alter. reflexivity.
Qed.

Lemma own_db_mark_job_failed jid msg : own_row_only jid (db_mark_job_failed jid msg).
Proof.
  unfold db_mark_job_failed. apply own_bind; [|own].
  apply own_modify_alter. reflexivity.
Qed.

Lemma own_db_mark_job_done jid o a p t l n :
  own_row_only jid (db_mark_job_done jid o a p t l n).
Proof.
  unfold db_mark_job_done.
  destruct (match n with Some z => fits_sqlite_integer z | None => true end); [|own].
  apply own_bind; [|own].
  apply own_modify_alter. reflexivity.
Qed.

Lemma own_exists jid p : own_row_only jid (exists_ p).
Proof. unfold exists_. own. Qed.

Lemma own_py_get jid v k : own_row_only jid (py_get v k).
Proof. unfold py_get. own. Qed.

Lemma own_write_text jid p t : own_row_only jid (write_text p t).
Proof. unfold write_text, open_wb, write_chunk. own. Qed.

Lemma own_read_text jid p : own_row_only jid (read_text p).
Proof. unfold read_text. own. Qed.

#[local] Hint Resolve own_mkdir_parents own_db_update own_db_mark_job_failed
  own_db_mark_job_done own_exists own_py_get own_write_text own_read_text : own.

Section OwnRow.
Context {codec : JsonCodec} (E : env).

Lemma own_load_json jid p : own_row_only jid (load_json p).
Proof. unfold load_json. own. Qed.

#[local] Hint Resolve own_load_json : own.

Lemma own_safe_read_json jid p : own_row_only jid (_safe_read_json p).
Proof. unfold _safe_read_json. own. Qed.

Lemma own_read_status jid j : own_row_only jid (read_status j).
Proof. unfold read_status. own. Qed.

Lemma own_write_status jid j payload : own_row_only jid (write_status j payload).
Proof. unfold write_status. cbv zeta. own. Qed.

Lemma own_pick_overlay_url jid j view : own_row_only jid (_pick_overlay_url j view).
Proof. unfold _pick_overlay_url. cbv zeta. own. Qed.

Lemma own_infer_txt_url jid j : own_row_only jid (_infer_txt_url j).
Proof. unfold _infer_txt_url. cbv zeta. own. Qed.

Lemma own_now jid : own_row_only jid (now E).
Proof. apply own_same. reflexivity. Qed.

Lemma own_run jid cmd : own_row_only jid (run E cmd).
Proof.
  apply own_same. intros w. unfold run. destruct (subprocess_run E cmd (fs w)). reflexivity.
Qed.

Lemma own_analysis_arg jid flag a : own_row_only jid (analysis_arg flag a).
Proof. unfold analysis_arg. own. Qed.

#[local] Hint Resolve own_safe_read_json own_read_status own_write_status
  own_pick_overlay_url own_infer_txt_url own_now own_run own_analysis_arg : own.

Lemma own_run_single_view jid view up model no_ai :
  own_row_only jid (_run_single_view E jid view up model no_ai).
Proof. unfold _run_single_view. cbv zeta. own. Qed.

#[local] Hint Resolve own_run_single_view : own.

Lemma own_stage_views jid side front model no_ai :
  own_row_only jid (stage_views E jid side front model no_ai).
Proof. unfold stage_views. own. Qed.

Lemma own_stage_combine jid side front : own_row_only jid (stage_combine E jid side front).
Proof. unfold stage_combine. cbv zeta. own. Qed.

Lemma own_stage_build jid model no_ai : own_row_only jid (stage_build E jid model no_ai).
Proof. unfold stage_build. cbv zeta. own. Qed.

Lemma own_stage_result jid side front : own_row_only jid (stage_result E jid side front).
Proof.
  unfold stage_result. cbv zeta.
  repeat (apply own_bind; [solve [own] | intros ?]). own.
Qed.

Lemma own_on_failure jid e : own_row_only jid (on_failure E jid e).
Proof.
  unfold on_failure. cbv zeta.
  repeat (apply own_bind; [solve [own] | intros ?]). own.
Qed.

Lemma own_start_background_job jid side front model no_ai :
  own_row_only jid (start_background_job E jid side front model no_ai).
Proof.
  unfold start_background_job.
  repeat (apply own_bind; [solve [own] | intros ?]).
  apply own_try_except; [|intros e; apply own_on_failure].
  unfold pipeline.
  apply own_bind; [apply own_stage_views | intros _].
  apply own_bind; [apply own_stage_combine | intros _].
  apply own_bind; [apply own_stage_build | intros _].
  apply own_stage_result.
Qed.

End OwnRow.

(** X16. Whatever the child processes do and however the run ends, the worker
    of a job adds no row and deletes none, leaves the row of every other
    job exactly as it was, and in its own row never changes the columns
    that identify the upload. *)
Theorem start_background_job_own_row {codec : JsonCodec} (E : env) (jid : string)
    (side front : option path) (model : string) (no_ai : bool) (w : world) :
  let w' := snd (start_background_job E jid side front model no_ai w) in
  (forall j r, jobs w !! j = Some r ->
     exists r', jobs w' !! j = Some r'
                /\ identity r' = identity r
                /\ (j <> jid -> r' = r))
  /\ (forall j, jobs w !! j = None -> jobs w' !! j = None).
Proof.
  cbv zeta. split.
  - intros j r Hr.
    pose proof (own_start_background_job E jid side front model no_ai w j) as H.
    rewrite Hr in H. destruct (jobs (snd (start_background_job E jid side front model no_ai w)) !! j)
      as [r'|]; [|exfalso; exact H].
    exists r'. split; [reflexivity | exact H].
  - intros j Hn.
    pose proof (own_start_background_job E jid side front model no_ai w j) as H.
    rewrite Hn in H. destruct (jobs (snd (start_background_job E jid side front model no_ai w)) !! j)
      as [r'|]; [exfalso; exact H | reflexivity].
Qed.

(** ** The worker stops at the first process that fails *)

Lemma stopped_zeros n : stopped_at_first_failure (replicate n 0) = true.
Proof. induction n as [|n IH]; [reflexivity | exact IH]. Qed.

Lemma stopped_after_zeros n codes :
  stopped_at_first_failure (replicate n 0 ++ codes) = stopped_at_first_failure codes.
Proof. induction n as [|n IH]; [reflexivity | exact IH]. Qed.

Lemma halts_of_runs {A} (m : M A) : runs_at_most 0 m -> halts_on_failure 0 m.
Proof.
  intros H w. destruct (H w) as (l & Hl & Len & Hok). exists l.
  split; [exact Hl|]. split; [exact Len|]. split; [|exact Hok].
  destruct (exit_codes l); [reflexivity | cbn in Len; lia].
Qed.

Lemma halts_bind {A B} n1 n2 n (m : M A) (k : A -> M B) :
  n = (n1 + n2)%nat ->
  halts_on_failure n1 m -> (forall a, halts_on_failure n2 (k a)) ->
  halts_on_failure n (bind m k).
Proof.
  intros -> Hm Hk w. unfold bind. destruct (Hm w) as (l1 & E1 & L1 & S1 & O1).
  destruct (m w) as [[a|e] w1]; cbn [fst snd] in *.
  - destruct (Hk a w1) as (l2 & E2 & L2 & S2 & O2). exists (l1 ++ l2).
    rewrite E2, E1, app_assoc, exit_codes_app, length_app, (O1 a eq_refl).
    split; [reflexivity|]. rewrite length_replicate. split; [lia|].
    split; [rewrite stopped_after_zeros; exact S2|].
    intros b Hb. rewrite (O2 b Hb), replicate_add. reflexivity.
  - exists l1. split; [exact E1|]. split; [lia|]. split; [exact S1 | discriminate].
Qed.

Section Halts.
Context {codec : JsonCodec} (E : env).

Lemma halts_checked cmd (f : proc_result -> exn) :
  halts_on_failure 1
    (let* p := run E cmd in
     if negb (returncode p =? 0) then raise (f p) else ret tt).
Proof.
  intros w. unfold bind, run. destruct (subprocess_run E cmd (fs w)) as [res m].
  exists [ProcExit cmd res m].
  destruct (Z.eqb_spec (returncode res) 0) as [H0|H0]; cbn [negb fst snd raise ret].
  - split; [reflexivity|]. split; [cbn; lia|].
    split; [cbn; rewrite H0; reflexivity|]. intros _ _. cbn. rewrite H0. reflexivity.
  - split; [reflexivity|]. split; [cbn; lia|]. split; [|discriminate].
    cbn. destruct (Z.eqb_spec (returncode res) 0); [lia|reflexivity].
Qed.

Lemma halts_run_single_view jid view up model no_ai :
  halts_on_failure 1 (_run_single_view E jid view up model no_ai).
Proof.
  unfold _run_single_view. cbv zeta.
  apply (halts_bind 0 1 1 _ _ eq_refl);
    [apply halts_of_runs, runs_keeps; keeps | intros _].
  apply halts_checked.
Qed.

Lemma halts_stage_views jid side front model no_ai :
  halts_on_failure (views_supplied side front) (stage_views E jid side front model no_ai).
Proof.
  unfold stage_views, views_supplied.
  apply (halts_bind _ _ _ _ _ eq_refl); [|intros _].
  - destruct side as [sp|]; [|apply halts_of_runs, runs_keeps; keeps].
    apply (halts_bind 0 1 1 _ _ eq_refl);
      [apply halts_of_runs, runs_db_update | intros _; apply halts_run_single_view].
  - destruct front as [fp|]; [|apply halts_of_runs, runs_keeps; keeps].
    apply (halts_bind 0 1 1 _ _ eq_refl);
      [apply halts_of_runs, runs_db_update | intros _; apply halts_run_single_view].
Qed.

Lemma halts_stage_combine jid side front :
  halts_on_failure 1 (stage_combine E jid side front).
Proof.
  unfold stage_combine. cbv zeta.
  apply (halts_bind 0 1 1 _ _ eq_refl);
    [apply halts_of_runs, runs_keeps; keeps | intros _].
  apply (halts_bind 0 1 1 _ _ eq_refl); [apply halts_of_runs, runs_db_update | intros _].
  apply (halts_bind 0 1 1 _ _ eq_refl);
    [apply halts_of_runs, runs_keeps; keeps | intros ?].
  apply (halts_bind 0 1 1 _ _ eq_refl);
    [apply halts_of_runs, runs_keeps; keeps | intros ?].
  apply halts_checked.
Qed.

Lemma halts_stage_build jid model no_ai :
  halts_on_failure 1 (stage_build E jid model no_ai).
Proof.
  unfold stage_build. cbv zeta.
  apply (halts_bind 0 1 1 _ _ eq_refl); [apply halts_of_runs, runs_db_update | intros _].
  apply halts_checked.
Qed.

Lemma halts_pipeline jid side front model no_ai :
  halts_on_failure (views_supplied side front + 2)
    (pipeline E jid side front model no_ai).
Proof.
  unfold pipeline.
  apply (halts_bind (views_supplied side front) 2 _ _ _ eq_refl);
    [apply halts_stage_views | intros _].
  apply (halts_bind 1 1 2 _ _ eq_refl); [apply halts_stage_combine | intros _].
  apply (halts_bind 1 0 1 _ _ eq_refl); [apply halts_stage_build | intros _].
  apply halts_of_runs, runs_stage_result.
Qed.

End Halts.

(** X15. The worker starts its processes one after the other (one per view,
    the combiner, the report builder) and starts none after one that
    failed; a job that ends with the [done] row has run them all, and all
    exited with zero. *)
Theorem worker_stops_at_first_failure {codec : JsonCodec} (E : env) (jid : string)
    (side front : option path) (model : string) (no_ai : bool) (w : world) :
  exists l,
    history (snd (start_background_job E jid side front model no_ai w)) = history w ++ l
    /\ stopped_at_first_failure (exit_codes l) = true
    /\ (length (exit_codes l) <= views_supplied side front + 2)%nat
    /\ (forall o a p t ls n,
          last l = Some (DbDone jid o a p t ls n) ->
          exit_codes l = replicate (views_supplied side front + 2) 0).
Proof.
  unfold start_background_job. unfold bind at 1. unfold now at 1.
  unfold bind at 1.
  match goal with
  | |- context [write_status ?j ?pl ?x] =>
      destruct (write_status j pl x) as [[[]|e] w1] eqn:Ew;
      destruct (write_status_spec _ _ _ _ _ Ew) as (_ & _ & _ & Hh1)
  end.
  2:{ exists []. cbn [snd history tick] in *. rewrite app_nil_r.
      split; [exact Hh1|]. split; [reflexivity|]. split; [cbn; lia | discriminate]. }
  destruct Hh1 as [Hh1 _]. cbn [history tick] in Hh1.
  rewrite (bind_ok _ _ _ _ _ (db_update_job_status_eq jid _ _ _ w1)).
  set (w2 := record _ _).
  assert (H2 : exists pre, history w2 = history w ++ pre /\ exit_codes pre = []).
  { eexists [_; _]. subst w2. cbn [history record with_jobs]. rewrite Hh1, <- app_assoc.
    split; reflexivity. }
  destruct H2 as (pre & H2 & Cpre).
  unfold try_except.
  destruct (halts_pipeline E jid side front model no_ai w2) as (lp & Hp & Lp & Sp & Op).
  destruct (pipeline E jid side front model no_ai w2) as [[[]|e] w3] eqn:Ep;
    cbn [fst snd] in *.
  - exists (pre ++ lp). rewrite Hp, H2, <- app_assoc. split; [reflexivity|].
    rewrite exit_codes_app, Cpre. cbn [app].
    split; [exact Sp|]. split; [exact Lp|]. intros. apply (Op tt eq_refl).
  - destruct (on_failure E jid e w3) as [r w4] eqn:Ef.
    destruct (on_failure_spec E _ _ _ _ _ Ef) as (_ & _ & Hh). cbn [snd].
    assert (exists post x, history w4 = history w3 ++ post ++ [x]
                           /\ exit_codes (post ++ [x]) = []
                           /\ forall o a p t ls n, x <> DbDone jid o a p t ls n)
      as (post & x & Hpost & Cpost & Hx).
    { destruct r as [[]|e1].
      - destruct Hh as (s & f & Hh & _). eexists [_], _. split; [exact Hh|].
        split; [reflexivity | discriminate].
      - eexists [], _. split; [exact Hh|]. split; [reflexivity | discriminate]. }
    exists (pre ++ lp ++ post ++ [x]).
    rewrite Hpost, Hp, H2, <- !app_assoc. split; [reflexivity|].
    rewrite !exit_codes_app, Cpre. cbn [app]. rewrite <- exit_codes_app, Cpost, app_nil_r.
    split; [exact Sp|]. split; [exact Lp|].
    intros o a p t ls n Hlast. exfalso.
    rewrite !app_assoc, last_snoc in Hlast. inversion Hlast. exact (Hx _ _ _ _ _ _ H0).
Qed.

Example exit_codes_of_a_failed_build :
  exit_codes (job_events build_fails) = [0; 0; 0; 2]
  /\ stopped_at_first_failure [0; 0; 0; 2] = true
  /\ stopped_at_first_failure [0; 2; 0] = false.
Proof. repeat split; vm_compute; reflexivity. Qed.

(** ** Writing and reading status documents *)

Section StatusFiles.
Context {codec : JsonCodec}.

(** [write_status] changes, on disk, the status document and the
    directories above it that were missing, and nothing else. *)
Lemma write_status_touch jid payload w q :
  ~ q `prefix_of` _job_dir jid -> q <> _status_path jid ->
  fs (snd (write_status jid payload w)) !! q = fs w !! q.
Proof.
  intros Hp Hq. unfold write_status. cbv zeta. unfold bind at 1.
  destruct (mkdir_parents (_job_dir jid) w) as [[[]|e] w1] eqn:E1; cbn [snd];
    pose proof (mkdir_from_touch _ _ _ _ _ E1 q Hp) as F1; [|exact F1].
  unfold bind at 1.
  destruct (write_text (_status_path jid) (json_dumps payload) w1) as [[[]|e] w2] eqn:E2;
    destruct (write_text_frame _ _ _ _ _ E2) as (_ & _ & F2);
    cbv beta iota; unfold modify; cbn [snd fs record];
    (etrans; [exact (F2 q Hq) | exact F1]).
Qed.

(** X11. Reading after writing gives back what the JSON library reads from
    what it printed: the payload itself whenever the library round-trips
    it.  In particular the last document written is the one that is read. *)
Theorem write_status_then_read (jid : string) (payload : json) (w w' : world) :
  write_status jid payload w = (Ok tt, w') ->
  read_status jid w'
  = (match json_loads (json_dumps payload) with
     | Some v => Ok v
     | None => Raise (PyError "JSONDecodeError" (json_error (json_dumps payload)))
     end, w')
  /\ (json_loads (json_dumps payload) = Some payload ->
      read_status jid w' = (Ok payload, w')).
Proof.
  intros H. destruct (write_status_spec _ _ _ _ _ H) as (_ & _ & _ & _ & Hf).
  assert (Hr : read_status jid w'
               = (match json_loads (json_dumps payload) with
                  | Some v => Ok v
                  | None => Raise (PyError "JSONDecodeError" (json_error (json_dumps payload)))
                  end, w')).
  { rewrite read_status_eq, Hf, string_of_list_byte_of_string. reflexivity. }
  split; [exact Hr|]. intros Hrt. rewrite Hr, Hrt. reflexivity.
Qed.

(** X12. Writing the status of one job never changes what a read of another
    job's status answers, for job ids that are plain names. *)
Theorem write_status_leaves_other_jobs (jid other : string) (payload : json) (w : world) :
  plain_name jid = true -> plain_name other = true ->
  other <> jid ->
  fst (read_status other (snd (write_status jid payload w))) = fst (read_status other w).
Proof.
  intros _ _ Hne. rewrite !read_status_eq. cbn [fst].
  assert (H1 : fs (snd (write_status jid payload w)) !! _status_path other
               = fs w !! _status_path other).
  { apply write_status_touch.
    - intros [k Hk]. cbn in Hk. inversion Hk.
    - intros Hk. inversion Hk. congruence. }
  assert (H2 : fs (snd (write_status jid payload w)) !! _job_dir other
               = fs w !! _job_dir other).
  { apply write_status_touch.
    - intros [k Hk]. cbn in Hk. inversion Hk. congruence.
    - intros Hk. inversion Hk. }
  rewrite H1, H2. reflexivity.
Qed.

(** X13. [_safe_read_json] never raises and never changes anything: it gives
    the parsed value exactly when the path holds a file whose text
    parses, and [None] in every other case (no file, a directory, text
    that is not JSON). *)
Theorem safe_read_json_total (p : path) (w : world) :
  exists o,
    _safe_read_json p w = (Ok o, w)
    /\ forall v,
         o = Some v
         <-> exists d, node_at (fs w) p = Some (File d)
                       /\ json_loads (string_of_list_byte d) = Some v.
Proof.
  exists (parsed_file (fs w) p). split; [apply safe_read_json_eq|].
  intros v. unfold parsed_file. destruct (node_at (fs w) p) as [[d|]|]; split.
  - intros H. exists d. split; [reflexivity | exact H].
  - intros (d' & Hd & Hv). inversion Hd; subst d'. exact Hv.
  - discriminate.
  - intros (d' & Hd & _). discriminate.
  - discriminate.
  - intros (d' & Hd & _). discriminate.
Qed.

End StatusFiles.

Lemma write_status_then_read_witness :
  let payload := queued_placeholder "0123456789ab" in
  read_status "0123456789ab" (snd (write_status "0123456789ab" payload empty_world))
  = (Ok payload, snd (write_status "0123456789ab" payload empty_world)).
Proof.
  intros payload.
  refine (proj2 (write_status_then_read "0123456789ab" payload empty_world
                   (snd (write_status "0123456789ab" payload empty_world)) _) _).
  - rewrite surjective_pairing at 1.
    apply (f_equal2 pair); [vm_compute; reflexivity | reflexivity].
  - vm_compute. reflexivity.
Defined.

Lemma write_status_leaves_other_jobs_witness :
  fst (read_status "aaaaaaaaaaaa"
         (snd (write_status "0123456789ab" (queued_placeholder "0123456789ab") one_status)))
  = fst (read_status "aaaaaaaaaaaa" one_status).
Proof.
  apply (write_status_leaves_other_jobs "0123456789ab" "aaaaaaaaaaaa");
    [reflexivity | reflexivity | discriminate].
Defined.

Example read_the_other_job :
  fst (read_status "aaaaaaaaaaaa" one_status) = Ok (JDict [("status", JStr "running")]).
Proof. vm_compute. reflexivity. Qed.

(** ** How a run ends *)

Lemma py_get_inv v k w x w1 :
  py_get v k w = (Ok x, w1) ->
  w1 = w /\ exists d, v = JDict d
                      /\ x = match assoc k d with Some y => y | None => JNull end.
Proof.
  destruct v; cbn; intros H; inversion H; subst.
  split; [reflexivity|]. eexists. split; reflexivity.
Qed.

Lemma is_present_frame (m m' : gmap path node) p :
  (3 < length p)%nat ->
  (forall q, (3 < length q)%nat -> m' !! q = m !! q) ->
  is_present m' p = is_present m p.
Proof.
  intros Hp F. unfold is_present. destruct p as [|c p]; [cbn in Hp; lia|].
  cbn [node_at]. rewrite F by exact Hp. reflexivity.
Qed.

Section Ending.
Context {codec : JsonCodec} (E : env).

(** The last stage, seen from the job table. *)
Lemma stage_result_row jid side front w w' :
  stage_result E jid side front w = (Ok tt, w') ->
  exists o started finished res,
    let a := Some ("/results/" +:+ jid +:+ "/combined/analysis.json") in
    let p := Some ("/results/" +:+ jid +:+ "/combined/practice_plan.pdf") in
    let ls := Some ("/results/" +:+ jid +:+ "/combined/lesson_plan.json") in
    let t := if is_present (fs w) (_job_dir jid ++ ["combined"; "practice_plan.txt"])
             then Some ("/results/" +:+ jid +:+ "/combined/practice_plan.txt")
             else None in
    let n := throws_of (parsed_file (fs w) (combined_analysis jid)) in
    jobs w' = alter (set_done o a p t ls n) jid (jobs w)
    /\ last (history w') = Some (DbDone jid o a p t ls n)
    /\ fs w' !! _status_path jid
       = Some (File (list_byte_of_string
                       (json_dumps (status_payload jid "done" 1.0%Q "done" started
                                      (JFloat finished) JNull res))))
    /\ (forall q, (3 < length q)%nat -> fs w' !! q = fs w !! q).
Proof.
  unfold stage_result. cbv zeta. intros H.
  rewrite (bind_ok _ _ _ _ _ (view_overlay_eq side jid "side" w)) in H.
  rewrite (bind_ok _ _ _ _ _ (view_overlay_eq front jid "front" w)) in H.
  rewrite (bind_ok _ _ _ _ _ (guarded_read_json_eq _ w)) in H.
  rewrite (bind_ok _ _ _ _ _ (guarded_read_json_eq _ w)) in H.
  rewrite (bind_ok _ _ _ _ _ (infer_txt_url_eq jid w)) in H.
  rewrite (bind_ok _ _ _ _ _ (safe_read_json_eq _ w)) in H.
  unfold bind at 1 in H.
  match type of H with
  | context [py_get ?v ?k w] =>
      destruct (py_get v k w) as [[summary0|e] w1] eqn:G1; [|discriminate];
      destruct (py_get_inv _ _ _ _ _ G1) as (-> & d & Hd & Hs0)
  end.
  unfold bind at 1 in H.
  match type of H with
  | context [py_get ?v ?k w] =>
      destruct (py_get v k w) as [[throws|e] w1] eqn:G2; [|discriminate];
      destruct (py_get_inv _ _ _ _ _ G2) as (-> & s & Hs & Hth)
  end.
  unfold bind at 1 in H.
  pose proof (read_status_world jid w) as Hw1.
  destruct (read_status jid w) as [[st|e] w1]; cbn [snd] in Hw1; [subst w1|discriminate].
  unfold bind at 1 in H.
  match type of H with
  | context [py_get ?v ?k w] =>
      pose proof (py_get_world v k w) as Hw1;
      destruct (py_get v k w) as [[started|e] w1]; cbn [snd] in Hw1; [subst w1|discriminate]
  end.
  unfold bind at 1 in H. unfold now at 1 in H.
  unfold bind at 1 in H.
  match type of H with
  | context [write_status ?j ?p ?x] =>
      destruct (write_status j p x) as [[[]|e] w2] eqn:Ew; [|discriminate];
      destruct (write_status_spec _ _ _ _ _ Ew) as (J & C & F & Hh & Hf)
  end.
  apply db_mark_job_done_ok in H. subst w'.
  eexists _, started, (time_time E (clock w)), _. cbv zeta.
  cbn [jobs history fs record with_jobs].
  assert (Hn : int_or_none throws = throws_of (parsed_file (fs w) (combined_analysis jid))).
  { unfold throws_of. rewrite Hd. rewrite <- Hs0, Hs, <- Hth. reflexivity. }
  split; [|split; [|split]].
  - rewrite J. cbn [jobs tick]. rewrite Hn. reflexivity.
  - rewrite last_snoc, Hn. reflexivity.
  - exact Hf.
  - intros q Hq. rewrite (F q Hq). reflexivity.
Qed.

(** A run that returns went through the last stage or through the
    handler. *)
Lemma start_background_job_ok_inv jid side front model no_ai w w' :
  start_background_job E jid side front model no_ai w = (Ok tt, w') ->
  (exists w3, stage_result E jid side front w3 = (Ok tt, w'))
  \/ (exists e w3, on_failure E jid e w3 = (Ok tt, w')).
Proof.
  unfold start_background_job. intros H.
  unfold bind at 1 in H. unfold now at 1 in H. unfold bind at 1 in H.
  match type of H with
  | context [write_status ?j ?pl ?x] =>
      destruct (write_status j pl x) as [[[]|e] w1]; [|discriminate]
  end.
  rewrite (bind_ok _ _ _ _ _ (db_update_job_status_eq jid _ _ _ w1)) in H.
  set (w2 := record _ _) in H. unfold try_except in H.
  destruct (pipeline E jid side front model no_ai w2) as [[[]|e] w3] eqn:Ep.
  - inversion H; subst w'. left. unfold pipeline in Ep.
    unfold bind at 1 in Ep.
    destruct (stage_views E jid side front model no_ai w2) as [[[]|e] wa]; [|discriminate].
    unfold bind at 1 in Ep.
    destruct (stage_combine E jid side front wa) as [[[]|e] wb]; [|discriminate].
    unfold bind at 1 in Ep.
    destruct (stage_build E jid model no_ai wb) as [[[]|e] wc]; [|discriminate].
    exists wc. exact Ep.
  - right. exists e, w3. exact H.
Qed.

End Ending.

(** X17. When the worker returns, the job is over in both stores and they
    agree: the status document on disk and the row, if the job has one,
    both say [done], or both say [failed], with progress 1.0 and the
    stage of the same name. *)
Theorem worker_ends_in_a_terminal_state {codec : JsonCodec} (E : env) (jid : string)
    (side front : option path) (model : string) (no_ai : bool) (w w' : world) :
  start_background_job E jid side front model no_ai w = (Ok tt, w') ->
  exists s payload,
    (s = "done" \/ s = "failed")
    /\ fs w' !! _status_path jid = Some (File (list_byte_of_string (json_dumps payload)))
    /\ json_path ["status"] payload = Some (JStr s)
    /\ json_path ["stage"] payload = Some (JStr s)
    /\ json_path ["progress"] payload = Some (JFloat 1.0%Q)
    /\ (forall row, jobs w !! jid = Some row ->
          exists row',
            jobs w' !! jid = Some row'
            /\ status row' = s
            /\ stage row' = Some s
            /\ progress row' = Some 1.0%Q).
Proof.
  intros H.
  assert (Hrow : forall row, jobs w !! jid = Some row -> is_Some (jobs w' !! jid)).
  { intros row Hr.
    pose proof (own_start_background_job E jid side front model no_ai w jid) as Ho.
    rewrite H, Hr in Ho. cbn [snd] in Ho.
    destruct (jobs w' !! jid); [eexists; reflexivity | contradiction]. }
  destruct (start_background_job_ok_inv E _ _ _ _ _ _ _ H) as [(w3 & H3) | (e & w3 & H3)].
  - destruct (stage_result_row E _ _ _ _ _ H3) as (o & started & finished & res & Hd).
    cbv zeta in Hd. destruct Hd as (J & _ & Hf & _).
    exists "done", (status_payload jid "done" 1.0%Q "done" started (JFloat finished) JNull res).
    split; [left; reflexivity|]. split; [exact Hf|].
    split; [reflexivity|]. split; [reflexivity|]. split; [reflexivity|].
    intros row Hr. destruct (Hrow row Hr) as [row' Hr']. exists row'.
    split; [exact Hr'|]. rewrite J, lookup_alter_eq in Hr'.
    destruct (jobs w3 !! jid) as [r3|]; [|discriminate].
    cbn in Hr'. inversion Hr'. repeat split.
  - destruct (on_failure_spec E _ _ _ _ _ H3) as (J & _ & started & finished & _ & Hf).
    cbv zeta in J, Hf.
    eexists "failed", _. split; [right; reflexivity|]. split; [exact Hf|].
    split; [reflexivity|]. split; [reflexivity|]. split; [reflexivity|].
    intros row Hr. destruct (Hrow row Hr) as [row' Hr']. exists row'.
    split; [exact Hr'|]. rewrite J, lookup_alter_eq in Hr'.
    destruct (jobs w3 !! jid) as [r3|]; [|discriminate].
    cbn in Hr'. inversion Hr'. repeat split.
Qed.

Lemma worker_ends_in_a_terminal_state_witness :
  exists s payload,
    (s = "done" \/ s = "failed")
    /\ fs (ran build_fails) !! _status_path "0123456789ab"
       = Some (File (list_byte_of_string (json_dumps payload)))
    /\ json_path ["status"] payload = Some (JStr s)
    /\ (exists row', jobs (ran build_fails) !! "0123456789ab" = Some row'
                     /\ status row' = s).
Proof.
  assert (H : start_background_job (scripted_env build_fails) "0123456789ab"
                (Some ["uploads"; "0123456789ab_side.mp4"])
                (Some ["uploads"; "0123456789ab_front.mp4"])
                "gpt-5-mini" false (accepted build_fails)
              = (Ok tt, ran build_fails)).
  { rewrite (ran_eq build_fails) at 1.
    apply (f_equal2 pair); [vm_compute; reflexivity | reflexivity]. }
  destruct (worker_ends_in_a_terminal_state _ _ _ _ _ _ _ _ H)
    as (s & payload & Hs & Hf & Hst & _ & _ & Hrow).
  exists s, payload. split; [exact Hs|]. split; [exact Hf|]. split; [exact Hst|].
  assert (exists row, jobs (accepted build_fails) !! "0123456789ab" = Some row)
    as [row Hacc] by (eexists; vm_compute; reflexivity).
  destruct (Hrow row Hacc) as (row' & H1 & H2 & _).
  exists row'. split; assumption.
Defined.

(** X19. The links of a job that ended [done].  The links to the combined
    analysis, the lesson plan and the PDF are always set, whether or not
    the builder wrote those files; the link to the text plan is set
    exactly when that file exists; and the number of throws is the one
    the combined analysis holds in its summary. *)
Theorem links_of_a_done_job {codec : JsonCodec} (E : env) (jid : string)
    (side front : option path) (model : string) (no_ai : bool)
    (w w' : world) (r : result unit) (l : list event)
    (o a p t ls : option string) (n : option Z) :
  start_background_job E jid side front model no_ai w = (r, w') ->
  history w' = history w ++ l ->
  last l = Some (DbDone jid o a p t ls n) ->
  a = Some ("/results/" +:+ jid +:+ "/combined/analysis.json")
  /\ p = Some ("/results/" +:+ jid +:+ "/combined/practice_plan.pdf")
  /\ ls = Some ("/results/" +:+ jid +:+ "/combined/lesson_plan.json")
  /\ t = (if is_present (fs w') (_job_dir jid ++ ["combined"; "practice_plan.txt"])
          then Some ("/results/" +:+ jid +:+ "/combined/practice_plan.txt")
          else None)
  /\ n = throws_of (parsed_file (fs w') (combined_analysis jid))
  /\ (forall row, jobs w' !! jid = Some row ->
        status row = "done"
        /\ error_message row = None
        /\ overlay_url row = o
        /\ analysis_url row = a
        /\ practice_plan_url row = p
        /\ practice_plan_txt_url row = t
        /\ lesson_plan_url row = ls
        /\ throws_detected row = n).
Proof.
  intros H Hl Hlast.
  destruct (done_run_inv E _ _ _ _ _ _ _ _ _ _ _ _ _ _ _ H Hl Hlast) as (w3 & H3).
  destruct (stage_result_row E _ _ _ _ _ H3) as (o' & started & finished & res & Hd).
  cbv zeta in Hd. destruct Hd as (J & Hlast' & _ & F).
  assert (last (history w') = Some (DbDone jid o a p t ls n)) as Hl2
    by (rewrite Hl, last_app, Hlast; reflexivity).
  assert (Et : is_present (fs w') (_job_dir jid ++ ["combined"; "practice_plan.txt"])
               = is_present (fs w3) (_job_dir jid ++ ["combined"; "practice_plan.txt"]))
    by (apply is_present_frame; [cbn; lia | exact F]).
  assert (En : parsed_file (fs w') (combined_analysis jid)
               = parsed_file (fs w3) (combined_analysis jid))
    by (apply parsed_file_frame; [cbn; lia | exact F]).
  rewrite <- Et, <- En in J, Hlast'.
  rewrite Hlast' in Hl2. inversion Hl2; subst. clear Hl2.
  do 5 (split; [reflexivity|]).
  intros row Hrow. rewrite J, lookup_alter_eq in Hrow.
  destruct (jobs w3 !! jid) as [r3|]; [|discriminate].
  cbn in Hrow. injection Hrow as <-. repeat split.
Qed.

Lemma links_of_a_done_job_witness :
  exists o a p t ls n,
    last (job_events silent_build) = Some (DbDone "0123456789ab" o a p t ls n)
    /\ p = Some "/results/0123456789ab/combined/practice_plan.pdf"
    /\ fs (ran silent_build) !! (combined_dir "0123456789ab" ++ ["practice_plan.pdf"]) = None
    /\ t = None
    /\ n = Some 3.
Proof.
  assert (H3 : last (job_events silent_build)
               = Some (DbDone "0123456789ab"
                         (Some "/results/0123456789ab/side/overlay_release_web.mp4")
                         (Some "/results/0123456789ab/combined/analysis.json")
                         (Some "/results/0123456789ab/combined/practice_plan.pdf")
                         None
                         (Some "/results/0123456789ab/combined/lesson_plan.json")
                         (Some 3)))
    by (vm_compute; reflexivity).
  destruct (links_of_a_done_job _ _ _ _ _ _ _ _ _ _ _ _ _ _ _ _
              (ran_eq silent_build) (job_events_eq silent_build) H3)
    as (_ & Hp & _ & _ & _ & _).
  do 6 eexists. split; [exact H3|]. split; [exact Hp|].
  split; [vm_compute; reflexivity|]. split; reflexivity.
Defined.

(** ** Admission of one view *)

Section AdmitView.
Context {codec : JsonCodec} (E : env).

(** A save that is refused ends with the clean-up. *)
Lemma save_upload_raise_no_file upl dest max_bytes w c d w' :
  save_upload_with_limit upl dest max_bytes w = (Raise (HTTPException c d), w') ->
  (c = 413 \/ c = 500)
  /\ forall data, node_at (fs w') dest <> Some (File data).
Proof.
  unfold save_upload_with_limit. unfold bind at 1.
  destruct (mkdir_parents (parent dest) w) as [[[]|e] w1] eqn:E1.
  2:{ intros H. exfalso. inversion H; subst e w'.
      apply (py_only_mkdir_parents (parent dest) w c d). rewrite E1. reflexivity. }
  unfold try_except.
  destruct (save_upload_body upl dest max_bytes w1) as [[n|e] w2] eqn:E2; [discriminate|].
  assert (He : e = too_large max_bytes \/ exists t m, e = PyError t m).
  { unfold save_upload_body in E2. unfold bind at 1 in E2.
    pose proof (py_only_mkdir_parents [] w1) as _.
    destruct (open_wb dest w1) as [[[]|e0] w3] eqn:E3.
    - destruct (copy_loop dest max_bytes _ _ w3) as [[[] st] w4];
        inversion E2; subst; [right; eexists _, _; reflexivity | left; reflexivity].
    - inversion E2; subst e0 w3. destruct e as [c0 d0|t m]; [|right; eexists _, _; reflexivity].
      exfalso. unfold open_wb in E3. unfold_m.
      destruct (node_at (fs w1) dest) as [[?|]|];
        try discriminate;
        destruct (node_at (fs w1) (parent dest)) as [[?|]|]; discriminate. }
  destruct (remove_quietly_spec dest w2) as (w4 & E4 & _ & Hnone & _).
  destruct He as [->|(t & m & ->)]; unfold too_large; cbv beta iota;
    unfold bind; rewrite E4; intros H; inversion H; subst;
    (split; [|exact Hnone]); [left | right]; reflexivity.
Qed.

(** What an accepted view was stored as. *)
Lemma save_and_validate_ok_inv jid upl label w p ext w' :
  _save_and_validate E jid upl label w = (Ok (p, ext), w') ->
  p = upload_path_of jid label (filename upl)
  /\ ext = upload_suffix (filename upl)
  /\ jobs w' = jobs w.
Proof.
  intros H.
  pose proof (no_store_save_and_validate E jid upl label w) as [J _].
  rewrite H in J. cbn [snd] in J.
  unfold _save_and_validate in H. cbv zeta in H.
  fold (upload_suffix (filename upl)) in H.
  fold (upload_path_of jid label (filename upl)) in H.
  unfold bind at 1 in H.
  destruct (save_upload_with_limit upl _ MAX_UPLOAD_BYTES w) as [[n|e] w1];
    [|discriminate].
  unfold bind at 1 in H.
  destruct (try_except _ _ w1) as [[dur|e] w2]; [|discriminate].
  destruct (double_lt (double_add MAX_VIDEO_SECONDS (nearest_double 5 100)) dur).
  - exfalso. unfold bind in H.
    destruct (remove_quietly _ w2) as [[[]|?] ?]; discriminate.
  - inversion H. repeat split. exact J.
Qed.

(** X20. Whenever a view is refused with an [HTTPException] (the status is
    400, 413 or 500), no file is left where that view's upload was being
    stored. *)
Theorem save_and_validate_rejection_removes_upload (jid : string) (upl : UploadFile)
    (label : string) (w w' : world) (c : Z) (d : string) :
  _save_and_validate E jid upl label w = (Raise (HTTPException c d), w') ->
  (c = 400 \/ c = 413 \/ c = 500)
  /\ forall data,
       node_at (fs w') (upload_path_of jid label (filename upl)) <> Some (File data).
Proof.
  unfold _save_and_validate. cbv zeta. fold (upload_suffix (filename upl)).
  fold (upload_path_of jid label (filename upl)).
  set (dest := upload_path_of jid label (filename upl)).
  unfold bind at 1.
  destruct (save_upload_with_limit upl dest MAX_UPLOAD_BYTES w) as [[n|e] w1] eqn:E1.
  2:{ intros H. inversion H; subst e w1.
      destruct (save_upload_raise_no_file _ _ _ _ _ _ _ E1) as [Hc Hn].
      split; [right; exact Hc | exact Hn]. }
  unfold bind at 1. unfold try_except at 1.
  destruct (get_video_duration_seconds E dest w1) as [[dur|e] w2] eqn:E2.
  - destruct (double_lt (double_add MAX_VIDEO_SECONDS (nearest_double 5 100)) dur);
      [|discriminate].
    destruct (remove_quietly_spec dest w2) as (w3 & E3 & _ & Hnone & _).
    unfold bind. rewrite E3. intros H. inversion H; subst.
    split; [left; reflexivity | exact Hnone].
  - destruct (remove_quietly_spec dest w2) as (w3 & E3 & _ & Hnone & _).
    unfold bind at 1. rewrite E3. cbv beta iota. unfold raise at 1.
    intros H. inversion H; subst.
    split; [left; reflexivity | exact Hnone].
Qed.

End AdmitView.

Lemma save_and_validate_rejection_removes_upload_witness :
  let w' := snd (_save_and_validate (scripted_env all_well) "0123456789ab" clip_71s "front"
                   empty_world) in
  fs w' !! ["uploads"] = Some Dir
  /\ forall data, node_at (fs w') ["uploads"; "0123456789ab_front.mov"] <> Some (File data).
Proof.
  intros w'. split; [vm_compute; reflexivity|].
  refine (proj2 (save_and_validate_rejection_removes_upload (scripted_env all_well)
                   "0123456789ab" clip_71s "front" empty_world w' 400
                   "front video too long (71.0s). Max is 70 seconds." _)).
  subst w'. rewrite surjective_pairing at 1.
  apply (f_equal2 pair); [vm_compute; reflexivity | reflexivity].
Defined.

(** ** A request that is accepted *)

Lemma upload_suffix_nonempty name : String.eqb (upload_suffix name) "" = false.
Proof.
  unfold upload_suffix. cbv zeta.
  destruct (String.eqb (if String.eqb name "" then "" else lower (py_suffix name)) "") eqn:H;
    [reflexivity | exact H].
Qed.

Lemma str_or_self a : str_or a "" = a.
Proof. unfold str_or. destruct (String.eqb_spec a ""); congruence. Qed.

Section Accepted.
Context {codec : JsonCodec} (E : env).

Lemma admit_side_inv jid (side_video : option UploadFile) w sp ext name w' :
  match side_video with
  | Some upl =>
      if supplied side_video then
        let* '(p, ext) := _save_and_validate E jid upl "side" in
        ret (Some p, ext, filename upl)
      else ret (None, ".mov", "")
  | None => ret (None, ".mov", "")
  end w = (Ok (sp, ext, name), w') ->
  sp = (if supplied side_video
        then Some (upload_path_of jid "side" (name_of side_video)) else None)
  /\ str_or ext ".mov"
     = (if supplied side_video then upload_suffix (name_of side_video) else ".mov")
  /\ name = (if supplied side_video then name_of side_video else "")
  /\ jobs w' = jobs w
  /\ exists l, history w' = history w ++ l /\ filter is_store_write l = [].
Proof.
  destruct side_video as [upl|]; [destruct (supplied (Some upl)) eqn:Hs|]; cbn [name_of].
  - unfold bind. intros H.
    pose proof (no_store_save_and_validate E jid upl "side" w) as (_ & l & Hl & Fl).
    destruct (_save_and_validate E jid upl "side" w) as [[[p x]|e] w1] eqn:Es; [|discriminate].
    destruct (save_and_validate_ok_inv E _ _ _ _ _ _ _ Es) as (-> & -> & J).
    inversion H; subst. cbn [snd] in Hl.
    split; [reflexivity|]. split.
    { unfold str_or. rewrite upload_suffix_nonempty. reflexivity. }
    split; [reflexivity|]. split; [exact J|]. exists l. split; assumption.
  - intros H. inversion H; subst. repeat split. exists []. rewrite app_nil_r. split; reflexivity.
  - intros H. inversion H; subst. repeat split. exists []. rewrite app_nil_r. split; reflexivity.
Qed.

Lemma admit_front_inv jid (front_video : option UploadFile) (name_for_db : string)
    w fp name w' :
  match front_video with
  | Some upl =>
      if supplied front_video then
        let* '(p, ext_used2) := _save_and_validate E jid upl "front" in
        ret (Some p, if String.eqb name_for_db "" then filename upl else name_for_db)
      else ret (None, name_for_db)
  | None => ret (None, name_for_db)
  end w = (Ok (fp, name), w') ->
  fp = (if supplied front_video
        then Some (upload_path_of jid "front" (name_of front_video)) else None)
  /\ name = (if String.eqb name_for_db "" then name_of front_video else name_for_db)
  /\ jobs w' = jobs w
  /\ exists l, history w' = history w ++ l /\ filter is_store_write l = [].
Proof.
  destruct front_video as [upl|]; [destruct (supplied (Some upl)) eqn:Hs|]; cbn [name_of].
  - unfold bind. intros H.
    pose proof (no_store_save_and_validate E jid upl "front" w) as (_ & l & Hl & Fl).
    destruct (_save_and_validate E jid upl "front" w) as [[[p x]|e] w1] eqn:Es; [|discriminate].
    destruct (save_and_validate_ok_inv E _ _ _ _ _ _ _ Es) as (-> & -> & J).
    inversion H; subst. cbn [snd] in Hl.
    split; [reflexivity|]. split; [reflexivity|]. split; [exact J|].
    exists l. split; assumption.
  - intros H. injection H as <- <- <-. split; [reflexivity|]. split.
    { unfold supplied in Hs. apply negb_false_iff, String.eqb_eq in Hs. rewrite Hs.
      destruct (String.eqb_spec name_for_db "") as [->|]; reflexivity. }
    split; [reflexivity|]. exists []. rewrite app_nil_r. split; reflexivity.
  - intros H. injection H as <- <- <-. split; [reflexivity|]. split.
    { destruct (String.eqb_spec name_for_db "") as [->|]; reflexivity. }
    split; [reflexivity|]. exists []. rewrite app_nil_r. split; reflexivity.
Qed.


Lemma bind_ok_inv {A B} (m : M A) (k : A -> M B) w b w' :
  bind m k w = (Ok b, w') -> exists a w1, m w = (Ok a, w1) /\ k a w1 = (Ok b, w').
Proof.
  unfold bind. destruct (m w) as [[a|e] w1]; [|discriminate].
  intros H. exists a, w1. split; [reflexivity | exact H].
Qed.

(** Everything an accepted request has done. *)
Lemma analyze_ok_inv side front user model no_ai w body t w' :
  analyze E side front user model no_ai w = (Ok (body, t), w') ->
  let jid := str_take 12 (uuid4_hex E (clock w)) in
  let sp := if supplied side then Some (upload_path_of jid "side" (name_of side)) else None in
  let fp := if supplied front
            then Some (upload_path_of jid "front" (name_of front)) else None in
  let row := queued_row jid user (time_time E (S (clock w)))
               (if supplied side then name_of side else name_of front)
               (if supplied side then upload_suffix (name_of side) else ".mov")
               (match sp, fp with
                | Some p, _ => path_str p
                | None, Some p => path_str p
                | None, None => ""
                end) in
  (supplied side || supplied front) = true
  /\ body = JDict [("job_id", JStr jid);
                   ("status_url", JStr ("/jobs/" +:+ jid));
                   ("message", JStr "Thanks for uploading. Analysis started.")]
  /\ t = {| t_job_id := jid; t_side_path := sp; t_front_path := fp;
            t_model := model; t_no_ai := no_ai |}
  /\ jobs w !! jid = None
  /\ jobs w' = <[jid := row]> (jobs w)
  /\ fs w' !! _status_path jid
     = Some (File (list_byte_of_string (json_dumps (queued_placeholder jid))))
  /\ exists pre,
       history w' = history w ++ pre ++ [DocWrite jid (queued_placeholder jid); DbInsert row]
       /\ filter is_store_write pre = [].
Proof.
  intros H. cbv zeta. unfold analyze in H.
  destruct (negb (supplied side) && negb (supplied front)) eqn:Hsup; [discriminate|].
  apply bind_ok_inv in H as (jid & w1 & Hjid & H).
  unfold new_job_id in Hjid. injection Hjid as <- <-.
  apply bind_ok_inv in H as (created & w2 & Hnow & H).
  unfold now in Hnow. injection Hnow as <- <-. cbn [clock tick] in H.
  apply bind_ok_inv in H as ([[sp ext] name] & w3 & Hside & H).
  apply admit_side_inv in Hside as (Hsp & Hext & Hname & J3 & l3 & Hl3 & F3).
  apply bind_ok_inv in H as ([fp name'] & w4 & Hfront & H).
  apply admit_front_inv in Hfront as (Hfp & Hname' & J4 & l4 & Hl4 & F4).
  apply bind_ok_inv in H as ([] & w5 & Hmk & H).
  destruct (mkdir_from_frame _ _ _ _ _ Hmk) as (J5 & _ & _).
  pose proof (keeps_mkdir_parents (_job_dir (str_take 12 (uuid4_hex E (clock w)))) w4) as H5.
  rewrite Hmk in H5. cbn [snd] in H5.
  apply bind_ok_inv in H as ([] & w6 & Hws & H).
  destruct (write_status_spec _ _ _ _ _ Hws) as (J6 & _ & _ & H6 & F6).
  apply bind_ok_inv in H as ([] & w7 & Hins & H).
  injection H as <- <- <-.
  unfold db_insert_job in Hins. cbv zeta in Hins. unfold bind at 1 in Hins.
  unfold get at 1 in Hins. cbv beta iota in Hins.
  destruct (jobs w6 !! str_take 12 (uuid4_hex E (clock w))) eqn:Hfresh; [discriminate|].
  unfold bind, modify in Hins. injection Hins as <-.
  cbn [jobs fs history record with_jobs].
  assert (Hj : jobs w6 = jobs w) by (rewrite J6, J5, J4, J3; reflexivity).
  assert (Hn : (if String.eqb name "" then name_of front else name)
               = (if supplied side then name_of side else name_of front)).
  { rewrite Hname. destruct side as [u|]; cbn [supplied name_of]; [|reflexivity].
    destruct (String.eqb_spec (filename u) "") as [He|He]; cbn [negb]; [reflexivity|].
    destruct (String.eqb_spec (filename u) ""); [contradiction | reflexivity]. }
  split.
  { destruct (supplied side), (supplied front); try reflexivity. discriminate. }
  split; [reflexivity|].
  split; [rewrite Hsp, Hfp; reflexivity|].
  split; [rewrite <- Hj; exact Hfresh|].
  split.
  { rewrite Hj. f_equal. unfold queued_row. rewrite Hext, Hname', Hn, str_or_self, Hsp, Hfp.
    reflexivity. }
  split; [exact F6|].
  exists (l3 ++ l4). split.
  - rewrite H6, H5, Hl4, Hl3. cbn [history tick]. rewrite <- !app_assoc. cbn [app].
    do 4 f_equal. unfold queued_row. rewrite Hext, Hname', Hn, str_or_self, Hsp, Hfp.
    reflexivity.
  - rewrite filter_app, F3, F4. reflexivity.
Qed.

End Accepted.

(** X22. A request that is accepted has supplied at least one view; it has
    inserted one row, fresh and [queued], and written one status
    document, and nothing else to either store.  The document is the one
    [read_status] invents for a job directory without document, so a
    client that polls at once reads [queued]. *)
Theorem analyze_accepts_as_queued {codec : JsonCodec} (E : env)
    (side front : option UploadFile) (user model : string) (no_ai : bool)
    (w w' : world) (body : json) (t : thread) :
  analyze E side front user model no_ai w = (Ok (body, t), w') ->
  let jid := t_job_id t in
  (supplied side || supplied front) = true
  /\ jid = str_take 12 (uuid4_hex E (clock w))
  /\ body = JDict [("job_id", JStr jid);
                   ("status_url", JStr ("/jobs/" +:+ jid));
                   ("message", JStr "Thanks for uploading. Analysis started.")]
  /\ jobs w !! jid = None
  /\ (exists name ext up,
        jobs w' = <[jid := queued_row jid user (time_time E (S (clock w))) name ext up]>
                    (jobs w)
        /\ exists l,
             history w' = history w ++ l
             /\ filter is_store_write l
                = [DocWrite jid (queued_placeholder jid);
                   DbInsert (queued_row jid user (time_time E (S (clock w))) name ext up)])
  /\ fs w' !! _status_path jid
     = Some (File (list_byte_of_string (json_dumps (queued_placeholder jid))))
  /\ (json_loads (json_dumps (queued_placeholder jid)) = Some (queued_placeholder jid) ->
      job jid w' = (Ok (queued_placeholder jid), w')).
Proof.
  intros H. destruct (analyze_ok_inv E _ _ _ _ _ _ _ _ _ H)
    as (Hs & Hb & Ht & Hf & Hj & Hd & pre & Hh & Hp).
  cbv zeta. rewrite Ht. cbn [t_job_id].
  split; [exact Hs|]. split; [reflexivity|]. split; [exact Hb|]. split; [exact Hf|].
  split.
  { eexists _, _, _. split; [exact Hj|]. eexists. split; [exact Hh|].
    rewrite filter_app, Hp. reflexivity. }
  split; [exact Hd|].
  intros Hrt. unfold job. rewrite read_status_eq, Hd, string_of_list_byte_of_string, Hrt.
  reflexivity.
Qed.

Lemma analyze_accepts_as_queued_witness :
  job "0123456789ab" (accepted all_well)
  = (Ok (queued_placeholder "0123456789ab"), accepted all_well).
Proof.
  assert (H : analyze (scripted_env all_well) (Some clip_10s) (Some clip_10s) "dev_user"
                "gpt-5-mini" false empty_world
              = (Ok (JDict [("job_id", JStr "0123456789ab");
                            ("status_url", JStr "/jobs/0123456789ab");
                            ("message", JStr "Thanks for uploading. Analysis started.")],
                     {| t_job_id := "0123456789ab";
                        t_side_path := Some ["uploads"; "0123456789ab_side.mp4"];
                        t_front_path := Some ["uploads"; "0123456789ab_front.mp4"];
                        t_model := "gpt-5-mini"; t_no_ai := false |}),
                 accepted all_well)).
  { unfold accepted. rewrite surjective_pairing at 1.
    apply (f_equal2 pair); [vm_compute; reflexivity | reflexivity]. }
  destruct (analyze_accepts_as_queued _ _ _ _ _ _ _ _ _ _ H) as (_ & _ & _ & _ & _ & _ & Hj).
  apply Hj. vm_compute. reflexivity.
Defined.

(** X23. What the row of an accepted request records about the upload.  The
    side view comes first: its file name and its stored path are
    recorded whenever it was supplied, else the front view's.  The
    extension is the side view's too; for a request with a front view
    only it is [.mov], whatever extension the front file was stored
    under. *)
Theorem analyze_row_records_first_view {codec : JsonCodec} (E : env)
    (side front : option UploadFile) (user model : string) (no_ai : bool)
    (w w' : world) (body : json) (t : thread) :
  analyze E side front user model no_ai w = (Ok (body, t), w') ->
  let jid := t_job_id t in
  t_side_path t
  = (if supplied side then Some (upload_path_of jid "side" (name_of side)) else None)
  /\ t_front_path t
     = (if supplied front then Some (upload_path_of jid "front" (name_of front)) else None)
  /\ exists row,
       jobs w' !! jid = Some row
       /\ user_id row = user
       /\ original_filename row
          = Some (if supplied side then name_of side else name_of front)
       /\ upload_ext row
          = Some (if supplied side then upload_suffix (name_of side) else ".mov")
       /\ upload_path row
          = Some (path_str (if supplied side
                            then upload_path_of jid "side" (name_of side)
                            else upload_path_of jid "front" (name_of front))).
Proof.
  intros H. destruct (analyze_ok_inv E _ _ _ _ _ _ _ _ _ H)
    as (Hs & _ & Ht & _ & Hj & _).
  cbv zeta. rewrite Ht. cbn [t_job_id t_side_path t_front_path].
  split; [reflexivity|]. split; [reflexivity|].
  eexists. split; [rewrite Hj; apply lookup_insert_eq|].
  cbn [queued_row user_id original_filename upload_ext upload_path].
  split; [reflexivity|]. split; [reflexivity|]. split; [reflexivity|].
  destruct (supplied side); [reflexivity|].
  destruct (supplied front); [reflexivity | discriminate].
Qed.

Lemma analyze_row_records_first_view_witness :
  let w' := snd (analyze (scripted_env all_well) None (Some clip_10s) "dev_user"
                   "gpt-5-mini" false empty_world) in
  exists row,
    jobs w' !! "0123456789ab" = Some row
    /\ original_filename row = Some "throw.MP4"
    /\ upload_ext row = Some ".mov"
    /\ upload_path row = Some "uploads/0123456789ab_front.mp4".
Proof.
  intros w'.
  assert (H : analyze (scripted_env all_well) None (Some clip_10s) "dev_user"
                "gpt-5-mini" false empty_world
              = (Ok (JDict [("job_id", JStr "0123456789ab");
                            ("status_url", JStr "/jobs/0123456789ab");
                            ("message", JStr "Thanks for uploading. Analysis started.")],
                     {| t_job_id := "0123456789ab";
                        t_side_path := None;
                        t_front_path := Some ["uploads"; "0123456789ab_front.mp4"];
                        t_model := "gpt-5-mini"; t_no_ai := false |}),
                 w')).
  { subst w'. rewrite surjective_pairing at 1.
    apply (f_equal2 pair); [vm_compute; reflexivity | reflexivity]. }
  destruct (analyze_row_records_first_view _ _ _ _ _ _ _ _ _ _ H)
    as (_ & _ & row & Hr & _ & Hn & He & Hp).
  exists row. split; [exact Hr|]. split; [exact Hn|]. split; [exact He|].
  rewrite Hp. vm_compute. reflexivity.
Defined.

(** ** The extension of a stored upload *)

Lemma chars_text l : chars (text l) = l.
Proof. apply list_ascii_of_string_of_list_ascii. Qed.

Lemma text_chars s : text (chars s) = s.
Proof. apply string_of_list_ascii_of_string. Qed.

Lemma find_dot_Some l : forall j,
  find_dot l = Some j ->
  exists pre post,
    l = pre ++ "."%char :: post /\ length pre = j
    /\ Forall (fun c => c <> "."%char) pre.
Proof.
  induction l as [|c l IH]; intros j H; cbn [find_dot] in H; [discriminate|].
  destruct (Ascii.eqb_spec c ".") as [->|Hc].
  - injection H as <-. exists [], l. repeat split. constructor.
  - destruct (find_dot l) as [j'|]; [|discriminate]. injection H as <-.
    destruct (IH j' eq_refl) as (pre & post & -> & Hl & Hp).
    exists (c :: pre), post. cbn [app length]. repeat split; [congruence|].
    constructor; assumption.
Qed.

Lemma split_slash_pieces s : forall cur,
  Forall (fun c => c <> "/"%char) cur ->
  Forall (Forall (fun c => c <> "/"%char)) (split_slash cur s).
Proof.
  induction s as [|c s IH]; intros cur Hcur; cbn [split_slash].
  - constructor; [|constructor]. apply Forall_rev, Hcur.
  - destruct (Ascii.eqb_spec c "/") as [->|Hc].
    + constructor; [apply Forall_rev, Hcur|]. apply IH. constructor.
    + apply IH. constructor; assumption.
Qed.

Lemma last_Forall {A} (P : A -> Prop) (l : list A) d :
  P d -> Forall P l -> P (List.last l d).
Proof.
  intros Hd. induction 1 as [|x l Hx Hl IH]; [exact Hd|].
  destruct l as [|y l]; [exact Hx | exact IH].
Qed.

Lemma path_name_no_slash s : Forall (fun c => c <> "/"%char) (path_name s).
Proof.
  unfold path_name. apply last_Forall; [constructor|].
  apply Forall_forall. intros x Hx. apply list_elem_of_filter in Hx as [_ Hx].
  pose proof (split_slash_pieces (chars s) [] (List.Forall_nil _)) as H.
  rewrite Forall_forall in H. exact (H x Hx).
Qed.

(** A suffix is empty, or a dot followed by characters of the name with
    no dot and no slash among them. *)
Lemma py_suffix_shape s :
  py_suffix s = ""
  \/ exists tail,
       py_suffix s = text ("."%char :: tail)
       /\ tail <> []
       /\ Forall (fun c => c <> "/"%char /\ c <> "."%char) tail.
Proof.
  unfold py_suffix. cbv zeta.
  pose proof (path_name_no_slash s) as Hns.
  set (name := path_name s) in *.
  destruct (find_dot (rev name)) as [j|] eqn:Hj; [|left; reflexivity].
  destruct (find_dot_Some _ _ Hj) as (pre & post & Hrev & Hlen & Hpre).
  assert (Hname : name = rev post ++ "."%char :: rev pre).
  { rewrite <- (rev_involutive name), Hrev, rev_app_distr. cbn [rev].
    rewrite <- app_assoc. reflexivity. }
  destruct (_ && _) eqn:Hc; [|left; reflexivity]. right.
  apply andb_true_iff in Hc as [H1 H2].
  apply Nat.ltb_lt in H1, H2.
  assert (Hl : length name = (length post + S (length pre))%nat).
  { rewrite Hname, length_app. cbn [length]. rewrite !length_rev. reflexivity. }
  assert (Hi : (length name - 1 - j = length (rev post))%nat)
    by (rewrite length_rev; lia).
  exists (rev pre). rewrite Hi, Hname, drop_app_length.
  split; [reflexivity|]. split.
  - destruct pre; [cbn in Hlen; lia|]. cbn [rev]. intros Hnil.
    apply app_eq_nil in Hnil as [_ Hnil]. discriminate.
  - rewrite Hname in Hns. apply Forall_app in Hns as [_ Hns].
    apply Forall_cons in Hns as [_ Hns].
    apply Forall_forall. intros c Hc. split.
    + rewrite Forall_forall in Hns. exact (Hns c Hc).
    + apply Forall_rev in Hpre. rewrite Forall_forall in Hpre. exact (Hpre c Hc).
Qed.

Lemma lower_char_keeps c :
  (c <> "/"%char -> lower_char c <> "/"%char)
  /\ (c <> "."%char -> lower_char c <> "."%char)
  /\ lower_char (lower_char c) = lower_char c.
Proof.
  destruct c as [[] [] [] [] [] [] [] []]; vm_compute;
    (split; [|split]); try reflexivity; intros H; try discriminate; congruence.
Qed.

(** The stored extension is never empty and never leaves the directory. *)
Lemma upload_suffix_shape (name : string) :
  exists tail,
    chars (upload_suffix name) = "."%char :: tail
    /\ tail <> []
    /\ Forall (fun c => c <> "/"%char /\ c <> "."%char /\ lower_char c = c) tail.
Proof.
  assert (Hmov : exists tail,
             chars ".mov" = "."%char :: tail /\ tail <> []
             /\ Forall (fun c => c <> "/"%char /\ c <> "."%char /\ lower_char c = c) tail).
  { exists (chars "mov"). split; [reflexivity|]. split; [discriminate|].
    repeat constructor; discriminate. }
  unfold upload_suffix. cbv zeta.
  destruct (String.eqb name ""); [exact Hmov|].
  destruct (String.eqb_spec (lower (py_suffix name)) "") as [_|Hne]; [exact Hmov|].
  destruct (py_suffix_shape name) as [He|(tail & He & Hnil & Hall)].
  - exfalso. apply Hne. rewrite He. reflexivity.
  - exists (map lower_char tail). unfold lower. rewrite He, !chars_text. cbn [map].
    split; [reflexivity|]. split.
    + destruct tail; [congruence | discriminate].
    + apply Forall_forall. intros c Hc.
      apply list_elem_of_In, in_map_iff in Hc as (c0 & <- & Hc0).
      apply list_elem_of_In in Hc0. rewrite Forall_forall in Hall.
      destruct (Hall c0 Hc0) as [H1 H2].
      destruct (lower_char_keeps c0) as (K1 & K2 & K3).
      split; [exact (K1 H1)|]. split; [exact (K2 H2) | exact K3].
Qed.

Example upload_suffix_of_a_phone_clip :
  upload_suffix (filename clip_from_phone) = ".mp4"
  /\ upload_path_of "0123456789ab" "side" (filename clip_from_phone)
     = ["uploads"; "0123456789ab_side.mp4"]
  /\ upload_suffix "clip" = ".mov"
  /\ upload_suffix ".hidden" = ".mov"
  /\ upload_suffix "archive.tar.GZ" = ".gz".
Proof. repeat split; vm_compute; reflexivity. Qed.

(** X21. Whatever file name the client sends, an accepted upload is stored as
    [<job_id>_<label><extension>] directly in the uploads directory: the
    extension is a dot followed by at least one character, none of them
    a slash, a dot or an upper-case ASCII letter. *)
Theorem stored_upload_name {codec : JsonCodec} (E : env) (jid : string) (upl : UploadFile)
    (label : string) (w w' : world) (p : path) (ext : string) :
  _save_and_validate E jid upl label w = (Ok (p, ext), w') ->
  p = UPLOADS_DIR ++ [jid +:+ "_" +:+ label +:+ ext]
  /\ exists tail,
       chars ext = "."%char :: tail
       /\ tail <> []
       /\ Forall (fun c => c <> "/"%char /\ c <> "."%char /\ lower_char c = c) tail.
Proof.
  intros H. destruct (save_and_validate_ok_inv E _ _ _ _ _ _ _ H) as (-> & -> & _).
  split; [reflexivity|]. apply upload_suffix_shape.
Qed.

Lemma stored_upload_name_witness :
  exists w',
    _save_and_validate (scripted_env all_well) "0123456789ab" clip_from_phone "side"
      empty_world
    = (Ok (["uploads"; "0123456789ab_side.mp4"], ".mp4"), w')
    /\ chars ".mp4" = "."%char :: chars "mp4".
Proof.
  exists (snd (_save_and_validate (scripted_env all_well) "0123456789ab" clip_from_phone
                 "side" empty_world)).
  assert (H : _save_and_validate (scripted_env all_well) "0123456789ab" clip_from_phone
                "side" empty_world
              = (Ok (["uploads"; "0123456789ab_side.mp4"], ".mp4"),
                 snd (_save_and_validate (scripted_env all_well) "0123456789ab"
                        clip_from_phone "side" empty_world))).
  { rewrite surjective_pairing at 1.
    apply (f_equal2 pair); [vm_compute; reflexivity | reflexivity]. }
  destruct (stored_upload_name _ _ _ _ _ _ _ _ H) as [_ _].
  split; [exact H | reflexivity].
Defined.

(** ** One view of the engine *)

Lemma str_tail_length n s : (String.length (str_tail n s) <= n)%nat.
Proof.
  unfold str_tail. cbv zeta.
  rewrite <- (text_chars (text (drop (length (chars s) - n) (chars s)))).
  rewrite chars_text.
  assert (forall l, String.length (text l) = length l) as Hlen.
  { induction l as [|c l IH]; [reflexivity|]. cbn. f_equal. exact IH. }
  rewrite Hlen, length_drop. lia.
Qed.

Lemma text_app l1 l2 : text (l1 ++ l2) = text l1 +:+ text l2.
Proof.
  unfold text. induction l1 as [|c l1 IH]; [reflexivity|].
  cbn [app string_of_list_ascii]. rewrite IH. reflexivity.
Qed.

Lemma str_tail_suffix n s : exists pre, s = pre +:+ str_tail n s.
Proof.
  unfold str_tail. cbv zeta. exists (text (take (length (chars s) - n) (chars s))).
  rewrite <- text_app, take_drop, text_chars. reflexivity.
Qed.

(** X14. [_run_single_view] makes the output directory and then starts the
    engine once, on a disk where that directory exists; when the
    directory cannot be made no process is started.  Once
    [subprocess.run] has returned the result of the engine, the function
    returns when the exit code is zero; otherwise it raises a
    [RuntimeError] that names the view and the exit code and quotes the
    end of the engine's error output, at most 1200 characters of it.
    ([run] is [subprocess.run] when it returns: see its definition.) *)
Theorem run_single_view_runs_once (E : env) (jid view : string) (up : path)
    (model : string) (no_ai : bool) (w : world) :
  let outdir := _job_dir jid ++ [view] in
  let cmd := [sys_executable E; "-u"; path_str RUN_ENGINE;
              "--input"; path_str up; "--outdir"; path_str outdir; "--model"; model]
             ++ (if no_ai then ["--no-ai"] else []) in
  let r := fst (_run_single_view E jid view up model no_ai w) in
  let w' := snd (_run_single_view E jid view up model no_ai w) in
  (exists e, fst (mkdir_parents outdir w) = Raise e /\ r = Raise e
             /\ history w' = history w)
  \/ (exists m0 res tail,
         node_at m0 outdir = Some Dir
         /\ subprocess_run E cmd m0 = (res, fs w')
         /\ history w' = history w ++ [ProcExit cmd res (fs w')]
         /\ tail = str_tail 1200 (stderr res)
         /\ (String.length tail <= 1200)%nat
         /\ (exists pre, stderr res = pre +:+ tail)
         /\ r = if returncode res =? 0 then Ok tt
                else Raise (PyError "RuntimeError"
                              (view +:+ " pipeline failed (exit " +:+ pretty (returncode res)
                               +:+ "). STDERR tail: " +:+ tail))).
Proof.
  cbv zeta. destruct (_run_single_view E jid view up model no_ai w) as [r w'] eqn:H.
  cbn [fst snd]. unfold _run_single_view in H. cbv zeta in H. unfold bind at 1 in H.
  pose proof (keeps_mkdir_parents (_job_dir jid ++ [view]) w) as Hk.
  destruct (mkdir_parents (_job_dir jid ++ [view]) w) as [[[]|e] w1] eqn:E1; cbn [snd] in Hk.
  2:{ left. exists e. inversion H; subst. repeat split. exact Hk. }
  right. unfold bind, run in H.
  set (cmd := _ ++ no_ai_flag no_ai) in H.
  destruct (subprocess_run E cmd (fs w1)) as [res m] eqn:E2.
  exists (fs w1), res, (str_tail 1200 (stderr res)).
  split; [exact (mkdir_parents_dir _ _ _ E1)|].
  destruct (Z.eqb_spec (returncode res) 0) as [H0|H0]; cbn [negb] in H;
    inversion H; subst r w'; cbn [fs history record with_fs];
    (split; [exact E2|]); (split; [rewrite Hk; reflexivity|]);
    (split; [reflexivity|]); (split; [apply str_tail_length|]);
    (split; [apply str_tail_suffix | reflexivity]).
Qed.

(** ** When the worker itself raises *)



(** The job below is left as it was found by a worker that has ended:
    its row still says [running], as before the worker was started. *)
Example row_after_a_failed_start :
  let w' := snd (start_background_job (scripted_env all_well) "0123456789ab"
                   (Some ["uploads"; "0123456789ab_side.mp4"]) None "gpt-5-mini" false
                   results_is_a_file) in
  status <$> jobs w' !! "0123456789ab" = Some "running".
Proof. vm_compute. reflexivity. Qed.

(** A combined analysis that is not a JSON object makes the last stage
    fail on [.get], and the job with it, although every process exited
    with zero. *)
Example list_shaped_analysis_fails_the_job :
  exit_codes (job_events list_shaped_analysis) = [0; 0; 0; 0]
  /\ (status <$> jobs (ran list_shaped_analysis) !! "0123456789ab") = Some "failed"
  /\ (error_message <$> jobs (ran list_shaped_analysis) !! "0123456789ab")
     = Some (Some "AttributeError: 'list' object has no attribute 'get'").
Proof. repeat split; vm_compute; reflexivity. Qed.
